(** * IvaSmsScraper: the session-and-extraction engine of app/scraper.py

    A shallow embedding of the class [IvaSmsScraper] and the properties of
    its dedup, extraction and session operations.

    - The browser is an opaque capability: the class [Driver] below lists
      the Selenium calls the engine makes.  Each call runs on a world [W]
      (the browser, the portal, the clock) and either returns a value or
      raises a Python exception; the world it leaves behind is kept in both
      cases.
    - An engine method is a computation [M A]: it reads and updates the
      attributes of [self] and the world, and ends with a value or a raised
      exception.  Attribute updates made before an exception are kept, as
      in Python.
    - [sent_otps] is a Python [set] of [str]: a [gset string].
    - A [str] is a [string]; its characters are the code points below 256.

    The quotes the source file writes as backslash-quote are read as the
    quotes they stand for. *)

From Stdlib Require Import ZArith Ascii String.
From stdpp Require Import base option list gmap strings pretty.

Open Scope Z_scope.
Open Scope string_scope.
Open Scope list_scope.

(** ** Python exceptions *)

(** The classes the engine's [except] clauses tell apart.  An exception the
    model raises carries its most specific class among these:
    [WebDriverException] stands for that class and for its subclasses other
    than the two named ones (a stale element reference, a lost session);
    [PyException] for any other subclass of [Exception]. *)
Inductive exn_class : Type :=
  | PyException
  | AttributeError
  | WebDriverException
  | TimeoutException
  | NoSuchElementException.

#[global] Instance exn_class_eq_dec : EqDecision exn_class.
Proof. solve_decision. Defined.

Record exn : Type := Exn { exn_cls : exn_class; exn_str : string }.

(** [issubclass c d]: selenium.common.exceptions makes [TimeoutException]
    and [NoSuchElementException] subclasses of [WebDriverException];
    everything is an [Exception]. *)
Definition issubclass (c d : exn_class) : bool :=
  match d, c with
  | PyException, _ => true
  | AttributeError, AttributeError => true
  | WebDriverException, (WebDriverException | TimeoutException | NoSuchElementException) => true
  | TimeoutException, TimeoutException => true
  | NoSuchElementException, NoSuchElementException => true
  | _, _ => false
  end.

Definition isinstance (e : exn) (c : exn_class) : bool := issubclass (exn_cls e) c.

(** [except (c1, c2, ...)]. *)
Definition isinstance_any (e : exn) (cs : list exn_class) : bool :=
  existsb (isinstance e) cs.

(** ** Strings *)

(** [str.isspace] on one character, for the code points below 256. *)
Definition isspace (c : ascii) : bool :=
  let n := nat_of_ascii c in
  ((9 <=? n) && (n <=? 13))%nat || ((28 <=? n) && (n <=? 32))%nat
  || (n =? 133)%nat || (n =? 160)%nat.

Fixpoint lstrip (s : string) : string :=
  match s with
  | String c s' => if isspace c then lstrip s' else s
  | EmptyString => EmptyString
  end.

Definition rstrip (s : string) : string := String.rev (lstrip (String.rev s)).

(** [s.strip()]. *)
Definition strip (s : string) : string := rstrip (lstrip s).

(** Truth value of a [str] and of a [list]. *)
Definition str_truthy (s : string) : bool :=
  match s with EmptyString => false | _ => true end.

Definition list_truthy {A} (l : list A) : bool :=
  match l with [] => false | _ => true end.

(** ** Locators and expected conditions *)

Inductive By : Type := By_ID | By_NAME | By_XPATH | By_CLASS_NAME | By_CSS_SELECTOR.

#[global] Instance By_eq_dec : EqDecision By.
Proof. solve_decision. Defined.

Definition locator : Type := By * string.

(** The conditions of [selenium.webdriver.support.expected_conditions] the
    engine builds.  Each is a callable object. *)
Inductive cond : Type :=
  | presence_of_element_located (l : locator)
  | element_to_be_clickable (l : locator)
  | invisibility_of_element_located (l : locator)
  | url_contains (s : string)
  | url_to_be (s : string).

(** A condition is a function object, and a function object is true. *)
Definition cond_truthy (c : cond) : bool := true.

(** Python's [a or b] on two condition objects: [a] if [a] is true, else
    [b].  No condition is combined: the result is one of the operands. *)
Definition py_or (a b : cond) : cond := if cond_truthy a then a else b.

(** What [WebDriverWait(...).until(c)] returns when [c] resolves. *)
Definition wait_value (E : Type) (c : cond) : Type :=
  match c with
  | presence_of_element_located _ | element_to_be_clickable _ => E
  | _ => bool
  end.

(** ** The driver capability *)

(** [W]: the world; [H]: a driver handle (a [webdriver.Chrome] object);
    [E]: a [WebElement].  [until h t c] is [WebDriverWait(h, t).until(c)].
    [quit] of a Chrome driver passes over every exception of the session's
    shutdown and then stops the service, so [driver_quit] returns; so does
    [time.sleep]. *)
Class Driver (W H E : Type) : Type := {
  Chrome : list string -> W -> (exn + H) * W;
  set_page_load_timeout : H -> Z -> W -> (exn + unit) * W;
  implicitly_wait : H -> Z -> W -> (exn + unit) * W;
  driver_quit : H -> W -> W;
  driver_get : H -> string -> W -> (exn + unit) * W;
  until : H -> Z -> forall c : cond, W -> (exn + wait_value E c) * W;
  find_element : H -> locator -> W -> (exn + E) * W;
  find_elements : H -> locator -> W -> (exn + list E) * W;
  elem_find_element : E -> locator -> W -> (exn + E) * W;
  elem_send_keys : E -> string -> W -> (exn + unit) * W;
  elem_click : E -> W -> (exn + unit) * W;
  elem_clear : E -> W -> (exn + unit) * W;
  elem_text : E -> W -> (exn + string) * W;
  sleep : Z -> W -> W
}.

(** ** The engine *)

Section Engine.

Context {W H E : Type} `{!Driver W H E}.

(** The attributes of an [IvaSmsScraper] object, the two places a
    notification goes to, and the world.  [notification_callback] records
    whether a callback is set; [notified] lists the messages it was called
    with and [printed] the messages written by [print], oldest first. *)
Record state : Type := State {
  email : string;
  password : string;
  driver : option H;
  sent_otps : gset string;
  notification_callback : bool;
  notified : list string;
  printed : list string;
  world : W
}.

Definition base_url : string := "https://www.ivasms.com".
Definition login_url : string := base_url ++ "/login".
Definition otp_page_url : string := base_url ++ "/portal/sms/received".

(** [IvaSmsScraper(email, password, notification_callback)] in world [w]. *)
Definition __init__ (em pw : string) (cb : bool) (w : W) : state :=
  State em pw None ∅ cb [] [] w.

Definition set_driver (d : option H) (st : state) : state :=
  State (email st) (password st) d (sent_otps st) (notification_callback st)
        (notified st) (printed st) (world st).

Definition set_sent_otps (s : gset string) (st : state) : state :=
  State (email st) (password st) (driver st) s (notification_callback st)
        (notified st) (printed st) (world st).

Definition set_world (w : W) (st : state) : state :=
  State (email st) (password st) (driver st) (sent_otps st) (notification_callback st)
        (notified st) (printed st) w.

(** *** Computations *)

Definition M (A : Type) : Type := state -> (exn + A) * state.

#[global] Instance M_ret : MRet M := λ A a st, (inr a, st).

#[global] Instance M_bind : MBind M := λ A B f m st,
  match m st with
  | (inr a, st') => f a st'
  | (inl e, st') => (inl e, st')
  end.

Definition raise {A} (e : exn) : M A := λ st, (inl e, st).

(** Runs [m] and hands over how it ended. *)
Definition attempt {A} (m : M A) : M (exn + A) := λ st,
  let (r, st') := m st in (inr r, st').

(** [try: m  except cs1 as e: h1 e  except cs2 as e: h2 e ...]: the first
    clause whose classes match handles the exception; with none, it goes
    on to the caller. *)
Fixpoint handle {A} (clauses : list (list exn_class * (exn -> M A))) (e : exn) : M A :=
  match clauses with
  | [] => raise e
  | (cs, h) :: rest => if isinstance_any e cs then h e else handle rest e
  end.

Definition try_except {A} (m : M A) (clauses : list (list exn_class * (exn -> M A))) : M A :=
  r ← attempt m;
  match r with
  | inr a => mret a
  | inl e => handle clauses e
  end.

(** A driver call on the world. *)
Definition call {A} (f : W -> (exn + A) * W) : M A := λ st,
  let (r, w) := f (world st) in (r, set_world w st).

(** [self.driver.attr]: an attribute of [None] is an [AttributeError]. *)
Definition none_has_no (attr : string) : exn :=
  Exn AttributeError ("'NoneType' object has no attribute '" ++ attr ++ "'").

Definition self_driver (attr : string) : M H := λ st,
  match driver st with
  | Some h => (inr h, st)
  | None => (inl (none_has_no attr), st)
  end.

(** The attribute a condition reads first from the driver it is called on. *)
Definition cond_attr (c : cond) : string :=
  match c with
  | url_contains _ | url_to_be _ => "current_url"
  | _ => "find_element"
  end.

(** [WebDriverWait(self.driver, t).until(c)]. *)
Definition WebDriverWait_until (t : Z) (c : cond) : M (wait_value E c) :=
  h ← self_driver (cond_attr c); call (until h t c).

(** *** _send_notification *)

Definition _send_notification (message : string) : M unit := λ st,
  (inr tt,
   State (email st) (password st) (driver st) (sent_otps st) (notification_callback st)
         (if notification_callback st then notified st ++ [message] else notified st)
         (printed st ++ [message]) (world st)).

(** *** _extract_otps_from_table *)

Definition rows_locator : locator := (By_CSS_SELECTOR, "table#datatable-sms-received tbody tr").
Definition no_data_locator : locator :=
  (By_XPATH, "//td[contains(text(), 'No data available in table')]").
Definition td3_locator : locator := (By_XPATH, ".//td[3]").

Definition selenium_faults : list exn_class :=
  [TimeoutException; NoSuchElementException; WebDriverException].

(** The [for row in rows] loop.  [otps] is the list built so far.  A row
    whose cell lookup raises [NoSuchElementException] is notified and
    skipped.  Any other exception leaves the loop: it is handed over with
    [otps] as it stands, since [otps] outlives the enclosing [try]. *)
Fixpoint for_row_in (rows : list E) (otps : list string) : M (list string * option exn) :=
  match rows with
  | [] => mret (otps, None)
  | row :: rest =>
      r ← attempt (cell ← call (elem_find_element row td3_locator); call (elem_text cell));
      match r with
      | inr message_text => for_row_in rest (otps ++ [strip message_text])
      | inl e =>
          if isinstance e NoSuchElementException
          then _send_notification "Could not find message text in a row. Skipping.";;
               for_row_in rest otps
          else mret (otps, Some e)
      end
  end.

(** How the [try] block of [_extract_otps_from_table] ends when nothing is
    raised before the loop: by [return []], or in the loop. *)
Inductive extract_end : Type :=
  | Returned (v : list string)
  | Looped (otps : list string) (raised : option exn).

Definition extract_try : M extract_end :=
  _ ← WebDriverWait_until 10
        (py_or (presence_of_element_located rows_locator)
               (presence_of_element_located no_data_locator));
  h ← self_driver "find_elements";
  no_data ← call (find_elements h no_data_locator);
  if list_truthy no_data
  then _send_notification "No data available in the SMS statistics table.";;
       mret (Returned [])
  else
    h ← self_driver "find_elements";
    rows ← call (find_elements h rows_locator);
    '(otps, raised) ← for_row_in rows [];
    mret (Looped otps raised).

(** The [except] clause of [_extract_otps_from_table] and the [return otps]
    after it, for an exception [e] raised when the list is [otps]. *)
Definition extract_except (e : exn) (otps : list string) : M (list string) :=
  if isinstance_any e selenium_faults
  then _send_notification ("Error extracting OTPs from table: " ++ exn_str e);;
       mret otps
  else raise e.

Definition _extract_otps_from_table : M (list string) :=
  r ← attempt extract_try;
  match r with
  | inr (Returned v) => mret v
  | inr (Looped otps None) => mret otps
  | inr (Looped otps (Some e)) => extract_except e otps
  | inl e => extract_except e []
  end.

(** *** fetch_new_otps *)

(** The [for otp in current_otps] loop on [new_messages] and
    [self.sent_otps]. *)
Fixpoint for_otp_in (current_otps new_messages : list string) : M (list string) :=
  match current_otps with
  | [] => mret new_messages
  | otp :: rest => λ st,
      if str_truthy otp && negb (bool_decide (otp ∈ sent_otps st))
      then for_otp_in rest (new_messages ++ [otp]) (set_sent_otps ({[otp]} ∪ sent_otps st) st)
      else for_otp_in rest new_messages st
  end.

Definition fetch_new_otps : M (list string) :=
  try_except
    (h ← self_driver "get";
     call (driver_get h otp_page_url);;
     current_otps ← _extract_otps_from_table;
     for_otp_in current_otps [])
    [ ([WebDriverException],
       λ e, _send_notification ("WebDriver error during new OTP fetch: " ++ exn_str e);;
            mret []);
      ([PyException],
       λ e, _send_notification ("An unexpected error occurred during new OTP fetch: "
                                ++ exn_str e);;
            mret []) ].

(** *** _initialize_driver *)

Definition get_driver : M (option H) := λ st, (inr (driver st), st).
Definition put_driver (d : option H) : M unit := λ st, (inr tt, set_driver d st).

Definition chrome_options : list string :=
  [ "--headless"; "--no-sandbox"; "--disable-dev-shm-usage"; "--window-size=1920,1080";
    "--log-level=3"; "--disable-gpu"; "--disable-extensions"; "--start-maximized";
    "--disable-infobars"; "--disable-browser-side-navigation";
    "--disable-features=VizDisplayCompositor" ].

Definition _initialize_driver : M unit :=
  d ← get_driver;
  match d with
  | Some h => call (λ w, (inr tt, driver_quit h w))
  | None => mret tt
  end;;
  h ← call (Chrome chrome_options);
  put_driver (Some h);;
  call (set_page_load_timeout h 30);;
  call (implicitly_wait h 10).

(** *** login *)

Definition login_button_locator : locator := (By_XPATH, "//button[contains(text(), 'Log in')]").
Definition sidebar_locator : locator := (By_CLASS_NAME, "sidebar-menu").

(** The condition of the wait that follows the click on the login button. *)
Definition login_wait_cond : cond :=
  py_or (url_contains "/portal") (presence_of_element_located sidebar_locator).

Definition login : M bool :=
  try_except
    (d ← get_driver;
     match d with
     | None => _initialize_driver
     | Some _ => mret tt
     end;;
     h ← self_driver "get";
     call (driver_get h login_url);;
     WebDriverWait_until 20 (presence_of_element_located (By_NAME, "email"));;
     h ← self_driver "find_element";
     email_field ← call (find_element h (By_NAME, "email"));
     password_field ← call (find_element h (By_NAME, "password"));
     login_button ← call (find_element h login_button_locator);
     em ← (λ st, (inr (email st), st));
     pw ← (λ st, (inr (password st), st));
     call (elem_send_keys email_field em);;
     call (elem_send_keys password_field pw);;
     call (elem_click login_button);;
     WebDriverWait_until 20 login_wait_cond;;
     _send_notification "Login successful.";;
     mret true)
    [ (selenium_faults,
       λ e, _send_notification ("Login failed: " ++ exn_str e);; mret false);
      ([PyException],
       λ e, _send_notification ("An unexpected error occurred during login: " ++ exn_str e);;
            mret false) ].

(** *** handle_popup *)

Definition modal_locator : locator := (By_CSS_SELECTOR, ".modal-content").
Definition next_locator : locator := (By_XPATH, "//button[contains(text(), 'Next')]").
Definition done_locator : locator := (By_XPATH, "//button[contains(text(), 'Done')]").

(** The inner [try]: the optional "Next" control; its timeout is passed over. *)
Definition popup_next : M unit :=
  try_except
    (next_button ← WebDriverWait_until 3 (element_to_be_clickable next_locator);
     call (elem_click next_button);;
     WebDriverWait_until 3 (invisibility_of_element_located next_locator);;
     _send_notification "Clicked Next on pop-up.")
    [ ([TimeoutException], λ _, mret tt) ].

(** The statements of the outer [try] that follow the detection notice. *)
Definition popup_dismiss : M bool :=
  popup_next;;
  done_button ← WebDriverWait_until 5 (element_to_be_clickable done_locator);
  call (elem_click done_button);;
  WebDriverWait_until 5 (invisibility_of_element_located modal_locator);;
  _send_notification "Pop-up closed successfully.";;
  mret true.

Definition handle_popup : M bool :=
  try_except
    (WebDriverWait_until 5 (presence_of_element_located modal_locator);;
     _send_notification "Pop-up detected. Attempting to close.";;
     popup_dismiss)
    [ ([TimeoutException],
       λ _, _send_notification "No pop-up or pop-up closed automatically.";; mret false);
      ([NoSuchElementException; WebDriverException],
       λ e, _send_notification ("Error handling pop-up: " ++ exn_str e);; mret false);
      ([PyException],
       λ e, _send_notification ("An unexpected error occurred during pop-up handling: "
                                ++ exn_str e);;
            mret false) ].

(** *** navigate_to_otp_page *)

Definition client_system_locator : locator :=
  (By_XPATH, "//a[contains(@href, '#') and contains(., 'Client System')]").
Definition my_sms_statistics_locator : locator :=
  (By_XPATH, "//a[contains(@href, '/portal/sms/received') and contains(., 'My SMS Statistics')]").

Definition navigate_to_otp_page : M bool :=
  try_except
    (WebDriverWait_until 10 (presence_of_element_located sidebar_locator);;
     client_system_menu ← WebDriverWait_until 10 (element_to_be_clickable client_system_locator);
     call (elem_click client_system_menu);;
     call (λ w, (inr tt, sleep 1 w));;
     my_sms_statistics_link ←
       WebDriverWait_until 10 (element_to_be_clickable my_sms_statistics_locator);
     call (elem_click my_sms_statistics_link);;
     WebDriverWait_until 15 (url_to_be otp_page_url);;
     _send_notification "Successfully navigated to My SMS Statistics page.";;
     mret true)
    [ (selenium_faults,
       λ e, _send_notification ("Navigation to OTP page failed: " ++ exn_str e);; mret false);
      ([PyException],
       λ e, _send_notification ("An unexpected error occurred during navigation: "
                                ++ exn_str e);;
            mret false) ].

(** *** get_historical_otps *)

Definition get_sms_locator : locator := (By_XPATH, "//button[contains(text(), 'Get SMS')]").

(** The statements of the [try] block up to the wait for the table: reload,
    fill both date fields, press "Get SMS", wait. *)
Definition submit_date_range (start_date end_date : string) : M unit :=
  h ← self_driver "get";
  call (driver_get h otp_page_url);;
  WebDriverWait_until 10 (presence_of_element_located (By_ID, "date_from"));;
  h ← self_driver "find_element";
  date_from_field ← call (find_element h (By_ID, "date_from"));
  date_to_field ← call (find_element h (By_ID, "date_to"));
  get_sms_button ← call (find_element h get_sms_locator);
  call (elem_clear date_from_field);;
  call (elem_send_keys date_from_field start_date);;
  call (elem_clear date_to_field);;
  call (elem_send_keys date_to_field end_date);;
  call (elem_click get_sms_button);;
  WebDriverWait_until 15
    (py_or (presence_of_element_located rows_locator)
           (presence_of_element_located no_data_locator));;
  mret tt.

Definition get_historical_otps (start_date end_date : string) : M (list string) :=
  try_except
    (submit_date_range start_date end_date;;
     historical_messages ← _extract_otps_from_table;
     mret historical_messages)
    [ (selenium_faults,
       λ e, _send_notification ("Error fetching historical OTPs: " ++ exn_str e);; mret []);
      ([PyException],
       λ e, _send_notification ("An unexpected error occurred during historical OTP fetch: "
                                ++ exn_str e);;
            mret []) ].

(** *** close *)

Definition close : M unit :=
  d ← get_driver;
  match d with
  | Some h => call (λ w, (inr tt, driver_quit h w));; put_driver None
  | None => mret tt
  end.

End Engine.

Arguments state : clear implicits.
Arguments M : clear implicits.

(** ** Runs of the engine and the words of its properties *)

Section Vocabulary.

Context {W H E : Type} `{!Driver W H E}.

(** [n] poll cycles in a row on one engine; the outputs, oldest first. *)
Fixpoint poll_cycles (n : nat) : M W H (list (list string)) :=
  match n with
  | O => mret []
  | S n' =>
      out ← fetch_new_otps;
      outs ← poll_cycles n';
      mret (out :: outs)
  end.

(** The public operations of the engine. *)
Inductive operation : Type :=
  | Op_login
  | Op_handle_popup
  | Op_navigate_to_otp_page
  | Op_fetch_new_otps
  | Op_get_historical_otps (start_date end_date : string)
  | Op_close.

(** The state an operation leaves, whatever it returns or raises. *)
Definition run_operation (op : operation) (st : state W H) : state W H :=
  match op with
  | Op_login => (login st).2
  | Op_handle_popup => (handle_popup st).2
  | Op_navigate_to_otp_page => (navigate_to_otp_page st).2
  | Op_fetch_new_otps => (fetch_new_otps st).2
  | Op_get_historical_otps s e => (get_historical_otps s e st).2
  | Op_close => (close st).2
  end.

Definition run_operations (ops : list operation) (st : state W H) : state W H :=
  foldl (λ st op, run_operation op st) st ops.

(** The sequences the calls of [fetch_new_otps] among [ops] return, oldest
    first, when [ops] run in a row from [st]. *)
Fixpoint polled (ops : list operation) (st : state W H) : list (list string) :=
  match ops with
  | [] => []
  | op :: rest =>
      match op, (fetch_new_otps st).1 with
      | Op_fetch_new_otps, inr out => [out]
      | _, _ => []
      end ++ polled rest (run_operation op st)
  end.

(** What reading the body cells of [rows] gives, row by row, from world [w]
    on: [Some s] for a row whose third cell is found and reads [s], [None]
    for a row whose third cell is missing. *)
Inductive reads : list E -> W -> list (option string) -> W -> Prop :=
  | reads_nil w : reads [] w [] w
  | reads_cell row rest w cell w1 s w2 outs w3 :
      elem_find_element row td3_locator w = (inr cell, w1) ->
      elem_text cell w1 = (inr s, w2) ->
      reads rest w2 outs w3 ->
      reads (row :: rest) w (Some s :: outs) w3
  | reads_missing row rest w e w1 outs w3 :
      elem_find_element row td3_locator w = (inl e, w1) ->
      exn_cls e = NoSuchElementException ->
      reads rest w1 outs w3 ->
      reads (row :: rest) w (None :: outs) w3.

(** Reading the body cells of [rows] from world [w] on, up to the first
    exception that is not the [NoSuchElementException] of a missing cell:
    [outs] is what the rows before gave, [e] the exception, raised by the
    lookup of the cell or by the reading of its text, and [w'] the world it
    left. *)
Inductive reads_to_fault : list E -> W -> list (option string) -> exn -> W -> Prop :=
  | fault_in_lookup row rest w e w1 :
      elem_find_element row td3_locator w = (inl e, w1) ->
      isinstance e NoSuchElementException = false ->
      reads_to_fault (row :: rest) w [] e w1
  | fault_in_text row rest w cell w1 e w2 :
      elem_find_element row td3_locator w = (inr cell, w1) ->
      elem_text cell w1 = (inl e, w2) ->
      isinstance e NoSuchElementException = false ->
      reads_to_fault (row :: rest) w [] e w2
  | fault_after_cell row rest w cell w1 s w2 outs e w3 :
      elem_find_element row td3_locator w = (inr cell, w1) ->
      elem_text cell w1 = (inr s, w2) ->
      reads_to_fault rest w2 outs e w3 ->
      reads_to_fault (row :: rest) w (Some s :: outs) e w3
  | fault_after_missing row rest w e0 w1 outs e w3 :
      elem_find_element row td3_locator w = (inl e0, w1) ->
      exn_cls e0 = NoSuchElementException ->
      reads_to_fault rest w1 outs e w3 ->
      reads_to_fault (row :: rest) w (None :: outs) e w3.

(** The notice of the [except] clause that takes an exception raised while
    the rows are read: the one of the extraction for a Selenium exception,
    the one of the operation, given as [unexpected], for any other. *)
Definition row_fault_notice (unexpected : string) (e : exn) : string :=
  if isinstance e WebDriverException
  then "Error extracting OTPs from table: " ++ exn_str e
  else unexpected ++ exn_str e.

(** [m] takes every state to one that [R] relates to it, however it ends. *)
Definition framed (R : relation (state W H)) {A} (m : M W H A) : Prop :=
  forall st, R st (m st).2.

(** [m] leaves the Seen-Set as it found it. *)
Definition keeps_sent {A} (m : M W H A) : Prop :=
  framed (λ st st', sent_otps st' = sent_otps st) m.

(** [m] only adds to what was printed. *)
Definition appends_printed {A} (m : M W H A) : Prop :=
  framed (λ st st', printed st `prefix_of` printed st') m.

Definition detected_notice : string := "Pop-up detected. Attempting to close.".
Definition no_popup_notice : string := "No pop-up or pop-up closed automatically.".
Definition closed_notice : string := "Pop-up closed successfully.".
Definition next_notice : string := "Clicked Next on pop-up.".

(** The state after the messages [msgs] went through [_send_notification],
    in this order. *)
Definition after_notifications (msgs : list string) (st : state W H) : state W H :=
  State (email st) (password st) (driver st) (sent_otps st) (notification_callback st)
        (if notification_callback st then notified st ++ msgs else notified st)
        (printed st ++ msgs) (world st).

Definition skip_notice : string := "Could not find message text in a row. Skipping.".

(** Every character of [s] is white space. *)
Fixpoint all_space (s : string) : bool :=
  match s with
  | String c s' => isspace c && all_space s'
  | EmptyString => true
  end.

(** The rows of [outs] whose cell is missing. *)
Definition missing (outs : list (option string)) : nat :=
  length (filter (λ o, o = None) outs).

End Vocabulary.

(** ** A fake browser *)

(** A static portal for running the engine: pages with the elements they
    show, the controls that can be clicked and where a click leads, and the
    rows of the feed table. *)
Module Fake.

(** A table row: its cells, or a row gone stale, whose every lookup raises
    a [WebDriverException]. *)
Inductive row : Type :=
  | Cells (cells : list string)
  | Stale.

#[local] Unset Elimination Schemes.
Inductive page : Type :=
  | Page (url : string) (present : list locator)
         (clickable : list (locator * option page)) (rows : list row).
#[local] Set Elimination Schemes.

Definition page_url (p : page) : string := let 'Page u _ _ _ := p in u.
Definition page_present (p : page) : list locator := let 'Page _ s _ _ := p in s.
Definition page_clickable (p : page) : list (locator * option page) :=
  let 'Page _ _ c _ := p in c.
Definition page_rows (p : page) : list row := let 'Page _ _ _ r := p in r.

Inductive elem : Type :=
  | Node (l : locator)
  | RowElem (r : row)
  | CellElem (text : string).

Record browser : Type := Browser {
  site : list (string * page);
  current : page;
  running : bool
}.

Definition blank : page := Page "data:," [] [] [].

Definition timeout : exn := Exn TimeoutException "Message: ".
Definition no_such_element : exn := Exn NoSuchElementException "Message: no such element".
Definition stale : exn := Exn WebDriverException "Message: stale element reference".
Definition unreachable : exn := Exn WebDriverException "Message: unknown error: net::ERR_FAILED".

Fixpoint assoc {A B} `{EqDecision A} (k : A) (l : list (A * B)) : option B :=
  match l with
  | [] => None
  | (k', v) :: rest => if decide (k = k') then Some v else assoc k rest
  end.

Fixpoint str_contains (needle hay : string) : bool :=
  String.prefix needle hay ||
  match hay with
  | String _ hay' => str_contains needle hay'
  | EmptyString => false
  end.

(** An element matching [l] is in the page. *)
Definition located (p : page) (l : locator) : bool :=
  bool_decide (l ∈ page_present p)
  || bool_decide (l = rows_locator) && list_truthy (page_rows p)
  || bool_decide (is_Some (assoc l (page_clickable p))).

Definition fake_until (t : Z) (c : cond) (w : browser) : (exn + wait_value elem c) * browser :=
  match c with
  | presence_of_element_located l =>
      if located (current w) l then (inr (Node l), w) else (inl timeout, w)
  | element_to_be_clickable l =>
      if bool_decide (is_Some (assoc l (page_clickable (current w))))
      then (inr (Node l), w) else (inl timeout, w)
  | invisibility_of_element_located l =>
      if located (current w) l then (inl timeout, w) else (inr true, w)
  | url_contains s =>
      if str_contains s (page_url (current w)) then (inr true, w) else (inl timeout, w)
  | url_to_be s =>
      if bool_decide (page_url (current w) = s) then (inr true, w) else (inl timeout, w)
  end.

Definition fake_find_elements (l : locator) (w : browser) : (exn + list elem) * browser :=
  if bool_decide (l = rows_locator) then (inr (RowElem <$> page_rows (current w)), w)
  else if located (current w) l then (inr [Node l], w)
  else (inr [], w).

Definition fake_elem_find_element (e : elem) (l : locator) (w : browser) : (exn + elem) * browser :=
  match e with
  | RowElem (Cells cells) =>
      if bool_decide (l = td3_locator)
      then match cells !! 2%nat with
           | Some s => (inr (CellElem s), w)
           | None => (inl no_such_element, w)
           end
      else (inl no_such_element, w)
  | RowElem Stale => (inl stale, w)
  | _ => (inl no_such_element, w)
  end.

Definition fake_click (e : elem) (w : browser) : (exn + unit) * browser :=
  match e with
  | Node l =>
      match assoc l (page_clickable (current w)) with
      | Some (Some p) => (inr tt, Browser (site w) p (running w))
      | _ => (inr tt, w)
      end
  | _ => (inr tt, w)
  end.

Definition fake_get (url : string) (w : browser) : (exn + unit) * browser :=
  match assoc url (site w) with
  | Some p => (inr tt, Browser (site w) p (running w))
  | None => (inl unreachable, w)
  end.

#[global] Instance fake_driver : Driver browser unit elem := {|
  Chrome _ w := (inr tt, Browser (site w) blank true);
  set_page_load_timeout _ _ w := (inr tt, w);
  implicitly_wait _ _ w := (inr tt, w);
  driver_quit _ w := Browser (site w) blank false;
  driver_get _ := fake_get;
  until _ := fake_until;
  find_element _ l w :=
    if located (current w) l then (inr (Node l), w) else (inl no_such_element, w);
  find_elements _ := fake_find_elements;
  elem_find_element := fake_elem_find_element;
  elem_send_keys _ _ w := (inr tt, w);
  elem_click := fake_click;
  elem_clear _ w := (inr tt, w);
  elem_text e w := (inr (match e with CellElem s => s | _ => "" end), w);
  sleep _ w := w
|}.

(** The feed page showing [rows], with the date fields and the query
    button; a click on the button shows the same table again. *)
Definition feed (rows : list row) : page :=
  Page otp_page_url [(By_ID, "date_from"); (By_ID, "date_to"); sidebar_locator]
       [(get_sms_locator, None)] rows.

(** The feed page of an empty table. *)
Definition empty_feed : page :=
  Page otp_page_url [(By_ID, "date_from"); (By_ID, "date_to"); no_data_locator]
       [(get_sms_locator, None)] [].

(** An engine with a live driver on the page [p] of a portal whose feed
    address serves [fd], having reported [seen]. *)
Definition engine_on (p fd : page) (seen : gset string) : state browser unit :=
  State "user@example.org" "secret" (Some tt) seen true [] []
        (Browser [(otp_page_url, fd)] p true).

End Fake.

(** ** A driver that keeps a record of its faults *)

(** The calls of the capability that can raise. *)
Inductive driver_call : Type :=
  | Call_Chrome
  | Call_set_page_load_timeout
  | Call_implicitly_wait
  | Call_get
  | Call_until
  | Call_find_element
  | Call_find_elements
  | Call_elem_find_element
  | Call_elem_send_keys
  | Call_elem_click
  | Call_elem_clear
  | Call_elem_text.

(** The two calls made on a table row: the lookup of its cell and the
    reading of the cell's text.  The engine makes them nowhere else. *)
Definition row_call (k : driver_call) : bool :=
  match k with
  | Call_elem_find_element | Call_elem_text => true
  | _ => false
  end.

(** A world together with the exceptions its driver raised so far, oldest
    first, each with the call that raised it. *)
Record traced (W : Type) : Type := Traced {
  inner : W;
  faults : list (driver_call * exn)
}.

Arguments Traced {W} _ _.
Arguments inner {W} _.
Arguments faults {W} _.

Definition trace {W A} (k : driver_call) (f : W -> (exn + A) * W)
    (t : traced W) : (exn + A) * traced W :=
  match f (inner t) with
  | (inl e, w) => (inl e, Traced w (faults t ++ [(k, e)]))
  | (inr a, w) => (inr a, Traced w (faults t))
  end.

(** The driver [D] with every exception it raises written down. *)
Definition traced_driver {W H E} (D : Driver W H E) : Driver (traced W) H E := {|
  Chrome opts := trace Call_Chrome (Chrome opts);
  set_page_load_timeout h t := trace Call_set_page_load_timeout (set_page_load_timeout h t);
  implicitly_wait h t := trace Call_implicitly_wait (implicitly_wait h t);
  driver_quit h t := Traced (driver_quit h (inner t)) (faults t);
  driver_get h url := trace Call_get (driver_get h url);
  until h t c := trace Call_until (until h t c);
  find_element h l := trace Call_find_element (find_element h l);
  find_elements h l := trace Call_find_elements (find_elements h l);
  elem_find_element e l := trace Call_elem_find_element (elem_find_element e l);
  elem_send_keys e s := trace Call_elem_send_keys (elem_send_keys e s);
  elem_click e := trace Call_elem_click (elem_click e);
  elem_clear e := trace Call_elem_clear (elem_clear e);
  elem_text e := trace Call_elem_text (elem_text e);
  sleep t w := Traced (sleep t (inner w)) (faults w)
|}.

Section Tallies.

Context {W H : Type}.

(** The faults raised so far, those among them raised outside the reading
    of a row, and the notices sent so far. *)
Definition fault_count (st : state (traced W) H) : nat := length (faults (world st)).

Definition page_fault_count (st : state (traced W) H) : nat :=
  length (filter (λ f, row_call f.1 = false) (faults (world st))).

Definition notice_count (st : state (traced W) H) : nat := length (printed st).

(** From [st] to [st'] the messages [msgs] were sent, and nothing else
    reached the console or the callback. *)
Definition sent_between {V} (st st' : state V H) (msgs : list string) : Prop :=
  printed st' = printed st ++ msgs
  /\ notified st' = (if notification_callback st then notified st ++ msgs else notified st)
  /\ notification_callback st' = notification_callback st.

(** Straight-line page code: it sends nothing, and when it returns no fault
    was raised. *)
Definition quiet {A} (m : M (traced W) H A) : Prop :=
  forall st r st', m st = (r, st') ->
    notice_count st' = notice_count st
    /\ match r with
       | inr _ => fault_count st' = fault_count st
                  /\ page_fault_count st' = page_fault_count st
       | inl _ => True
       end.

End Tallies.

(** The engine on a traced world, with the state put back on the world
    inside. *)
Definition on_traced {H} (st : state Fake.browser H) : state (traced Fake.browser) H :=
  State (email st) (password st) (driver st) (sent_otps st) (notification_callback st)
        (notified st) (printed st) (Traced (world st) []).

(** ** Scenarios on the fake browser *)

Module Scenario.

Import Fake.

(** *** Feeds *)

(** The first cell of a row, where these feeds write its date. *)
Definition row_date (r : row) : string :=
  match r with
  | Cells (d :: _) => d
  | _ => ""
  end.

(** [start <= date of r <= stop], dates being compared as YYYY-MM-DD
    strings. *)
Definition dated_within (start stop : string) (r : row) : bool :=
  String.leb start (row_date r) && String.leb (row_date r) stop.

(** A row with its three cells. *)
Definition well_formed (r : row) : bool :=
  match r with
  | Cells cells => bool_decide (3 <= length cells)%nat
  | Stale => false
  end.

Definition october_row : row := Cells ["2025-10-05"; "+15550001"; "Your code is 111111"].
Definition november_row : row := Cells ["2025-11-20"; "+15550001"; "Your code is 222222"].
Definition short_row : row := Cells ["2025-10-07"; "+15550001"].
Definition blank_row : row := Cells ["2025-10-08"; "+15550001"; "   "].

Definition two_row_engine : state browser unit :=
  engine_on blank (feed [october_row; november_row]) ∅.

Definition short_row_engine : state browser unit :=
  engine_on (feed [october_row; short_row; november_row])
            (feed [october_row; short_row; november_row]) ∅.

Definition blank_row_engine : state browser unit :=
  engine_on blank (feed [october_row; blank_row]) ∅.

Definition stale_row_engine : state browser unit :=
  engine_on blank (feed [october_row; Stale; november_row]) ∅.

Definition seen_engine : state browser unit :=
  engine_on blank (feed [october_row]) {["Your code is 111111"]}.

(** A live driver on a portal that serves no page. *)
Definition offline_engine : state browser unit :=
  State "user@example.org" "secret" (Some tt) ∅ true [] [] (Browser [] blank true).

(** The world of the engines of [engine_on] once the feed [fd] is loaded. *)
Definition loaded (fd : page) : browser := Browser [(otp_page_url, fd)] fd true.

(** *** Login *)

(** After the click on "Log in" the portal shows a page with the sidebar
    menu, at an address without "/portal". *)
Definition landing_page : page := Page (base_url ++ "/dashboard") [sidebar_locator] [] [].

Definition login_page : page :=
  Page login_url [(By_NAME, "email"); (By_NAME, "password")]
       [(login_button_locator, Some landing_page)] [].

Definition login_engine : state browser unit :=
  State "user@example.org" "secret" None ∅ true [] []
        (Browser [(login_url, login_page)] blank false).

(** *** Pop-up *)

Definition home_page : page := Page (base_url ++ "/portal") [sidebar_locator] [] [].

(** A modal with a "Done" control that closes it, and no "Next". *)
Definition modal_page : page :=
  Page (base_url ++ "/portal") [modal_locator; sidebar_locator]
       [(done_locator, Some home_page)] [].

(** A modal with no control to click. *)
Definition stuck_modal_page : page :=
  Page (base_url ++ "/portal") [modal_locator; sidebar_locator] [] [].

(** A modal whose "Done" control can be clicked and closes nothing. *)
Definition sticky_modal_page : page :=
  Page (base_url ++ "/portal") [modal_locator; sidebar_locator] [(done_locator, None)] [].

Definition no_modal_engine : state browser unit := engine_on home_page empty_feed ∅.
Definition sticky_modal_engine : state browser unit :=
  engine_on sticky_modal_page empty_feed ∅.
Definition modal_engine : state browser unit := engine_on modal_page empty_feed ∅.
Definition stuck_modal_engine : state browser unit := engine_on stuck_modal_page empty_feed ∅.

(** A modal whose "Next" control leads to a modal with no control to
    click. *)
Definition next_only_modal_page : page :=
  Page (base_url ++ "/portal") [modal_locator; sidebar_locator]
       [(next_locator, Some stuck_modal_page)] [].

Definition next_only_engine : state browser unit := engine_on next_only_modal_page empty_feed ∅.

(** *** A message that reads as the notice of the empty table *)

(** A row with its three cells, whose message is the text the table shows
    when it is empty. *)
Definition phrase_row : row :=
  Cells ["2025-10-09"; "+15550001"; "No data available in table"].

(** The feed page showing [rows], one of whose cells holds the text "No
    data available in table": the lookup of [no_data_locator] asks for a
    cell with that text anywhere on the page, and finds it. *)
Definition phrase_feed (rows : list row) : page :=
  Page otp_page_url
       [(By_ID, "date_from"); (By_ID, "date_to"); sidebar_locator; no_data_locator]
       [(get_sms_locator, None)] rows.

Definition phrase_short_engine : state browser unit :=
  engine_on (phrase_feed [october_row; short_row; phrase_row])
            (phrase_feed [october_row; short_row; phrase_row]) ∅.

Definition phrase_blank_engine : state browser unit :=
  engine_on blank (phrase_feed [blank_row; phrase_row]) ∅.

End Scenario.

(** ** More words for the properties *)

(** [s] begins, ends with a white-space character. *)
Definition starts_with_space (s : string) : bool :=
  match s with
  | String c _ => isspace c
  | EmptyString => false
  end.

Definition ends_with_space (s : string) : bool := starts_with_space (String.rev s).

(** [lstrip] on the list of the characters. *)
Fixpoint drop_spaces (l : list ascii) : list ascii :=
  match l with
  | c :: l' => if isspace c then drop_spaces l' else l
  | [] => []
  end.

(** A list that does not begin with white space. *)
Definition trimmed_left (l : list ascii) : Prop :=
  match l with
  | c :: _ => isspace c = false
  | [] => True
  end.

Section Notices.

Context {W H : Type}.

(** From [st] to [st'] some messages were sent, and the list of them
    satisfies [Q]. *)
Definition sends (Q : list string -> Prop) (st st' : state W H) : Prop :=
  exists msgs, Q msgs /\ sent_between st st' msgs.

(** However [m] ends, the messages it sent before satisfy [Q]; when it
    returns, it returns [b] and its last message is [msg]. *)
Definition ends_with (Q : list string -> Prop) (msg : string) {A} (b : A)
    (m : M W H A) : Prop :=
  forall st r st', m st = (r, st') ->
    match r with
    | inl _ => sends Q st st'
    | inr a => a = b /\ exists msgs, Q msgs /\ sent_between st st' (msgs ++ [msg])
    end.

(** [m] does not look at the Seen-Set and does not touch it: run on another
    Seen-Set it does the same and leaves that Seen-Set. *)
Definition blind {A} (m : M W H A) : Prop :=
  forall (seen : gset string) st,
    m (set_sent_otps seen st) = (let (r, st') := m st in (r, set_sent_otps seen st')).

End Notices.

(** ** More scenarios *)

Module Cases.

Import Fake Scenario.

(** An empty table as the portal's table widget draws it: one row, whose
    only cell holds the "No data available in table" text. *)
Definition no_data_page : page :=
  Page otp_page_url [(By_ID, "date_from"); (By_ID, "date_to"); no_data_locator]
       [(get_sms_locator, None)] [Cells ["No data available in table"]].

Definition no_data_engine : state browser unit := engine_on no_data_page no_data_page ∅.

(** The empty feed of [empty_feed] already on screen: the marker is there,
    no row is. *)
Definition marker_only_engine : state browser unit := engine_on empty_feed empty_feed ∅.

(** A feed with two rows short of a body cell among three full ones. *)
Definition ragged_rows : list row :=
  [short_row; october_row; blank_row; short_row; november_row].

Definition ragged_engine : state browser unit :=
  engine_on (feed ragged_rows) (feed ragged_rows) ∅.

(** A feed of three rows, the middle one blank, on an engine that has
    reported the first one. *)
Definition mixed_engine : state browser unit :=
  engine_on blank (feed [october_row; blank_row; november_row]) {["Your code is 111111"]}.

(** A modal of two steps: "Next" leads to the modal of [modal_page], whose
    "Done" closes it. *)
Definition two_step_modal_page : page :=
  Page (base_url ++ "/portal") [modal_locator; sidebar_locator]
       [(next_locator, Some modal_page)] [].

Definition two_step_engine : state browser unit :=
  engine_on two_step_modal_page empty_feed ∅.

End Cases.

(** * app/config.py *)

Module Config.

(** [os.environ] once [load_dotenv()] has run. *)
Abbreviation environ := (gmap string string).

Definition getenv (env : environ) (name : string) : option string := env !! name.

(** The class attributes of [Config], set when the module is loaded. *)
Record Config : Type := {
  TELEGRAM_BOT_TOKEN : option string;
  TELEGRAM_CHAT_ID : option string;
  IVASMS_EMAIL : option string;
  IVASMS_PASSWORD : option string
}.

Definition load (env : environ) : Config := {|
  TELEGRAM_BOT_TOKEN := getenv env "TELEGRAM_BOT_TOKEN";
  TELEGRAM_CHAT_ID := getenv env "TELEGRAM_CHAT_ID";
  IVASMS_EMAIL := getenv env "IVASMS_EMAIL";
  IVASMS_PASSWORD := getenv env "IVASMS_PASSWORD"
|}.

Definition REQUIRED_ENV_VARS : list string :=
  [ "TELEGRAM_BOT_TOKEN"; "TELEGRAM_CHAT_ID"; "IVASMS_EMAIL"; "IVASMS_PASSWORD" ].

Inductive error : Type :=
  | ValueError (msg : string)
  | NoAttribute (name : string).

(** [getattr(cls, var)] on the four variables of the class. *)
Definition getattr (cls : Config) (var : string) : error + option string :=
  if decide (var = "TELEGRAM_BOT_TOKEN") then inr (TELEGRAM_BOT_TOKEN cls)
  else if decide (var = "TELEGRAM_CHAT_ID") then inr (TELEGRAM_CHAT_ID cls)
  else if decide (var = "IVASMS_EMAIL") then inr (IVASMS_EMAIL cls)
  else if decide (var = "IVASMS_PASSWORD") then inr (IVASMS_PASSWORD cls)
  else inl (NoAttribute var).

(** [sep.join(l)]. *)
Fixpoint join (sep : string) (l : list string) : string :=
  match l with
  | [] => ""
  | [x] => x
  | x :: l' => x ++ sep ++ join sep l'
  end.

(** [[var for var in vars if getattr(cls, var) is None]]. *)
Fixpoint missing_among (cls : Config) (vars : list string) : error + list string :=
  match vars with
  | [] => inr []
  | var :: rest =>
      match getattr cls var with
      | inl err => inl err
      | inr value =>
          match missing_among cls rest with
          | inl err => inl err
          | inr found => inr (if value is None then var :: found else found)
          end
      end
  end.

Definition validate (cls : Config) : error + unit :=
  match missing_among cls REQUIRED_ENV_VARS with
  | inl err => inl err
  | inr missing_vars =>
      if list_truthy missing_vars
      then inl (ValueError ("Missing required environment variables: "
                            ++ join ", " missing_vars))
      else inr tt
  end.

End Config.

(** * app/bot.py *)

(** ** Python's [str.split] and the date pattern *)

(** [s.split()]: the maximal runs of characters that are not white space.
    [word] is the run being read, in reverse. *)
Fixpoint split_go (word : list ascii) (l : list ascii) : list string :=
  match l with
  | [] => if list_truthy word then [string_of_list_ascii (rev word)] else []
  | c :: l' =>
      if isspace c
      then (if list_truthy word then [string_of_list_ascii (rev word)] else [])
           ++ split_go [] l'
      else split_go (c :: word) l'
  end.

Definition split (s : string) : list string := split_go [] (list_ascii_of_string s).

(** The pieces of the regular expression of [receive_dates]: [\d], a
    literal character, and a piece repeated a fixed number of times. *)
Inductive piece : Type :=
  | Digit
  | Lit (c : ascii)
  | Times (n : nat) (p : piece).

(** [\d] on a character below 256: the ten ASCII digits. *)
Definition isdigit (c : ascii) : bool :=
  let n := nat_of_ascii c in (48 <=? n)%nat && (n <=? 57)%nat.

(** Matches [p] at the head of [l]; what follows the match, if any. *)
Fixpoint match_piece (p : piece) (l : list ascii) : option (list ascii) :=
  match p with
  | Digit => match l with c :: l' => if isdigit c then Some l' else None | [] => None end
  | Lit d => match l with c :: l' => if decide (c = d) then Some l' else None | [] => None end
  | Times n q => Nat.iter n (λ k l0, match match_piece q l0 with
                                     | Some l1 => k l1
                                     | None => None
                                     end) Some l
  end.

Fixpoint match_pieces (ps : list piece) (l : list ascii) : option (list ascii) :=
  match ps with
  | [] => Some l
  | p :: ps' =>
      match match_piece p l with
      | Some l' => match_pieces ps' l'
      | None => None
      end
  end.

(** [$] without [re.MULTILINE]: the end of the string, or the place before
    a newline that ends the string. *)
Definition at_end (l : list ascii) : bool :=
  match l with
  | [] => true
  | [c] => bool_decide (nat_of_ascii c = 10%nat)
  | _ => false
  end.

(** [re.match("^" ps "$", s)] is not [None]. *)
Definition re_match (ps : list piece) (s : string) : bool :=
  match match_pieces ps (list_ascii_of_string s) with
  | Some rest => at_end rest
  | None => false
  end.

(** [\d{4}-\d{2}-\d{2}]. *)
Definition date_pieces : list piece :=
  [Times 4 Digit; Lit "-"; Times 2 Digit; Lit "-"; Times 2 Digit].

(** [^\d{4}-\d{2}-\d{2} \d{4}-\d{2}-\d{2}$]. *)
Definition date_pattern : list piece := date_pieces ++ [Lit " "] ++ date_pieces.

(** A date the way the pattern wants it: four digits, a hyphen, two digits,
    a hyphen, two digits. *)
Definition date_shaped (s : string) : bool :=
  match list_ascii_of_string s with
  | [y1; y2; y3; y4; h1; m1; m2; h2; d1; d2] =>
      forallb isdigit [y1; y2; y3; y4; m1; m2; d1; d2]
      && bool_decide (h1 = "-"%char) && bool_decide (h2 = "-"%char)
  | _ => false
  end.

(** [l[-count:]] for a positive [count]. *)
Definition last_n {A} (count : Z) (l : list A) : list A :=
  drop (length l - Z.to_nat count) l.

(** ** The Telegram capability *)

(** What a handler reads of its [Update] and of its [context]:
    [update.effective_chat.id], [update.message.text],
    [update.effective_user.mention_html()] and [context.args]. *)
Record update : Type := Update {
  effective_chat_id : Z;
  message_text : string;
  mention_html : string;
  args : list string
}.

(** The calls of python-telegram-bot the handlers make, on a world [T] (the
    Bot API, the chat, the job queue).  [job_in_jobs name] is the test
    [name in context.job_queue.jobs()]; [remove_first_job name] is
    [context.job_queue.get_jobs_by_name(name)[0].schedule_removal()];
    [run_repeating name interval first chat_id] schedules [monitor_otps]. *)
Class Telegram (T : Type) : Type := {
  reply_text : update -> string -> T -> (exn + unit) * T;
  reply_html : update -> string -> T -> (exn + unit) * T;
  bot_send_message : Z -> string -> T -> (exn + unit) * T;
  job_in_jobs : string -> T -> (exn + bool) * T;
  remove_first_job : string -> T -> (exn + unit) * T;
  run_repeating : string -> Z -> Z -> Z -> T -> (exn + unit) * T
}.

(** ** TelegramBot *)

Section Bot.

Context {W H E : Type} `{!Driver W H E} {T : Type} `{!Telegram T}.

(** Python's [int] on a [str]: [None] when it raises [ValueError]. *)
Variable int_of_str : string -> option Z.

(** The attributes of a [TelegramBot], the Telegram world, and three
    records of what the bot did: [outbox] lists the texts passed to
    [application.bot.send_message], [replies] the texts passed to
    [reply_text] and [reply_html], [logged] the lines given to the logger,
    oldest first. *)
Record bot : Type := Bot {
  token : string;
  chat_id : Z;
  scraper : state W H;
  bot_status : string;
  telegram : T;
  outbox : list string;
  replies : list string;
  logged : list string
}.

Definition set_scraper (s : state W H) (b : bot) : bot :=
  Bot (token b) (chat_id b) s (bot_status b) (telegram b) (outbox b) (replies b) (logged b).

Definition set_telegram (t : T) (b : bot) : bot :=
  Bot (token b) (chat_id b) (scraper b) (bot_status b) t (outbox b) (replies b) (logged b).

Definition B (A : Type) : Type := bot -> (exn + A) * bot.

#[global] Instance B_ret : MRet B := λ A a b, (inr a, b).

#[global] Instance B_bind : MBind B := λ A C f m b,
  match m b with
  | (inr a, b') => f a b'
  | (inl e, b') => (inl e, b')
  end.

(** A method of the scraper, called on [self.scraper].  [__init__] makes
    [self.send_message], an [async def], the callback of the scraper; the
    call [self.notification_callback(message)] in [_send_notification] then
    builds a coroutine object that nothing awaits, so its body does not
    run: the scraper records the call in [notified], and the Bot API and
    [outbox] are left alone. *)
Definition on_scraper {A} (m : M W H A) : B A := λ b,
  let (r, s) := m (scraper b) in (r, set_scraper s b).

(** A call of python-telegram-bot. *)
Definition on_telegram {A} (f : T -> (exn + A) * T) : B A := λ b,
  let (r, t) := f (telegram b) in (r, set_telegram t b).

(** Reads an attribute of [self]. *)
Definition self_attr {A} (f : bot -> A) : B A := λ b, (inr (f b), b).

Definition set_status (status : string) : B unit := λ b,
  (inr tt,
   Bot (token b) (chat_id b) (scraper b) status (telegram b) (outbox b) (replies b)
       (logged b)).

Definition log (line : string) : B unit := λ b,
  (inr tt,
   Bot (token b) (chat_id b) (scraper b) (bot_status b) (telegram b) (outbox b) (replies b)
       (logged b ++ [line])).

(** [await update.message.reply_text(text)] and [reply_html]. *)
Definition reply (u : update) (text : string) : B unit := λ b,
  let (r, t) := reply_text u text (telegram b) in
  (r, Bot (token b) (chat_id b) (scraper b) (bot_status b) t (outbox b)
          (replies b ++ [text]) (logged b)).

Definition reply_as_html (u : update) (text : string) : B unit := λ b,
  let (r, t) := reply_html u text (telegram b) in
  (r, Bot (token b) (chat_id b) (scraper b) (bot_status b) t (outbox b)
          (replies b ++ [text]) (logged b)).

(** *** send_message *)

Definition send_message (text : string) : B unit := λ b,
  let (r, t) := bot_send_message (chat_id b) text (telegram b) in
  let b' := Bot (token b) (chat_id b) (scraper b) (bot_status b) t (outbox b ++ [text])
                (replies b) (logged b) in
  match r with
  | inr _ => (inr tt, b')
  | inl e =>
      log ("Failed to send message to Telegram chat " ++ pretty (chat_id b) ++ ": "
           ++ exn_str e) b'
  end.

(** *** _check_authorized *)

Definition _check_authorized (u : update) : B bool :=
  id ← self_attr chat_id;
  if bool_decide (effective_chat_id u ≠ id)
  then reply u "You are not authorized to use this bot.";;
       log ("Unauthorized access attempt from chat ID: " ++ pretty (effective_chat_id u));;
       mret false
  else mret true.

(** *** monitor_otps *)

(** [for otp in otps: await self.send_message(prefix + otp)]. *)
Fixpoint send_each (prefix : string) (otps : list string) : B unit :=
  match otps with
  | [] => mret tt
  | otp :: rest => send_message (prefix ++ otp);; send_each prefix rest
  end.

Definition monitor_otps : B unit :=
  new_otps ← on_scraper fetch_new_otps;
  if list_truthy new_otps
  then send_each "New OTP received: " new_otps
  else log "No new OTPs found.".

(** *** start_command *)

Definition start_command (u : update) : B unit :=
  ok ← _check_authorized u;
  if negb ok then mret tt else
  reply_as_html u ("Hi " ++ mention_html u ++ "! Bot started! Attempting to log in...");;
  set_status "Attempting to log in...";;
  send_message "Bot is online and running.";;
  logged_in ← on_scraper login;
  if (logged_in : bool)
  then
    set_status "Logged in. Checking for pop-ups...";;
    on_scraper handle_popup;;
    set_status "Navigating to OTP page...";;
    on_page ← on_scraper navigate_to_otp_page;
    if (on_page : bool)
    then
      set_status "Logged in and waiting for OTPs on the statistics page.";;
      scheduled ← on_telegram (job_in_jobs "monitor_job");
      (if (scheduled : bool) then on_telegram (remove_first_job "monitor_job") else mret tt);;
      id ← self_attr chat_id;
      on_telegram (run_repeating "monitor_job" 60 0 id)
    else set_status "Logged in, but failed to navigate to OTP page."
  else set_status "Login failed.".

(** *** status_command *)

Definition status_command (u : update) : B unit :=
  ok ← _check_authorized u;
  if negb ok then mret tt else
  status ← self_attr bot_status;
  reply u ("Current status: " ++ status).

(** *** restart_command *)

Definition restart_command (u : update) : B unit :=
  ok ← _check_authorized u;
  if negb ok then mret tt else
  reply u "Restarting web scraping process...";;
  set_status "Restarting...";;
  on_scraper close;;
  start_command u.

(** *** last_otp_command *)

(** The reply "Count must be a positive integer." is written inside the
    [try] whose [except ValueError] answers a count that [int] rejects; the
    errors of python-telegram-bot are no [ValueError], so a reply that
    raises goes on to the caller. *)

Definition last_otp_command (u : update) : B unit :=
  ok ← _check_authorized u;
  if negb ok then mret tt else
  match
    (match args u with
     | [] => inr 1
     | arg :: _ =>
         match int_of_str arg with
         | Some count =>
             if bool_decide (count <= 0) then inl "Count must be a positive integer."
             else inr count
         | None => inl "Please provide a valid number for count (e.g., /last_otp 5)."
         end
     end)
  with
  | inl complaint => reply u complaint
  | inr count =>
      reply u ("Fetching last " ++ pretty count ++ " OTPs...");;
      all_otps ← on_scraper fetch_new_otps;
      if list_truthy all_otps
      then send_each "Last OTP: " (last_n count all_otps)
      else send_message "No OTPs found on the page."
  end.

(** *** get_old_otps_command, receive_dates, cancel_command *)

Definition DATE_INPUT : Z := 0.
Definition END : Z := -1.

Definition get_old_otps_command (u : update) : B Z :=
  ok ← _check_authorized u;
  if negb ok then mret END else
  reply u ("Please provide the start and end dates in YYYY-MM-DD format "
           ++ "(e.g., 2025-10-01 2025-10-19).");;
  mret DATE_INPUT.

(** [start_date_str, end_date_str = dates_input.split()]. *)
Definition unpack_two (l : list string) : B (string * string) := λ b,
  match l with
  | [x; y] => (inr (x, y), b)
  | [] | [_] =>
      (inl (Exn PyException
              ("not enough values to unpack (expected 2, got "
               ++ pretty (length l) ++ ")")), b)
  | _ => (inl (Exn PyException "too many values to unpack (expected 2)"), b)
  end.

Definition receive_dates (u : update) : B Z :=
  ok ← _check_authorized u;
  if negb ok then mret END else
  let dates_input := strip (message_text u) in
  if negb (re_match date_pattern dates_input)
  then reply u "Invalid date format. Please use YYYY-MM-DD YYYY-MM-DD.";;
       mret DATE_INPUT
  else
    '(start_date_str, end_date_str) ← unpack_two (split dates_input);
    reply u ("Fetching historical OTPs from " ++ start_date_str ++ " to "
             ++ end_date_str ++ "...");;
    historical_otps ← on_scraper (get_historical_otps start_date_str end_date_str);
    (if list_truthy historical_otps
     then send_each "Historical OTP: " historical_otps
     else send_message ("No historical OTPs found for the period " ++ start_date_str
                        ++ " to " ++ end_date_str ++ "."));;
    mret END.

Definition cancel_command (u : update) : B Z :=
  ok ← _check_authorized u;
  if negb ok then mret END else
  reply u "Operation cancelled.";;
  mret END.

(** *** unauthorized_message *)

Definition unauthorized_message (u : update) : B unit :=
  ok ← _check_authorized u;
  if negb ok then mret tt else
  reply u ("I don't understand that command. Use /start, /status, /restart, /last_otp, "
           ++ "or /get_old_otps.").

End Bot.

Section BotRuns.

Context {W H E : Type} `{!Driver W H E} {T : Type} `{!Telegram T}.

(** [n] runs of the monitor job in a row. *)
Fixpoint monitor_ticks (n : nat) : B (W:=W) (H:=H) (T:=T) unit :=
  match n with
  | O => mret tt
  | S n' => monitor_otps;; monitor_ticks n'
  end.

(** What a handler that stops at the authorization check leaves: the
    refusal was passed to [reply_text], and nothing else moved. *)
Definition refused (b b' : bot (W:=W) (H:=H) (T:=T)) : Prop :=
  scraper b' = scraper b
  /\ bot_status b' = bot_status b
  /\ outbox b' = outbox b
  /\ chat_id b' = chat_id b
  /\ replies b' = replies b ++ ["You are not authorized to use this bot."].

(** From [b] to [b'] the texts [texts] were passed to [send_message] and
    the texts [answers] to [reply_text] or [reply_html], in this order, and
    the chat of the owner stayed the same. *)
Definition said (texts answers : list string) (b b' : bot (W:=W) (H:=H) (T:=T)) : Prop :=
  chat_id b' = chat_id b
  /\ outbox b' = outbox b ++ texts
  /\ replies b' = replies b ++ answers.

(** The greeting of [start_command] and the three statuses it can end in. *)
Definition greeting (u : update) : string :=
  "Hi " ++ mention_html u ++ "! Bot started! Attempting to log in...".

Definition waiting_status : string :=
  "Logged in and waiting for OTPs on the statistics page.".
Definition lost_status : string := "Logged in, but failed to navigate to OTP page.".
Definition failed_status : string := "Login failed.".

(** How a run of [start_command] from [b] that ended in [b'] with [r]
    went: what [login] returned on the scraper of [b], and then which
    status the bot shows. *)
Definition started (b : bot (W:=W) (H:=H) (T:=T)) (r : exn + unit)
    (b' : bot (W:=W) (H:=H) (T:=T)) (online : T) : Prop :=
  exists logged_in s1,
    login (scraper b) = (inr logged_in, s1)
    /\ sent_otps (scraper b') = sent_otps (scraper b)
    /\ if (logged_in : bool)
       then exists on_page,
              navigate_to_otp_page (handle_popup s1).2 = (inr on_page, scraper b')
              /\ if (on_page : bool)
                 then bot_status b' = waiting_status
                 else r = inr tt /\ bot_status b' = lost_status /\ telegram b' = online
       else r = inr tt /\ scraper b' = s1 /\ bot_status b' = failed_status
            /\ telegram b' = online.

End BotRuns.

(** ** A fake Telegram *)

Module FakeTelegram.

(** The names of the scheduled jobs, and whether the Bot API is
    reachable. *)
Record chat : Type := Chat {
  jobs : list string;
  reachable : bool
}.

Definition network_error : exn := Exn PyException "Timed out".

#[global] Instance fake_telegram : Telegram chat := {|
  reply_text _ _ t := (inr tt, t);
  reply_html _ _ t := (inr tt, t);
  bot_send_message _ _ t := if reachable t then (inr tt, t) else (inl network_error, t);
  job_in_jobs name t := (inr (bool_decide (name ∈ jobs t)), t);
  remove_first_job name t :=
    if bool_decide (name ∈ jobs t)
    then (inr tt, Chat (filter (λ j, j ≠ name) (jobs t)) (reachable t))
    else (inl (Exn PyException "tuple index out of range"), t);
  run_repeating name _ _ _ t := (inr tt, Chat (jobs t ++ [name]) (reachable t))
|}.

(** [int] on the decimal strings without sign, white space or underscore;
    the fake knows no other. *)
Fixpoint digits_value (acc : Z) (l : list ascii) : option Z :=
  match l with
  | [] => Some acc
  | c :: l' =>
      if isdigit c
      then digits_value (10 * acc + Z.of_nat (nat_of_ascii c - 48)) l'
      else None
  end.

Definition int_of_digits (s : string) : option Z :=
  match list_ascii_of_string s with
  | [] => None
  | l => digits_value 0 l
  end.

(** A bot for the chat 42 on the engine [s]. *)
Definition bot_on (s : state Fake.browser unit) (up : bool) : bot (T:=chat) :=
  Bot "123456:token" 42 s "Initializing..." (Chat [] up) [] [] [].

Definition from_owner (text : string) (arguments : list string) : update :=
  Update 42 text "<a href=tg://user?id=42>owner</a>" arguments.

Definition from_stranger (text : string) : update :=
  Update 7 text "<a href=tg://user?id=7>stranger</a>" [].

End FakeTelegram.

(** * Properties *)

Section Properties.

Context {W H E : Type} `{!Driver W H E}.

Implicit Types (st : state W H) (e : exn) (out cur : list string).

#[local] Set Warnings "-clear-no-such-hyp".

#[local] Abbreviation keeps := (keeps_sent (W:=W) (H:=H)).

(** ** Python values *)

Example strip_both_ends :
  strip (String (ascii_of_nat 9) "  Your code is 111111 " ++ String (ascii_of_nat 10) "")
  = "Your code is 111111".
Proof. reflexivity. Qed.

Example strip_inner_space_stays : strip " a  b " = "a  b".
Proof. reflexivity. Qed.

Example timeout_is_a_webdriver_exception :
  issubclass TimeoutException WebDriverException = true
  /\ issubclass WebDriverException TimeoutException = false
  /\ issubclass AttributeError WebDriverException = false
  /\ issubclass AttributeError PyException = true.
Proof. done. Qed.

(** [a or b] on two conditions is [a]: the second one is never waited for. *)
Lemma py_or_first (a b : cond) : py_or a b = a.
Proof. reflexivity. Qed.

(** ** Running a computation *)

Lemma run_bind {A B} (m : M W H A) (f : A -> M W H B) st :
  (m ≫= f) st = match m st with
                | (inr a, st') => f a st'
                | (inl e, st') => (inl e, st')
                end.
Proof. reflexivity. Qed.

Lemma run_try_except {A} (m : M W H A) clauses st :
  try_except m clauses st = match m st with
                            | (inr a, st') => (inr a, st')
                            | (inl e, st') => handle clauses e st'
                            end.
Proof. unfold try_except, attempt. rewrite run_bind. by destruct (m st) as [[?|?] ?]. Qed.

Lemma set_sent_otps_same st : set_sent_otps (sent_otps st) st = st.
Proof. by destruct st. Qed.

Lemma isinstance_PyException e : isinstance_any e [PyException] = true.
Proof. by destruct e as [[] ?]. Qed.

(** ** Relations that every statement of the engine respects *)

Lemma send_notification_run msg st :
  _send_notification msg st = (inr tt, after_notifications [msg] st).
Proof. reflexivity. Qed.

Section Frames.

(** A preorder on states that holds across a change of the world, of the
    driver handle, and across a notification. *)
Variable R : relation (state W H).
Hypothesis R_refl : forall st, R st st.
Hypothesis R_trans : forall st1 st2 st3, R st1 st2 -> R st2 st3 -> R st1 st3.
Hypothesis R_world : forall st w, R st (set_world w st).
Hypothesis R_driver : forall st d, R st (set_driver d st).
Hypothesis R_notify : forall st msg, R st (after_notifications [msg] st).

#[local] Abbreviation fr := (framed R).

Lemma framed_ret {A} (a : A) : fr (mret a).
Proof. intros st. apply R_refl. Qed.

Lemma framed_raise {A} e : fr (@raise W H A e).
Proof. intros st. apply R_refl. Qed.

Lemma framed_bind {A B} (m : M W H A) (f : A -> M W H B) :
  fr m -> (forall a, fr (f a)) -> fr (m ≫= f).
Proof.
  intros Hm Hf st. rewrite run_bind. specialize (Hm st).
  destruct (m st) as [[e|a] st']; simpl in *; [done|].
  eapply R_trans; [exact Hm | apply Hf].
Qed.

Lemma framed_attempt {A} (m : M W H A) : fr m -> fr (attempt m).
Proof. intros Hm st. unfold attempt. specialize (Hm st). by destruct (m st). Qed.

Lemma framed_handle {A} (clauses : list (list exn_class * (exn -> M W H A))) e :
  Forall (λ c, forall e', fr (c.2 e')) clauses -> fr (handle clauses e).
Proof.
  induction 1 as [|[cs h] rest Hh _ IH]; simpl; [apply framed_raise|].
  destruct (isinstance_any e cs); [apply Hh | apply IH].
Qed.

Lemma framed_try_except {A} (m : M W H A) clauses :
  fr m -> Forall (λ c, forall e', fr (c.2 e')) clauses -> fr (try_except m clauses).
Proof.
  intros Hm Hc. apply framed_bind; [by apply framed_attempt|].
  intros [e|a]; [by apply framed_handle | apply framed_ret].
Qed.

Lemma framed_call {A} (f : W -> (exn + A) * W) : fr (call f).
Proof. intros st. unfold call. destruct (f (world st)). apply R_world. Qed.

Lemma framed_self_driver attr : fr (self_driver attr).
Proof. intros st. unfold self_driver. destruct (driver st); apply R_refl. Qed.

Lemma framed_until t c : fr (WebDriverWait_until t c).
Proof. apply framed_bind; [apply framed_self_driver | intros; apply framed_call]. Qed.

Lemma framed_send_notification msg : fr (_send_notification msg).
Proof. intros st. rewrite send_notification_run. apply R_notify. Qed.

Lemma framed_get_driver : fr get_driver.
Proof. intros st. apply R_refl. Qed.

Lemma framed_put_driver d : fr (put_driver d).
Proof. intros st. apply R_driver. Qed.

Lemma framed_read {A} (f : state W H -> A) : fr (λ st, (inr (f st), st)).
Proof. intros st. apply R_refl. Qed.

Create HintDb frames discriminated.

#[local] Hint Resolve framed_ret framed_raise framed_call framed_self_driver framed_until
  framed_send_notification framed_get_driver framed_put_driver : frames.

(** Goes through a computation statement by statement. *)
Ltac frame_steps :=
  repeat first
    [ progress intros
    | apply framed_try_except
    | apply framed_bind
    | apply framed_attempt
    | apply framed_read
    | solve [eauto with frames]
    | apply Forall_cons_2; simpl
    | apply Forall_nil_2
    | match goal with
      | |- framed _ (match ?x with _ => _ end) => destruct x
      | |- framed _ (if ?x then _ else _) => destruct x
      end ].

Lemma framed_for_row_in rows : forall otps, fr (for_row_in rows otps).
Proof. induction rows as [|row rest IH]; intros otps; simpl; frame_steps. Qed.

#[local] Hint Resolve framed_for_row_in : frames.

Lemma framed_extract_except e otps : fr (extract_except e otps).
Proof. unfold extract_except. frame_steps. Qed.

#[local] Hint Resolve framed_extract_except : frames.

Lemma framed_extract_try : fr extract_try.
Proof. unfold extract_try. frame_steps. Qed.

#[local] Hint Resolve framed_extract_try : frames.

Lemma framed_extract_otps_from_table : fr _extract_otps_from_table.
Proof. unfold _extract_otps_from_table. frame_steps. Qed.

#[local] Hint Resolve framed_extract_otps_from_table : frames.

Lemma framed_initialize_driver : fr _initialize_driver.
Proof. unfold _initialize_driver. frame_steps. Qed.

#[local] Hint Resolve framed_initialize_driver : frames.

Lemma framed_login : fr login.
Proof. unfold login. frame_steps. Qed.

Lemma framed_popup_next : fr popup_next.
Proof. unfold popup_next. frame_steps. Qed.

#[local] Hint Resolve framed_popup_next : frames.

Lemma framed_popup_dismiss : fr popup_dismiss.
Proof. unfold popup_dismiss. frame_steps. Qed.

#[local] Hint Resolve framed_popup_dismiss : frames.

Lemma framed_handle_popup : fr handle_popup.
Proof. unfold handle_popup. frame_steps. Qed.

Lemma framed_navigate_to_otp_page : fr navigate_to_otp_page.
Proof. unfold navigate_to_otp_page. frame_steps. Qed.

Lemma framed_submit_date_range s1 s2 : fr (submit_date_range s1 s2).
Proof. unfold submit_date_range. frame_steps. Qed.

#[local] Hint Resolve framed_submit_date_range : frames.

Lemma framed_get_historical_otps s1 s2 : fr (get_historical_otps s1 s2).
Proof. unfold get_historical_otps. frame_steps. Qed.

Lemma framed_close : fr close.
Proof. unfold close. frame_steps. Qed.

(** The dedup loop and [fetch_new_otps] respect [R] when a change of the
    Seen-Set does. *)
Lemma framed_for_otp_in cur :
  (forall st s, R st (set_sent_otps s st)) ->
  forall new_messages, fr (for_otp_in cur new_messages).
Proof.
  intros R_sent. induction cur as [|otp rest IH]; intros acc st; simpl; [apply R_refl|].
  destruct (str_truthy otp && negb (bool_decide (otp ∈ sent_otps st))); [|apply IH].
  eapply R_trans; [apply R_sent | apply IH].
Qed.

Lemma framed_fetch_new_otps :
  (forall st s, R st (set_sent_otps s st)) -> fr fetch_new_otps.
Proof.
  intros R_sent. pose proof (framed_for_otp_in) as Hloop.
  unfold fetch_new_otps. frame_steps.
Qed.

End Frames.

(** ** Computations that leave the Seen-Set alone *)

(** Proves [keeps_sent] or [appends_printed] of an operation from its frame
    lemma. *)
Ltac by_frame lem :=
  apply lem; intros; simpl in *;
  first [ reflexivity | congruence | by apply prefix_app_r | etrans; eassumption ].

Lemma keeps_extract_otps_from_table : keeps _extract_otps_from_table.
Proof. by_frame framed_extract_otps_from_table. Qed.

Lemma keeps_login : keeps login.
Proof. by_frame framed_login. Qed.

Lemma keeps_handle_popup : keeps handle_popup.
Proof. by_frame framed_handle_popup. Qed.

Lemma keeps_navigate_to_otp_page : keeps navigate_to_otp_page.
Proof. by_frame framed_navigate_to_otp_page. Qed.

Lemma keeps_get_historical_otps s1 s2 : keeps (get_historical_otps s1 s2).
Proof. by_frame framed_get_historical_otps. Qed.

Lemma keeps_close : keeps close.
Proof. by_frame framed_close. Qed.

Lemma keeps_call {A} (f : W -> (exn + A) * W) : keeps (call f).
Proof. by_frame framed_call. Qed.

Lemma appends_popup_dismiss : appends_printed (W:=W) (H:=H) popup_dismiss.
Proof. by_frame framed_popup_dismiss. Qed.

(** ** What an operation sends *)

Lemma sent_between_refl (st : state W H) : exists msgs, sent_between st st msgs.
Proof.
  exists []. unfold sent_between. rewrite !app_nil_r.
  by destruct (notification_callback st).
Qed.

Lemma sent_between_trans (st1 st2 st3 : state W H) :
  (exists msgs, sent_between st1 st2 msgs) ->
  (exists msgs, sent_between st2 st3 msgs) ->
  exists msgs, sent_between st1 st3 msgs.
Proof.
  intros (m1 & Hp1 & Hn1 & Hc1) (m2 & Hp2 & Hn2 & Hc2). exists (m1 ++ m2).
  unfold sent_between. rewrite Hp2, Hp1, Hn2, Hc2, Hc1, Hn1.
  destruct (notification_callback st1); by rewrite ?app_assoc.
Qed.

Ltac sends_side :=
  first
    [ apply sent_between_trans
    | intros st0; apply sent_between_refl
    | intros st0 x; exists []; unfold sent_between; simpl; rewrite ?app_nil_r;
      by destruct (notification_callback st0)
    | intros st0 msg; by exists [msg] ].

(** Every message of [fetch_new_otps] and of [get_historical_otps] goes to
    the console and, when a callback is set, to the callback. *)
Lemma fetch_new_otps_sends st : exists msgs, sent_between st (fetch_new_otps st).2 msgs.
Proof.
  apply (framed_fetch_new_otps (λ st st', exists msgs, sent_between st st' msgs));
    sends_side.
Qed.

Lemma get_historical_otps_sends s1 s2 st :
  exists msgs, sent_between st (get_historical_otps s1 s2 st).2 msgs.
Proof.
  apply (framed_get_historical_otps (λ st st', exists msgs, sent_between st st' msgs));
    sends_side.
Qed.

(** ** Extraction *)

Lemma after_notifications_nil st : after_notifications [] st = st.
Proof.
  destruct st as [? ? ? ? cb ? ? ?]. unfold after_notifications. simpl.
  rewrite !app_nil_r. by destruct cb.
Qed.

Lemma after_notifications_app m1 m2 st :
  after_notifications m2 (after_notifications m1 st) = after_notifications (m1 ++ m2) st.
Proof.
  unfold after_notifications. simpl. rewrite !app_assoc.
  by destruct (notification_callback st).
Qed.

Lemma set_world_after_notifications w msgs st :
  after_notifications msgs (set_world w st) = set_world w (after_notifications msgs st).
Proof. reflexivity. Qed.

Lemma missing_None outs : missing (None :: outs) = S (missing outs).
Proof. unfold missing. by rewrite filter_cons_True. Qed.

Lemma missing_Some s outs : missing (Some s :: outs) = missing outs.
Proof. unfold missing. by rewrite filter_cons_False. Qed.

(** The row loop on rows that read as [outs]: the cells found are stripped
    and appended in order, each missing cell costs one notice, and the loop
    ends without an exception. *)
Lemma for_row_in_reads rows w outs w' :
  reads rows w outs w' ->
  forall otps st, world st = w ->
    for_row_in rows otps st
    = (inr (otps ++ (strip <$> omap id outs), None),
       set_world w' (after_notifications (replicate (missing outs) skip_notice) st)).
Proof.
  induction 1 as [w|row rest w cell w1 s w2 outs w3 Hfind Htext _ IH
                  |row rest w e w1 outs w3 Hfind Hcls _ IH]; intros otps st Hw.
  - simpl. rewrite app_nil_r, after_notifications_nil. subst w. by destruct st.
  - cbn [for_row_in]. rewrite run_bind. unfold attempt. rewrite run_bind.
    unfold call at 1. rewrite Hw, Hfind. unfold call at 1. simpl world. rewrite Htext.
    rewrite IH by reflexivity. rewrite missing_Some. simpl. by rewrite <- app_assoc.
  - cbn [for_row_in]. rewrite run_bind. unfold attempt. rewrite run_bind.
    unfold call at 1. rewrite Hw, Hfind.
    unfold isinstance. rewrite Hcls. cbn [issubclass]. rewrite run_bind, send_notification_run.
    rewrite IH by reflexivity. rewrite missing_None. simpl omap. simpl replicate.
    rewrite after_notifications_app. reflexivity.
Qed.

(** The extraction on a page that shows rows reading as [outs]. *)
Lemma extract_otps_from_table_reads st h v w1 w2 w3 rows outs w4 :
  driver st = Some h ->
  until h 10 (py_or (presence_of_element_located rows_locator)
                    (presence_of_element_located no_data_locator)) (world st) = (inr v, w1) ->
  find_elements h no_data_locator w1 = (inr [], w2) ->
  find_elements h rows_locator w2 = (inr rows, w3) ->
  reads rows w3 outs w4 ->
  _extract_otps_from_table st
  = (inr (strip <$> omap id outs),
     set_world w4 (after_notifications (replicate (missing outs) skip_notice) st)).
Proof.
  intros Hd Hwait Hnone Hrows Hreads.
  unfold _extract_otps_from_table. rewrite run_bind. unfold attempt.
  unfold extract_try. rewrite run_bind.
  unfold WebDriverWait_until. rewrite run_bind. unfold self_driver at 1. rewrite Hd.
  unfold call at 1. rewrite Hwait.
  rewrite run_bind. unfold self_driver at 1. simpl driver. rewrite Hd.
  rewrite run_bind. unfold call at 1. simpl world. rewrite Hnone.
  cbn [list_truthy]. rewrite run_bind. unfold self_driver at 1. simpl driver. rewrite Hd.
  rewrite run_bind. unfold call at 1. simpl world. rewrite Hrows.
  rewrite run_bind. erewrite for_row_in_reads; [|done|done]. simpl.
  done.
Qed.

Lemma for_row_in_reads_to_fault rows w outs e w' :
  reads_to_fault rows w outs e w' ->
  forall otps st, world st = w ->
    for_row_in rows otps st
    = (inr (otps ++ (strip <$> omap id outs), Some e),
       set_world w' (after_notifications (replicate (missing outs) skip_notice) st)).
Proof.
  induction 1 as [row rest w e w1 Hfind Hcls
                  |row rest w cell w1 e w2 Hfind Htext Hcls
                  |row rest w cell w1 s w2 outs e w3 Hfind Htext _ IH
                  |row rest w e0 w1 outs e w3 Hfind Hcls _ IH]; intros otps st Hw.
  - cbn [for_row_in]. rewrite run_bind. unfold attempt. rewrite run_bind.
    unfold call at 1. rewrite Hw, Hfind. rewrite Hcls.
    simpl. rewrite app_nil_r, after_notifications_nil. reflexivity.
  - cbn [for_row_in]. rewrite run_bind. unfold attempt. rewrite run_bind.
    unfold call at 1. rewrite Hw, Hfind. unfold call at 1. simpl world. rewrite Htext.
    rewrite Hcls. simpl. rewrite app_nil_r, after_notifications_nil. reflexivity.
  - cbn [for_row_in]. rewrite run_bind. unfold attempt. rewrite run_bind.
    unfold call at 1. rewrite Hw, Hfind. unfold call at 1. simpl world. rewrite Htext.
    rewrite IH by reflexivity. rewrite missing_Some. simpl. by rewrite <- app_assoc.
  - cbn [for_row_in]. rewrite run_bind. unfold attempt. rewrite run_bind.
    unfold call at 1. rewrite Hw, Hfind.
    unfold isinstance. rewrite Hcls. cbn [issubclass]. rewrite run_bind, send_notification_run.
    rewrite IH by reflexivity. rewrite missing_None. simpl omap. simpl replicate.
    rewrite after_notifications_app. reflexivity.
Qed.

(** The extraction on a page whose rows read as [outs] up to the exception
    [e]: the [except] clause gets [e] with the records read so far. *)
Lemma extract_otps_from_table_reads_to_fault st h v w1 w2 w3 rows outs e w4 :
  driver st = Some h ->
  until h 10 (py_or (presence_of_element_located rows_locator)
                    (presence_of_element_located no_data_locator)) (world st) = (inr v, w1) ->
  find_elements h no_data_locator w1 = (inr [], w2) ->
  find_elements h rows_locator w2 = (inr rows, w3) ->
  reads_to_fault rows w3 outs e w4 ->
  _extract_otps_from_table st
  = extract_except e (strip <$> omap id outs)
      (set_world w4 (after_notifications (replicate (missing outs) skip_notice) st)).
Proof.
  intros Hd Hwait Hnone Hrows Hreads.
  unfold _extract_otps_from_table. rewrite run_bind. unfold attempt.
  unfold extract_try. rewrite run_bind.
  unfold WebDriverWait_until. rewrite run_bind. unfold self_driver at 1. rewrite Hd.
  unfold call at 1. rewrite Hwait.
  rewrite run_bind. unfold self_driver at 1. simpl driver. rewrite Hd.
  rewrite run_bind. unfold call at 1. simpl world. rewrite Hnone.
  cbn [list_truthy]. rewrite run_bind. unfold self_driver at 1. simpl driver. rewrite Hd.
  rewrite run_bind. unfold call at 1. simpl world. rewrite Hrows.
  rewrite run_bind. erewrite for_row_in_reads_to_fault; [|done|done]. simpl.
  done.
Qed.

Lemma isinstance_selenium e :
  isinstance_any e selenium_faults = isinstance e WebDriverException.
Proof. by destruct e as [[] ?]. Qed.

Lemma isinstance_WebDriver e :
  isinstance_any e [WebDriverException] = isinstance e WebDriverException.
Proof. by destruct e as [[] ?]. Qed.

Lemma sent_between_app st1 st2 st3 m1 m2 :
  sent_between st1 st2 m1 -> sent_between st2 st3 m2 -> sent_between st1 st3 (m1 ++ m2).
Proof.
  intros (Hp1 & Hn1 & Hc1) (Hp2 & Hn2 & Hc2).
  unfold sent_between. rewrite Hp2, Hp1, Hn2, Hc2, Hc1, Hn1.
  destruct (notification_callback st1); by rewrite ?app_assoc.
Qed.

Lemma sent_between_after msgs w st :
  sent_between st (set_world w (after_notifications msgs st)) msgs.
Proof. unfold sent_between. simpl. by destruct (notification_callback st). Qed.

(** [get_historical_otps] after an exception raised while the rows are
    read. *)
Lemma get_historical_otps_row_fault s1 s2 st st1 h v w1 w2 w3 rows outs e w4 :
  submit_date_range s1 s2 st = (inr tt, st1) ->
  driver st1 = Some h ->
  until h 10 (py_or (presence_of_element_located rows_locator)
                    (presence_of_element_located no_data_locator)) (world st1) = (inr v, w1) ->
  find_elements h no_data_locator w1 = (inr [], w2) ->
  find_elements h rows_locator w2 = (inr rows, w3) ->
  reads_to_fault rows w3 outs e w4 ->
  exists st',
    get_historical_otps s1 s2 st
    = (inr (if isinstance e WebDriverException then strip <$> omap id outs else []), st')
    /\ sent_between st1 st'
         (replicate (missing outs) skip_notice
          ++ [row_fault_notice "An unexpected error occurred during historical OTP fetch: " e]).
Proof.
  intros Hsub Hd Hwait Hnone Hrows Hreads.
  pose proof (extract_otps_from_table_reads_to_fault _ _ _ _ _ _ _ _ _ _ Hd Hwait Hnone Hrows
                Hreads) as Hext.
  unfold get_historical_otps. rewrite run_try_except, run_bind, Hsub, run_bind, Hext.
  unfold extract_except, row_fault_notice. rewrite isinstance_selenium.
  destruct (isinstance e WebDriverException) eqn:Hsel.
  - rewrite run_bind, send_notification_run. cbn [mret M_ret].
    eexists. split; [reflexivity|].
    eapply sent_between_app; [apply (sent_between_after _ w4)|].
    unfold sent_between. simpl. by destruct (notification_callback st1).
  - unfold raise. cbn [handle]. rewrite isinstance_selenium, Hsel, isinstance_PyException.
    rewrite run_bind, send_notification_run. cbn [mret M_ret].
    eexists. split; [reflexivity|].
    eapply sent_between_app; [apply (sent_between_after _ w4)|].
    unfold sent_between. simpl. by destruct (notification_callback st1).
Qed.

Lemma lstrip_all_space s : all_space s = true -> lstrip s = "".
Proof.
  induction s as [|c s IH]; simpl; [done|].
  intros [-> Hs]%andb_true_iff. by apply IH.
Qed.

Lemma strip_all_space s : all_space s = true -> strip s = "".
Proof. intros Hs. unfold strip. by rewrite lstrip_all_space. Qed.

Lemma omap_id_Some (l : list string) : omap id (Some <$> l) = l.
Proof. induction l as [|x l IH]; simpl; [done|]. f_equal. exact IH. Qed.

Lemma missing_all_Some (l : list string) : missing (Some <$> l) = 0%nat.
Proof. induction l as [|x l IH]; [done|]. rewrite fmap_cons, missing_Some. exact IH. Qed.

Lemma missing_one (pre post : list string) :
  missing ((Some <$> pre) ++ None :: (Some <$> post)) = 1%nat.
Proof.
  induction pre as [|x pre IH].
  - simpl. by rewrite missing_None, missing_all_Some.
  - rewrite fmap_cons. simpl app. rewrite missing_Some. exact IH.
Qed.

(** C6, as the code has it.  On a page where the lookup of a cell with the
    text "No data available in table" finds none, and whose table shows N+1
    rows, one of them without the message-body cell and the other N with
    it, the extraction returns, with exactly the N stripped bodies of the
    rows that have the cell, in page order; it sends one notice, the one
    for the row without the cell, and raises nothing. *)
Theorem C6_extraction_skips_malformed_row st h v w1 w2 w3 rows pre post w4 :
  driver st = Some h ->
  until h 10 (py_or (presence_of_element_located rows_locator)
                    (presence_of_element_located no_data_locator)) (world st) = (inr v, w1) ->
  find_elements h no_data_locator w1 = (inr [], w2) ->
  find_elements h rows_locator w2 = (inr rows, w3) ->
  reads rows w3 ((Some <$> pre) ++ None :: (Some <$> post)) w4 ->
  exists records st',
    _extract_otps_from_table st = (inr records, st')
    /\ records = strip <$> (pre ++ post)
    /\ length records = length (pre ++ post)
    /\ printed st' = printed st ++ ["Could not find message text in a row. Skipping."]
    /\ notified st' = (if notification_callback st
                       then notified st ++ ["Could not find message text in a row. Skipping."]
                       else notified st).
Proof.
  intros Hd Hwait Hnone Hrows Hreads.
  pose proof (extract_otps_from_table_reads _ _ _ _ _ _ _ _ _ Hd Hwait Hnone Hrows Hreads)
    as Hrun.
  rewrite missing_one, omap_app in Hrun. simpl in Hrun. rewrite !omap_id_Some in Hrun.
  eexists _, _. split; [exact Hrun|].
  split_and!; [done | by rewrite length_fmap | done | done].
Qed.

(** [get_historical_otps] hands on what the extraction returns, as it is. *)
Lemma get_historical_otps_extracts s1 s2 st st1 cur st2 :
  submit_date_range s1 s2 st = (inr tt, st1) ->
  _extract_otps_from_table st1 = (inr cur, st2) ->
  get_historical_otps s1 s2 st = (inr cur, st2).
Proof.
  intros Hsub Hext. unfold get_historical_otps.
  by rewrite run_try_except, run_bind, Hsub, run_bind, Hext.
Qed.

(** C5, as the code has it.  When the date range is submitted, the lookup
    of a cell with the text "No data available in table" finds none, and
    the table shows two rows with their body cells, [get_historical_otps]
    returns the stripped bodies of both rows, in page order, for every pair
    of date strings: nothing of a row but its third cell is read, and no
    record is left out by date. *)
Theorem C5_range_returns_every_row s1 s2 st st1 h v w1 w2 w3 row1 row2 body1 body2 w4 :
  submit_date_range s1 s2 st = (inr tt, st1) ->
  driver st1 = Some h ->
  until h 10 (py_or (presence_of_element_located rows_locator)
                    (presence_of_element_located no_data_locator)) (world st1) = (inr v, w1) ->
  find_elements h no_data_locator w1 = (inr [], w2) ->
  find_elements h rows_locator w2 = (inr [row1; row2], w3) ->
  reads [row1; row2] w3 [Some body1; Some body2] w4 ->
  exists st', get_historical_otps s1 s2 st = (inr [strip body1; strip body2], st').
Proof.
  intros Hsub Hd Hwait Hnone Hrows Hreads. eexists.
  eapply get_historical_otps_extracts; [done|].
  by rewrite (extract_otps_from_table_reads _ _ _ _ _ _ _ _ _ Hd Hwait Hnone Hrows Hreads).
Qed.

(** ** The pop-up *)

Lemma isinstance_Timeout e :
  exn_cls e = TimeoutException -> isinstance_any e [TimeoutException] = true.
Proof. destruct e as [c ?]. simpl. by intros ->. Qed.

(** A wait with a live driver. *)
Lemma until_run t c st h :
  driver st = Some h ->
  WebDriverWait_until t c st
  = (let (r, w) := until h t c (world st) in (r, set_world w st)).
Proof.
  intros Hd. unfold WebDriverWait_until. rewrite run_bind.
  unfold self_driver. by rewrite Hd.
Qed.

(** The "Next" control does not get clickable: the inner [try] passes. *)
Lemma popup_next_absent st h e w :
  driver st = Some h ->
  until h 3 (element_to_be_clickable next_locator) (world st) = (inl e, w) ->
  exn_cls e = TimeoutException ->
  popup_next st = (inr tt, set_world w st).
Proof.
  intros Hd Hnext Hcls. unfold popup_next.
  rewrite run_try_except, run_bind, (until_run _ _ _ h Hd), Hnext.
  cbn [handle]. by rewrite isinstance_Timeout.
Qed.

(** The states of the theorem below are equal field by field. *)
Ltac same_state st :=
  unfold after_notifications, set_world; simpl;
  destruct (notification_callback st); by rewrite <- ?app_assoc.

(** [handle_popup] once the modal is there. *)
Lemma handle_popup_detected st h m w1 :
  driver st = Some h ->
  until h 5 (presence_of_element_located modal_locator) (world st) = (inr m, w1) ->
  handle_popup st
  = match popup_dismiss (after_notifications [detected_notice] (set_world w1 st)) with
    | (inr b, st2) => (inr b, st2)
    | (inl e, st2) =>
        handle
          [ ([TimeoutException],
             λ _, _send_notification "No pop-up or pop-up closed automatically.";;
                  mret false);
            ([NoSuchElementException; WebDriverException],
             λ e, _send_notification ("Error handling pop-up: " ++ exn_str e);; mret false);
            ([PyException],
             λ e, _send_notification ("An unexpected error occurred during pop-up handling: "
                                      ++ exn_str e);;
                  mret false) ] e st2
    end.
Proof.
  intros Hd Hmodal. unfold handle_popup.
  rewrite run_try_except, run_bind, (until_run _ _ _ h Hd), Hmodal.
  rewrite run_bind, send_notification_run. reflexivity.
Qed.

(** What the pop-up code sends before it raises. *)

Lemma bind_inv {V A B} (m : M V H A) (f : A -> M V H B) s r s' :
  (m ≫= f) s = (r, s') ->
  (exists e, m s = (inl e, s') /\ r = inl e)
  \/ (exists a s1, m s = (inr a, s1) /\ f a s1 = (r, s')).
Proof.
  change ((m ≫= f) s) with (match m s with
                            | (inr a, s1) => f a s1
                            | (inl e, s1) => (inl e, s1)
                            end).
  destruct (m s) as [[e|a] s1]; intros Hrun.
  - left. exists e. by inversion Hrun.
  - right. by exists a, s1.
Qed.

Lemma sent_between_nil st : sent_between st st [].
Proof. unfold sent_between. destruct (notification_callback st); by rewrite ?app_nil_r. Qed.

Lemma call_silent {A} (f : W -> (exn + A) * W) st r st' :
  call f st = (r, st') -> sent_between st st' [].
Proof.
  unfold call. destruct (f (world st)) as [? ?]. intros [= <- <-].
  unfold sent_between. simpl. destruct (notification_callback st); by rewrite ?app_nil_r.
Qed.

Lemma until_silent t c st r st' :
  WebDriverWait_until t c st = (r, st') -> sent_between st st' [].
Proof.
  unfold WebDriverWait_until.
  intros [(e & Hrun & _)|(h & s1 & Hrun & Hcall)]%bind_inv;
    unfold self_driver in Hrun; destruct (driver st); inversion Hrun; subst.
  - apply sent_between_nil.
  - by apply call_silent in Hcall.
Qed.

Lemma sent_between_one msg st : sent_between st (after_notifications [msg] st) [msg].
Proof. unfold sent_between. simpl. by destruct (notification_callback st). Qed.

(** The inner [try]: when it raises it has sent nothing; when it returns it
    has sent nothing, or the notice of the click on "Next". *)
Lemma popup_next_sends st r st' :
  popup_next st = (r, st') ->
  match r with
  | inl _ => sent_between st st' []
  | inr _ => sent_between st st' [] \/ sent_between st st' [next_notice]
  end.
Proof.
  unfold popup_next. rewrite run_try_except.
  match goal with |- context [match ?body st with _ => _ end] =>
    destruct (body st) as [[e|[]] st1] eqn:Hbody
  end.
  - assert (Hsilent : sent_between st st1 []).
    { apply bind_inv in Hbody as [(e0 & Hrun & _)|(n & s1 & Hrun & Hbody)];
        apply until_silent in Hrun as H1; [done|].
      apply bind_inv in Hbody as [(e0 & Hrun' & _)|([] & s2 & Hrun' & Hbody)];
        apply call_silent in Hrun' as H2;
        [exact (sent_between_app _ _ _ _ _ H1 H2)|].
      apply bind_inv in Hbody as [(e0 & Hrun'' & _)|(v & s3 & Hrun'' & Hbody)];
        apply until_silent in Hrun'' as H3;
        [exact (sent_between_app _ _ _ _ _ (sent_between_app _ _ _ _ _ H1 H2) H3)|].
      rewrite send_notification_run in Hbody. discriminate. }
    cbn [handle]. destruct (isinstance_any e [TimeoutException]).
    + intros [= <- <-]. by left.
    + intros [= <- <-]. exact Hsilent.
  - intros [= <- <-]. right.
    apply bind_inv in Hbody as [(e0 & Hrun & ?)|(n & s1 & Hrun & Hbody)]; [done|].
    apply until_silent in Hrun as H1.
    apply bind_inv in Hbody as [(e0 & Hrun' & ?)|([] & s2 & Hrun' & Hbody)]; [done|].
    apply call_silent in Hrun' as H2.
    apply bind_inv in Hbody as [(e0 & Hrun'' & ?)|(v & s3 & Hrun'' & Hbody)]; [done|].
    apply until_silent in Hrun'' as H3.
    rewrite send_notification_run in Hbody. injection Hbody as <-.
    exact (sent_between_app _ _ _ _ _
             (sent_between_app _ _ _ _ _ (sent_between_app _ _ _ _ _ H1 H2) H3)
             (sent_between_one next_notice s3)).
Qed.

(** What follows the detection notice, when it raises: it has sent nothing,
    or the notice of the click on "Next". *)
Lemma popup_dismiss_raised st e st' :
  popup_dismiss st = (inl e, st') ->
  exists sent, (sent = [] \/ sent = [next_notice]) /\ sent_between st st' sent.
Proof.
  unfold popup_dismiss.
  intros [(e0 & Hnext & _)|([] & s1 & Hnext & Hrest)]%bind_inv;
    apply popup_next_sends in Hnext.
  { exists []. split; [by left | done]. }
  assert (Hsilent : sent_between s1 st' []).
  { apply bind_inv in Hrest as [(e0 & Hrun & _)|(d & s2 & Hrun & Hrest)];
      apply until_silent in Hrun as H1; [done|].
    apply bind_inv in Hrest as [(e0 & Hrun' & _)|([] & s3 & Hrun' & Hrest)];
      apply call_silent in Hrun' as H2;
      [exact (sent_between_app _ _ _ _ _ H1 H2)|].
    apply bind_inv in Hrest as [(e0 & Hrun'' & _)|(v & s4 & Hrun'' & Hrest)];
      apply until_silent in Hrun'' as H3;
      [exact (sent_between_app _ _ _ _ _ (sent_between_app _ _ _ _ _ H1 H2) H3)|].
    rewrite run_bind, send_notification_run in Hrest. discriminate. }
  destruct Hnext as [Hnone|Hone].
  - exists []. split; [by left|]. exact (sent_between_app _ _ _ _ _ Hnone Hsilent).
  - exists [next_notice]. split; [by right|].
    exact (sent_between_app _ _ _ _ _ Hone Hsilent).
Qed.

(** C4, as the code has it.  With a live driver:
    - when the 5-unit wait for the modal times out, [handle_popup] returns
      false after the notice "No pop-up or pop-up closed automatically.";
    - when the modal shows, the 3-unit wait for "Next" times out, "Done"
      gets clickable within 5 units, the click goes through and the modal is
      gone within 5 units, it returns true;
    - when the modal shows, "Next" is absent and the 5-unit wait for "Done"
      times out, it returns false, and so it does when "Done" is clicked
      and the 5-unit wait for the modal to go times out;
    - whenever the modal shows and what follows the detection notice ends
      in a timeout, it returns false after the notice "No pop-up or pop-up
      closed automatically.": the value returned and the last notice are
      those of the run without a modal.  The notices sent before that last
      one are the detection notice alone, or the detection notice and then
      "Clicked Next on pop-up.": these, and nothing else, tell the run
      apart from the one without a modal. *)
Theorem C4_popup_outcomes st h :
  driver st = Some h ->
  (forall e w1,
     until h 5 (presence_of_element_located modal_locator) (world st) = (inl e, w1) ->
     exn_cls e = TimeoutException ->
     handle_popup st = (inr false, after_notifications [no_popup_notice] (set_world w1 st)))
  /\ (forall m w1 e w2 d w3 w4 v w5,
        until h 5 (presence_of_element_located modal_locator) (world st) = (inr m, w1) ->
        until h 3 (element_to_be_clickable next_locator) w1 = (inl e, w2) ->
        exn_cls e = TimeoutException ->
        until h 5 (element_to_be_clickable done_locator) w2 = (inr d, w3) ->
        elem_click d w3 = (inr tt, w4) ->
        until h 5 (invisibility_of_element_located modal_locator) w4 = (inr v, w5) ->
        handle_popup st
        = (inr true, set_world w5 (after_notifications [detected_notice; closed_notice] st)))
  /\ (forall m w1 e w2 e' w3,
        until h 5 (presence_of_element_located modal_locator) (world st) = (inr m, w1) ->
        until h 3 (element_to_be_clickable next_locator) w1 = (inl e, w2) ->
        exn_cls e = TimeoutException ->
        until h 5 (element_to_be_clickable done_locator) w2 = (inl e', w3) ->
        exn_cls e' = TimeoutException ->
        handle_popup st
        = (inr false,
           set_world w3 (after_notifications [detected_notice; no_popup_notice] st)))
  /\ (forall m w1 e w2 d w3 w4 e' w5,
        until h 5 (presence_of_element_located modal_locator) (world st) = (inr m, w1) ->
        until h 3 (element_to_be_clickable next_locator) w1 = (inl e, w2) ->
        exn_cls e = TimeoutException ->
        until h 5 (element_to_be_clickable done_locator) w2 = (inr d, w3) ->
        elem_click d w3 = (inr tt, w4) ->
        until h 5 (invisibility_of_element_located modal_locator) w4 = (inl e', w5) ->
        exn_cls e' = TimeoutException ->
        handle_popup st
        = (inr false,
           set_world w5 (after_notifications [detected_notice; no_popup_notice] st)))
  /\ (forall m w1 e st2,
        until h 5 (presence_of_element_located modal_locator) (world st) = (inr m, w1) ->
        popup_dismiss (after_notifications [detected_notice] (set_world w1 st)) = (inl e, st2) ->
        exn_cls e = TimeoutException ->
        handle_popup st = (inr false, after_notifications [no_popup_notice] st2)
        /\ exists sent,
             (sent = [] \/ sent = [next_notice])
             /\ sent_between st st2 (detected_notice :: sent)).
Proof.
  intros Hd. split_and!.
  - intros e w1 Hwait Hcls. unfold handle_popup.
    rewrite run_try_except, run_bind, (until_run _ _ _ h Hd), Hwait.
    cbn [handle]. by rewrite isinstance_Timeout.
  - intros m w1 e w2 d w3 w4 v w5 Hmodal Hnext Hcls Hdone Hclick Hgone.
    rewrite (handle_popup_detected _ h m w1 Hd Hmodal).
    unfold popup_dismiss. rewrite run_bind.
    rewrite (popup_next_absent _ h e w2) by done.
    rewrite run_bind, (until_run _ _ _ h) by done. simpl world. rewrite Hdone.
    rewrite run_bind. unfold call at 1. simpl world. rewrite Hclick.
    rewrite run_bind, (until_run _ _ _ h) by done. simpl world. rewrite Hgone.
    rewrite run_bind, send_notification_run. cbn [mret M_ret].
    f_equal. same_state st.
  - intros m w1 e w2 e' w3 Hmodal Hnext Hcls Hdone Hcls'.
    rewrite (handle_popup_detected _ h m w1 Hd Hmodal).
    unfold popup_dismiss. rewrite run_bind.
    rewrite (popup_next_absent _ h e w2) by done.
    rewrite run_bind, (until_run _ _ _ h) by done. simpl world. rewrite Hdone.
    cbn [handle]. rewrite isinstance_Timeout by done.
    rewrite run_bind, send_notification_run. cbn [mret M_ret].
    f_equal. same_state st.
  - intros m w1 e w2 d w3 w4 e' w5 Hmodal Hnext Hcls Hdone Hclick Hstays Hcls'.
    rewrite (handle_popup_detected _ h m w1 Hd Hmodal).
    unfold popup_dismiss. rewrite run_bind.
    rewrite (popup_next_absent _ h e w2) by done.
    rewrite run_bind, (until_run _ _ _ h) by done. simpl world. rewrite Hdone.
    rewrite run_bind. unfold call at 1. simpl world. rewrite Hclick.
    rewrite run_bind, (until_run _ _ _ h) by done. simpl world. rewrite Hstays.
    cbn [handle]. rewrite isinstance_Timeout by done.
    rewrite run_bind, send_notification_run. cbn [mret M_ret].
    f_equal. same_state st.
  - intros m w1 e st2 Hmodal Hdismiss Hcls. split.
    + rewrite (handle_popup_detected _ h m w1 Hd Hmodal), Hdismiss.
      cbn [handle]. by rewrite isinstance_Timeout.
    + destruct (popup_dismiss_raised _ _ _ Hdismiss) as (sent & Hcase & Hsent).
      exists sent. split; [exact Hcase|].
      apply (sent_between_app st (after_notifications [detected_notice] (set_world w1 st))
               st2 [detected_notice] sent); [|exact Hsent].
      unfold sent_between. simpl. by destruct (notification_callback st).
Qed.

(** ** The dedup loop *)

Lemma for_otp_in_spec cur : forall new_messages st,
  exists out,
    for_otp_in cur new_messages st
      = (inr (new_messages ++ out), set_sent_otps (sent_otps st ∪ list_to_set out) st)
    /\ NoDup out
    /\ (forall x, x ∈ out -> x ∈ cur /\ (x ∉ sent_otps st) /\ x ≠ "").
Proof.
  induction cur as [|otp rest IH]; intros acc st; simpl.
  - exists []. rewrite app_nil_r. simpl. rewrite (right_id_L ∅ (∪)), set_sent_otps_same.
    split_and!; [done | constructor | intros x Hx; by apply elem_of_nil in Hx].
  - destruct (str_truthy otp && negb (bool_decide (otp ∈ sent_otps st))) eqn:Hnew.
    + apply andb_true_iff in Hnew as [Hne Hfresh].
      apply negb_true_iff, bool_decide_eq_false in Hfresh.
      destruct (IH (acc ++ [otp]) (set_sent_otps ({[otp]} ∪ sent_otps st) st))
        as (out & Hrun & Hnd & Hin).
      simpl in Hrun, Hin.
      exists (otp :: out). rewrite Hrun, <- app_assoc. simpl.
      split_and!.
      * f_equal. unfold set_sent_otps; simpl. f_equal. set_solver.
      * constructor; [|done]. intros Hx. apply Hin in Hx. set_solver.
      * intros x [->|Hx]%elem_of_cons.
        -- split_and!; [set_solver | done | intros ->; done].
        -- apply Hin in Hx as (? & ? & ?). split_and!; [set_solver | set_solver | done].
    + destruct (IH acc st) as (out & Hrun & Hnd & Hin).
      exists out. split_and!; [done | done |].
      intros x Hx. apply Hin in Hx as (? & ? & ?). split_and!; [set_solver | done | done].
Qed.

(** When nothing in [cur] is both non-empty and new, the loop changes
    nothing. *)
Lemma for_otp_in_nothing_new cur : forall new_messages st,
  (forall x, x ∈ cur -> x ∈ sent_otps st) ->
  for_otp_in cur new_messages st = (inr new_messages, st).
Proof.
  induction cur as [|otp rest IH]; intros acc st Hall; simpl; [done|].
  rewrite (bool_decide_eq_true_2 (otp ∈ sent_otps st)) by (apply Hall; set_solver).
  rewrite andb_false_r. apply IH. intros x Hx. apply Hall. set_solver.
Qed.

Lemma str_truthy_false s : str_truthy s = false -> s = "".
Proof. by destruct s. Qed.

Lemma str_truthy_true s : str_truthy s = true -> s ≠ "".
Proof. by destruct s. Qed.

(** The dedup loop, exactly: it keeps the order of the page, returns each
    new non-empty record once, and leaves every non-empty record of the
    page in the Seen-Set. *)
Lemma for_otp_in_exact cur : forall new_messages st,
  exists out,
    for_otp_in cur new_messages st
      = (inr (new_messages ++ out), set_sent_otps (sent_otps st ∪ list_to_set out) st)
    /\ out `sublist_of` cur
    /\ NoDup out
    /\ (forall x, x ∈ out <-> x ∈ cur /\ x ≠ "" /\ (x ∉ sent_otps st)).
Proof.
  induction cur as [|otp rest IH]; intros acc st; simpl.
  - exists []. rewrite app_nil_r. simpl. rewrite (right_id_L ∅ (∪)), set_sent_otps_same.
    split_and!; [done | done | constructor |]. intros x. set_solver.
  - destruct (str_truthy otp && negb (bool_decide (otp ∈ sent_otps st))) eqn:Hnew.
    + apply andb_true_iff in Hnew as [Hne Hfresh].
      apply negb_true_iff, bool_decide_eq_false in Hfresh.
      apply str_truthy_true in Hne.
      destruct (IH (acc ++ [otp]) (set_sent_otps ({[otp]} ∪ sent_otps st) st))
        as (out & Hrun & Hsub & Hnd & Hin).
      simpl in Hrun, Hin.
      exists (otp :: out). rewrite Hrun, <- app_assoc. simpl.
      split_and!.
      * f_equal. unfold set_sent_otps; simpl. f_equal. set_solver.
      * by apply sublist_skip.
      * constructor; [|done]. intros Hx. apply Hin in Hx. set_solver.
      * intros x. rewrite !elem_of_cons, Hin. split.
        -- intros [->|(? & ? & ?)]; [by auto|]. split_and!; [by right | done | set_solver].
        -- intros ([->|?] & ? & ?); [by left|].
           destruct (decide (x = otp)) as [->|?]; [by left|]. right.
           split_and!; [done | done | set_solver].
    + destruct (IH acc st) as (out & Hrun & Hsub & Hnd & Hin).
      exists out. split_and!; [done | by apply sublist_cons | done |].
      intros x. rewrite Hin, elem_of_cons. split; [by intros (? & ? & ?); auto|].
      intros ([->|?] & Hne & Hfresh); [|done]. exfalso.
      apply andb_false_iff in Hnew as [Hempty|Hseen].
      * by apply str_truthy_false in Hempty.
      * apply negb_false_iff, bool_decide_eq_true in Hseen. done.
Qed.

(** [fetch_new_otps] after an exception raised while the rows are read. *)
Lemma fetch_new_otps_row_fault st h w0 v w1 w2 w3 rows outs e w4 :
  driver st = Some h ->
  driver_get h otp_page_url (world st) = (inr tt, w0) ->
  until h 10 (py_or (presence_of_element_located rows_locator)
                    (presence_of_element_located no_data_locator)) w0 = (inr v, w1) ->
  find_elements h no_data_locator w1 = (inr [], w2) ->
  find_elements h rows_locator w2 = (inr rows, w3) ->
  reads_to_fault rows w3 outs e w4 ->
  exists out st',
    fetch_new_otps st = (inr out, st')
    /\ sent_between st st'
         (replicate (missing outs) skip_notice
          ++ [row_fault_notice "An unexpected error occurred during new OTP fetch: " e])
    /\ if isinstance e WebDriverException
       then out `sublist_of` (strip <$> omap id outs)
            /\ forall x, x ∈ out
                 <-> x ∈ strip <$> omap id outs /\ x ≠ "" /\ (x ∉ sent_otps st)
       else out = [].
Proof.
  intros Hd Hget Hwait Hnone Hrows Hreads.
  assert (Hd0 : driver (set_world w0 st) = Some h) by exact Hd.
  pose proof (extract_otps_from_table_reads_to_fault (set_world w0 st) _ _ _ _ _ _ _ _ _
                Hd0 Hwait Hnone Hrows Hreads) as Hext.
  unfold fetch_new_otps. rewrite run_try_except, run_bind.
  unfold self_driver at 1. rewrite Hd, run_bind.
  unfold call at 1. rewrite Hget, run_bind, Hext.
  unfold extract_except, row_fault_notice. rewrite isinstance_selenium.
  destruct (isinstance e WebDriverException) eqn:Hsel.
  - rewrite run_bind, send_notification_run. cbn [mret M_ret].
    match goal with |- context [for_otp_in ?cur [] ?s] =>
      destruct (for_otp_in_exact cur [] s) as (out & Hloop & Hsub & _ & Hin)
    end.
    rewrite Hloop. eexists out, _. split; [reflexivity|]. split; [|by split].
    unfold sent_between. simpl. destruct (notification_callback st); by rewrite <- ?app_assoc.
  - unfold raise. cbn [handle]. rewrite isinstance_WebDriver, Hsel, isinstance_PyException.
    rewrite run_bind, send_notification_run. cbn [mret M_ret].
    eexists [], _. split; [reflexivity|]. split; [|done].
    unfold sent_between. simpl. destruct (notification_callback st); by rewrite <- ?app_assoc.
Qed.

(** One poll cycle: it returns, what it returns is duplicate-free, new and
    non-empty, and the Seen-Set grows by exactly that. *)
Lemma fetch_new_otps_spec st :
  exists out st',
    fetch_new_otps st = (inr out, st')
    /\ NoDup out
    /\ (forall x, x ∈ out -> (x ∉ sent_otps st) /\ x ≠ "")
    /\ sent_otps st' = sent_otps st ∪ list_to_set out.
Proof.
  assert (Hfail : forall e st1, sent_otps st1 = sent_otps st ->
    exists out st',
      handle
        [ ([WebDriverException],
           λ e, _send_notification ("WebDriver error during new OTP fetch: " ++ exn_str e);;
                mret []);
          ([PyException],
           λ e, _send_notification ("An unexpected error occurred during new OTP fetch: "
                                    ++ exn_str e);;
                mret []) ] e st1 = (inr out, st')
      /\ NoDup out
      /\ (forall x, x ∈ out -> (x ∉ sent_otps st) /\ x ≠ "")
      /\ sent_otps st' = sent_otps st ∪ list_to_set out).
  { intros e st1 Hs. cbn [handle]. rewrite isinstance_PyException.
    destruct (isinstance_any e [WebDriverException]);
      (eexists [], _; split; [reflexivity|]; simpl;
       split_and!; [constructor | set_solver | set_solver]). }
  unfold fetch_new_otps. rewrite run_try_except, run_bind.
  unfold self_driver at 1. destruct (driver st) as [h|] eqn:Hd; [|by apply Hfail].
  rewrite run_bind.
  pose proof (keeps_call (driver_get h otp_page_url) st) as Hk1.
  destruct (call (driver_get h otp_page_url) st) as [[e|[]] st1]; simpl in Hk1;
    [by apply Hfail|].
  rewrite run_bind.
  pose proof (keeps_extract_otps_from_table st1) as Hk2.
  destruct (_extract_otps_from_table st1) as [[e|cur] st2]; simpl in Hk2;
    [apply Hfail; congruence|].
  destruct (for_otp_in_spec cur [] st2) as (out & Hrun & Hnd & Hin).
  rewrite Hrun. simpl. exists out, (set_sent_otps (sent_otps st2 ∪ list_to_set out) st2).
  split_and!; [done | done | | simpl; congruence].
  intros x Hx. apply Hin in Hx as (_ & Hx & ?). split; [congruence | done].
Qed.

(** Between two polls the other operations leave the Seen-Set alone. *)
Lemma run_operation_sent op st :
  op ≠ Op_fetch_new_otps -> sent_otps (run_operation op st) = sent_otps st.
Proof.
  destruct op; simpl; intros Hop; [| | |done| |].
  - apply keeps_login.
  - apply keeps_handle_popup.
  - apply keeps_navigate_to_otp_page.
  - apply keeps_get_historical_otps.
  - apply keeps_close.
Qed.

Lemma polled_spec ops : forall st,
  NoDup (concat (polled ops st))
  /\ (forall x, x ∈ concat (polled ops st) -> x ∉ sent_otps st)
  /\ sent_otps (run_operations ops st) = sent_otps st ∪ list_to_set (concat (polled ops st)).
Proof.
  induction ops as [|op ops IH]; intros st.
  - simpl. split_and!; [constructor | set_solver | set_solver].
  - destruct (IH (run_operation op st)) as (Hnd & Hnew & Hs).
    assert (Hdec : op = Op_fetch_new_otps \/ op ≠ Op_fetch_new_otps)
      by (destruct op; (by left) || (by right)).
    destruct Hdec as [->|Hop].
    + destruct (fetch_new_otps_spec st) as (out & st1 & Hrun & Hnd1 & Hnew1 & Hs1).
      assert (Hst1 : run_operation Op_fetch_new_otps st = st1) by (simpl; by rewrite Hrun).
      assert (Hp : polled (Op_fetch_new_otps :: ops) st = out :: polled ops st1)
        by (cbn [polled]; by rewrite Hrun, Hst1).
      rewrite Hst1 in Hnd, Hnew, Hs. rewrite Hp. cbn [run_operations foldl concat].
      rewrite Hst1. split_and!.
      * apply NoDup_app. split_and!; [done | | done].
        intros x Hx Hx'. apply Hnew in Hx'. set_solver.
      * intros x [Hx|Hx]%elem_of_app; [by apply Hnew1|].
        apply Hnew in Hx. set_solver.
      * unfold run_operations in Hs. rewrite Hs, Hs1, list_to_set_app_L. set_solver.
    + assert (Hnone : polled (op :: ops) st = polled ops (run_operation op st))
        by (by destruct op).
      rewrite Hnone. cbn [run_operations foldl].
      rewrite run_operation_sent in Hnew, Hs by done. done.
Qed.

(** C1. From every state, one call of [fetch_new_otps] returns a sequence
    without duplicates, none of whose identities was in the Seen-Set, and
    leaves the Seen-Set equal to the one before the call plus the
    identities returned.  For every number of calls in a row on one engine:
    the calls all return; taken together, the sequences they return hold no
    identity twice, and none that was in the Seen-Set at the start; the
    Seen-Set at the end is the Seen-Set at the start plus the identities
    returned.  The same holds of the calls of [fetch_new_otps] in every
    sequence of operations of the engine, whatever runs between them. *)
Theorem C1_poll_never_delivers_twice (n : nat) (ops : list operation) st :
  (exists out st',
     fetch_new_otps st = (inr out, st')
     /\ NoDup out
     /\ (forall x, x ∈ out -> x ∉ sent_otps st)
     /\ sent_otps st' = sent_otps st ∪ list_to_set out)
  /\ (exists outs st',
        poll_cycles n st = (inr outs, st')
        /\ length outs = n
        /\ NoDup (concat outs)
        /\ (forall x, x ∈ concat outs -> x ∉ sent_otps st)
        /\ sent_otps st' = sent_otps st ∪ list_to_set (concat outs))
  /\ (NoDup (concat (polled ops st))
      /\ (forall x, x ∈ concat (polled ops st) -> x ∉ sent_otps st)
      /\ sent_otps (run_operations ops st)
         = sent_otps st ∪ list_to_set (concat (polled ops st))).
Proof.
  split_and!; [| |apply polled_spec..].
  { destruct (fetch_new_otps_spec st) as (out & st' & Hrun & Hnd & Hnew & Hs).
    exists out, st'. split_and!; [done | done | | done].
    intros x Hx. by apply Hnew in Hx as [? _]. }
  clear ops. revert st. induction n as [|n IH]; intros st; simpl.
  - exists [], st. simpl. split_and!; [done | done | constructor | set_solver | set_solver].
  - rewrite run_bind.
    destruct (fetch_new_otps_spec st) as (out & st1 & -> & Hnd & Hnew & Hs1).
    rewrite run_bind.
    destruct (IH st1) as (outs & st2 & -> & Hlen & Hnds & Hnews & Hs2).
    exists (out :: outs), st2. simpl. split_and!; [done | by rewrite Hlen | | |].
    + apply NoDup_app. split_and!; [done | | done].
      intros x Hx Hx'. apply Hnews in Hx'. set_solver.
    + intros x [Hx|Hx]%elem_of_app; [by apply Hnew|].
      apply Hnews in Hx. set_solver.
    + rewrite Hs2, Hs1, list_to_set_app_L. set_solver.
Qed.

(** C7. From every state with Seen-Set [S]: when the page reloads and the
    extraction yields records that are all members of [S] (none at all, for
    an empty feed), [fetch_new_otps] returns the empty sequence and leaves
    the Seen-Set equal to [S]; the state it leaves is the one the
    extraction left. *)
Theorem C7_poll_unchanged_feed st h w1 cur st2 :
  driver st = Some h ->
  driver_get h otp_page_url (world st) = (inr tt, w1) ->
  _extract_otps_from_table (set_world w1 st) = (inr cur, st2) ->
  (forall x, x ∈ cur -> x ∈ sent_otps st) ->
  fetch_new_otps st = (inr [], st2) /\ sent_otps st2 = sent_otps st.
Proof.
  intros Hd Hget Hext Hseen.
  pose proof (keeps_extract_otps_from_table (set_world w1 st)) as Hk.
  rewrite Hext in Hk. simpl in Hk.
  split; [|done].
  unfold fetch_new_otps. rewrite run_try_except, run_bind.
  unfold self_driver at 1. rewrite Hd, run_bind.
  unfold call at 1. rewrite Hget, run_bind, Hext.
  rewrite for_otp_in_nothing_new; [done|].
  intros x Hx. rewrite Hk. by apply Hseen.
Qed.

(** C10, as the code has it.  [get_historical_otps] applies no non-empty
    filter: when the date range is submitted, the lookup of a cell with the
    text "No data available in table" finds none, and the table shows a row
    whose body cell is there and holds white space only, the sequence it
    returns contains the empty string.  [fetch_new_otps] never returns the
    empty string, from any state. *)
Theorem C10_range_keeps_empty_record s1 s2 st st1 h v w1 w2 w3 rows outs w4 body :
  submit_date_range s1 s2 st = (inr tt, st1) ->
  driver st1 = Some h ->
  until h 10 (py_or (presence_of_element_located rows_locator)
                    (presence_of_element_located no_data_locator)) (world st1) = (inr v, w1) ->
  find_elements h no_data_locator w1 = (inr [], w2) ->
  find_elements h rows_locator w2 = (inr rows, w3) ->
  reads rows w3 outs w4 ->
  Some body ∈ outs ->
  all_space body = true ->
  (exists out st', get_historical_otps s1 s2 st = (inr out, st') /\ "" ∈ out)
  /\ (forall st0 : state W H,
        exists out st', fetch_new_otps st0 = (inr out, st') /\ "" ∉ out).
Proof.
  intros Hsub Hd Hwait Hnone Hrows Hreads Hbody Hspace. split.
  - eexists _, _. split.
    + eapply get_historical_otps_extracts; [done|].
      apply (extract_otps_from_table_reads _ _ _ _ _ _ _ _ _ Hd Hwait Hnone Hrows Hreads).
    + apply list_elem_of_fmap. exists body. split; [by rewrite strip_all_space|].
      apply list_elem_of_omap. by exists (Some body).
  - intros st0. destruct (fetch_new_otps_spec st0) as (out & st' & Hrun & _ & Hnew & _).
    exists out, st'. split; [done|]. intros Hin. by apply Hnew in Hin as [_ ?].
Qed.

(** C8. Every public operation, from every state, leaves a Seen-Set that
    includes the one it started from, whether it returns or raises; so does
    every sequence of operations. *)
Theorem C8_seen_set_only_grows (ops : list operation) st :
  (forall op, sent_otps st ⊆ sent_otps (run_operation op st))
  /\ sent_otps st ⊆ sent_otps (run_operations ops st).
Proof.
  assert (Hone : forall op st0, sent_otps st0 ⊆ sent_otps (run_operation op st0)).
  { intros op st0. destruct op; simpl.
    - by rewrite keeps_login.
    - by rewrite keeps_handle_popup.
    - by rewrite keeps_navigate_to_otp_page.
    - destruct (fetch_new_otps_spec st0) as (out & st' & Hrun & _ & _ & Hs).
      rewrite Hrun. simpl. rewrite Hs. set_solver.
    - by rewrite keeps_get_historical_otps.
    - by rewrite keeps_close. }
  split; [intros op; apply Hone|].
  revert st. induction ops as [|op ops IH]; intros st; simpl; [done|].
  etrans; [apply (Hone op) | apply IH].
Qed.

(** What [close] does, in one step. *)
Lemma close_run st :
  close st = (inr tt, match driver st with
                      | Some h => set_driver None (set_world (driver_quit h (world st)) st)
                      | None => st
                      end).
Proof. unfold close. rewrite run_bind. unfold get_driver. by destruct (driver st). Qed.

(** C9. [close] never raises.  With no driver handle it changes nothing.
    From every state it leaves the handle cleared, a second [close] then
    changes nothing, and [close] twice in a row ends exactly as [close]
    once. *)
Theorem C9_close_idempotent st :
  close (set_driver None st) = (inr tt, set_driver None st)
  /\ exists st1,
       close st = (inr tt, st1)
       /\ driver st1 = None
       /\ close st1 = (inr tt, st1)
       /\ (close;; close) st = close st.
Proof.
  split; [by rewrite close_run|].
  eexists. split; [apply close_run|].
  assert (Hnone : driver (match driver st with
                          | Some h => set_driver None (set_world (driver_quit h (world st)) st)
                          | None => st
                          end) = None) by (by destruct (driver st) eqn:Hd).
  split_and!; [done | by rewrite close_run, Hnone |].
  by rewrite run_bind, close_run, close_run, Hnone.
Qed.

End Properties.

(** * Faults *)

Section Faults.

Context {W H E : Type} (D : Driver W H E).

#[local] Existing Instance traced_driver.

Implicit Types (st : state (traced W) H) (e : exn).

Lemma page_fault_count_push st w k e :
  page_fault_count (set_world (Traced w (faults (world st) ++ [(k, e)])) st)
  = (page_fault_count st + if row_call k then 0 else 1)%nat.
Proof.
  unfold page_fault_count. simpl. rewrite filter_app, length_app. f_equal.
  destruct k; reflexivity.
Qed.

(** ** Straight-line code *)

Lemma quiet_ret {A} (a : A) : quiet (mret a : M (traced W) H A).
Proof. intros st r st' Hrun. by inversion Hrun. Qed.

Lemma quiet_self_driver attr : quiet (self_driver (W:=traced W) (H:=H) attr).
Proof.
  intros st r st' Hrun. unfold self_driver in Hrun.
  destruct (driver st); inversion Hrun; by subst.
Qed.

Lemma quiet_call_trace {A} k (f : W -> (exn + A) * W) : quiet (call (H:=H) (trace k f)).
Proof.
  intros st r st' Hrun. unfold call, trace in Hrun.
  destruct (f (inner (world st))) as [[e|a] w]; inversion Hrun; by subst.
Qed.

Lemma quiet_bind {A B} (m : M (traced W) H A) (f : A -> M (traced W) H B) :
  quiet m -> (forall a, quiet (f a)) -> quiet (m ≫= f).
Proof.
  intros Hm Hf st r st' [(e & Hrun & ->)|(a & st1 & Hrun & Hrun')]%bind_inv.
  - by apply Hm in Hrun as [? _].
  - apply Hm in Hrun as (? & ? & ?). apply Hf in Hrun' as [? Hr].
    split; [congruence|]. destruct r; [done|]. destruct Hr. split; congruence.
Qed.

Lemma quiet_until t c : quiet (WebDriverWait_until (W:=traced W) (H:=H) t c).
Proof.
  apply quiet_bind; [apply quiet_self_driver|]. intros h. apply (quiet_call_trace Call_until).
Qed.

Lemma quiet_submit_date_range s1 s2 :
  quiet (submit_date_range (W:=traced W) (H:=H) s1 s2).
Proof.
  unfold submit_date_range.
  repeat first
    [ apply quiet_until
    | apply quiet_self_driver
    | apply quiet_ret
    | apply (quiet_call_trace Call_get)
    | apply (quiet_call_trace Call_find_element)
    | apply (quiet_call_trace Call_elem_clear)
    | apply (quiet_call_trace Call_elem_send_keys)
    | apply (quiet_call_trace Call_elem_click)
    | apply quiet_bind; [|intros ?] ].
Qed.

(** ** Reading the rows *)

(** The two calls on a row: they send nothing and raise no fault outside
    the reading of rows; when they return, no fault was raised at all. *)
Lemma row_read_tally (row : E) st r st1 :
  (cell ← call (elem_find_element row td3_locator); call (elem_text cell)) st = (r, st1) ->
  notice_count st1 = notice_count st
  /\ page_fault_count st1 = page_fault_count st
  /\ match r with
     | inr _ => fault_count st1 = fault_count st
     | inl _ => True
     end.
Proof.
  assert (Hcall : forall A k (f : W -> (exn + A) * W) s r' s',
            row_call k = true -> call (H:=H) (trace k f) s = (r', s') ->
            notice_count s' = notice_count s
            /\ page_fault_count s' = page_fault_count s
            /\ match r' with inr _ => fault_count s' = fault_count s | inl _ => True end).
  { intros A k f s r' s' Hk Hrun. unfold call, trace in Hrun.
    destruct (f (inner (world s))) as [[e|a] w]; inversion Hrun; subst; [|done].
    split_and!; [done | | done]. by rewrite page_fault_count_push, Hk, Nat.add_0_r. }
  intros [(e & Hrun & ->)|(cell & st0 & Hrun & Hrun')]%bind_inv.
  - apply (Hcall _ Call_elem_find_element) in Hrun as (? & ? & _); done.
  - apply (Hcall _ Call_elem_find_element) in Hrun as (? & ? & ?); [|done].
    apply (Hcall _ Call_elem_text) in Hrun' as (? & ? & Hr); [|done].
    split_and!; [congruence | congruence |]. destruct r; [done | congruence].
Qed.

(** The row loop never raises; it raises no fault outside the reading of
    rows; when it runs to its end, every fault met on the way was followed
    by a notice. *)
Lemma for_row_in_tally (rows : list E) : forall otps st,
  exists otps' raised st',
    for_row_in rows otps st = (inr (otps', raised), st')
    /\ page_fault_count st' = page_fault_count st
    /\ (notice_count st <= notice_count st')%nat
    /\ (raised = None -> (fault_count st < fault_count st')%nat ->
        (notice_count st < notice_count st')%nat).
Proof.
  induction rows as [|row rest IH]; intros otps st.
  - exists otps, None, st. split_and!; [done | done | done | lia].
  - cbn [for_row_in]. rewrite run_bind. unfold attempt.
    destruct ((cell ← call (elem_find_element row td3_locator); call (elem_text cell)) st)
      as [[e|text] st1] eqn:Hread; apply row_read_tally in Hread as (Hn & Hp & Hf).
    + destruct (isinstance e NoSuchElementException).
      * rewrite run_bind, send_notification_run.
        destruct (IH otps (after_notifications [skip_notice] st1))
          as (otps' & raised & st' & Hrun & Hp' & Hn' & _).
        unfold skip_notice in Hrun. rewrite Hrun.
        exists otps', raised, st'. split; [done|].
        assert (notice_count (after_notifications [skip_notice] st1) = S (notice_count st1))
          as Hone by (unfold notice_count; simpl; rewrite length_app; simpl; lia).
        assert (page_fault_count (after_notifications [skip_notice] st1) = page_fault_count st1)
          as Hsame by done.
        split_and!; [congruence | lia | lia].
      * exists otps, (Some e), st1. split_and!; [done | done | lia | done].
    + destruct (IH (otps ++ [strip text]) st1) as (otps' & raised & st' & Hrun & Hp' & Hn' & Hf').
      rewrite Hrun. exists otps', raised, st'.
      split_and!; [done | congruence | lia |]. intros Hr Hlt. apply Hf' in Hr; lia.
Qed.

(** ** The extraction *)

Lemma extract_try_tally st r st' :
  extract_try st = (r, st') ->
  (notice_count st <= notice_count st')%nat
  /\ match r with
     | inr (Returned v) =>
         v = [] /\ fault_count st' = fault_count st
         /\ page_fault_count st' = page_fault_count st
     | inr (Looped otps raised) =>
         page_fault_count st' = page_fault_count st
         /\ (raised = None -> (fault_count st < fault_count st')%nat ->
             (notice_count st < notice_count st')%nat)
     | inl _ => True
     end.
Proof.
  unfold extract_try.
  intros [(e & Hrun & ->)|(v & st1 & Hrun & Hrest)]%bind_inv;
    apply quiet_until in Hrun as [Hn1 Hq1]; [split; [lia | done]|].
  destruct Hq1 as [Hf1 Hp1].
  apply bind_inv in Hrest as [(e & Hrun & ->)|(h & st2 & Hrun & Hrest)];
    apply quiet_self_driver in Hrun as [Hn2 Hq2]; [split; [lia | done]|].
  destruct Hq2 as [Hf2 Hp2].
  apply bind_inv in Hrest as [(e & Hrun & ->)|(no_data & st3 & Hrun & Hrest)];
    apply (quiet_call_trace Call_find_elements) in Hrun as [Hn3 Hq3]; [split; [lia | done]|].
  destruct Hq3 as [Hf3 Hp3].
  destruct (list_truthy no_data).
  - rewrite run_bind, send_notification_run in Hrest. inversion Hrest; subst.
    assert (notice_count (after_notifications
              ["No data available in the SMS statistics table."] st3) = S (notice_count st3))
      as Hone by (unfold notice_count; simpl; rewrite length_app; simpl; lia).
    split; [lia|]. split_and!; [done | |].
    + change (fault_count st3 = fault_count st). congruence.
    + change (page_fault_count st3 = page_fault_count st). congruence.
  - apply bind_inv in Hrest as [(e & Hrun & ->)|(h' & st4 & Hrun & Hrest)];
      apply quiet_self_driver in Hrun as [Hn4 Hq4]; [split; [lia | done]|].
    destruct Hq4 as [Hf4 Hp4].
    apply bind_inv in Hrest as [(e & Hrun & ->)|(rows & st5 & Hrun & Hrest)];
      apply (quiet_call_trace Call_find_elements) in Hrun as [Hn5 Hq5]; [split; [lia | done]|].
    destruct Hq5 as [Hf5 Hp5].
    rewrite run_bind in Hrest.
    destruct (for_row_in_tally rows [] st5) as (otps & raised & st6 & Hloop & Hp6 & Hn6 & Hf6).
    rewrite Hloop in Hrest. inversion Hrest; subst.
    split; [lia|]. split; [congruence|].
    intros Hr Hlt. apply Hf6 in Hr; lia.
Qed.

(** When the extraction returns: every fault met was followed by a notice,
    and a fault raised outside the reading of rows leaves the result
    empty. *)
Lemma extract_otps_from_table_tally st r st' :
  _extract_otps_from_table st = (r, st') ->
  (notice_count st <= notice_count st')%nat
  /\ match r with
     | inr out =>
         ((fault_count st < fault_count st')%nat -> (notice_count st < notice_count st')%nat)
         /\ ((page_fault_count st < page_fault_count st')%nat -> out = [])
     | inl _ => True
     end.
Proof.
  assert (Hexc : forall e otps (s : state (traced W) H) r' s',
            extract_except e otps s = (r', s') ->
            fault_count s' = fault_count s /\ page_fault_count s' = page_fault_count s
            /\ (notice_count s <= notice_count s')%nat
            /\ match r' with
               | inr out => out = otps /\ (notice_count s < notice_count s')%nat
               | inl _ => True
               end).
  { intros e otps s r' s' Hrun. unfold extract_except in Hrun.
    destruct (isinstance_any e selenium_faults).
    - rewrite run_bind, send_notification_run in Hrun. inversion Hrun; subst.
      unfold notice_count. simpl. rewrite length_app. simpl.
      repeat split; first [done | lia].
    - inversion Hrun; subst. repeat split; first [done | lia]. }
  unfold _extract_otps_from_table. rewrite run_bind. unfold attempt.
  destruct (extract_try st) as [r0 st0] eqn:Htry.
  apply extract_try_tally in Htry as [Hn Hr0].
  destruct r0 as [e|[v|otps [e|]]]; intros Hrun.
  - apply Hexc in Hrun as (? & ? & ? & Hr). split; [lia|].
    destruct r as [|out]; [done|]. destruct Hr as [-> ?]. split; [lia | done].
  - inversion Hrun; subst. destruct Hr0 as (-> & ? & ?). split; [lia|]. split; [lia | done].
  - apply Hexc in Hrun as (? & ? & ? & Hr). destruct Hr0 as [Hp _]. split; [lia|].
    destruct r as [|out]; [done|]. destruct Hr as [-> ?]. split; [lia | lia].
  - inversion Hrun; subst. destruct Hr0 as [Hp Hf]. split; [lia|]. split; [|lia].
    by apply Hf.
Qed.

(** ** The two fetch operations *)

Lemma for_otp_in_tally cur st out st' :
  for_otp_in cur [] st = (inr out, st') ->
  world st' = world st /\ printed st' = printed st /\ (cur = [] -> out = []).
Proof.
  destruct (for_otp_in_spec (H:=H) cur [] st) as (out' & Hrun & _ & Hin).
  rewrite Hrun. simpl. intros [= <- <-]. split_and!; [done | done |].
  intros ->. destruct out' as [|x ?]; [done|].
  destruct (Hin x) as [Hx _]; [by left | by apply elem_of_nil in Hx].
Qed.

(** What the [try] block of [fetch_new_otps] leaves. *)
Lemma fetch_try_tally st r st' :
  (h ← self_driver "get";
   call (driver_get h otp_page_url);;
   current_otps ← _extract_otps_from_table;
   for_otp_in current_otps []) st = (r, st') ->
  (notice_count st <= notice_count st')%nat
  /\ match r with
     | inr out =>
         ((fault_count st < fault_count st')%nat -> (notice_count st < notice_count st')%nat)
         /\ ((page_fault_count st < page_fault_count st')%nat -> out = [])
     | inl _ => True
     end.
Proof.
  intros [(e & Hrun & ->)|(h & st1 & Hrun & Hrest)]%bind_inv;
    apply quiet_self_driver in Hrun as [Hn1 Hq1]; [split; [lia | done]|].
  destruct Hq1 as [Hf1 Hp1].
  apply bind_inv in Hrest as [(e & Hrun & ->)|([] & st2 & Hrun & Hrest)];
    apply (quiet_call_trace Call_get) in Hrun as [Hn2 Hq2]; [split; [lia | done]|].
  destruct Hq2 as [Hf2 Hp2].
  apply bind_inv in Hrest as [(e & Hrun & ->)|(cur & st3 & Hrun & Hrest)];
    apply extract_otps_from_table_tally in Hrun as [Hn3 Hq3]; [split; [lia | done]|].
  destruct Hq3 as [Hf3 Hp3].
  destruct r as [e|out].
  - destruct (for_otp_in_spec (H:=H) cur [] st3) as (out & Hrun & _).
    rewrite Hrun in Hrest. discriminate.
  - apply for_otp_in_tally in Hrest as (Hw & Hpr & Hnil).
    assert (notice_count st' = notice_count st3) by (unfold notice_count; congruence).
    assert (fault_count st' = fault_count st3) by (unfold fault_count; congruence).
    assert (page_fault_count st' = page_fault_count st3)
      by (unfold page_fault_count; congruence).
    split; [lia|]. split; [lia|]. intros Hlt. apply Hnil, Hp3. lia.
Qed.

(** What the [try] block of [get_historical_otps] leaves. *)
Lemma historical_try_tally s1 s2 st r st' :
  (submit_date_range s1 s2;;
   historical_messages ← _extract_otps_from_table;
   mret historical_messages) st = (r, st') ->
  (notice_count st <= notice_count st')%nat
  /\ match r with
     | inr out =>
         ((fault_count st < fault_count st')%nat -> (notice_count st < notice_count st')%nat)
         /\ ((page_fault_count st < page_fault_count st')%nat -> out = [])
     | inl _ => True
     end.
Proof.
  intros [(e & Hrun & ->)|([] & st1 & Hrun & Hrest)]%bind_inv;
    apply quiet_submit_date_range in Hrun as [Hn1 Hq1]; [split; [lia | done]|].
  destruct Hq1 as [Hf1 Hp1].
  apply bind_inv in Hrest as [(e & Hrun & ->)|(cur & st2 & Hrun & Hrest)];
    apply extract_otps_from_table_tally in Hrun as [Hn2 Hq2]; [split; [lia | done]|].
  destruct Hq2 as [Hf2 Hp2]. inversion Hrest; subst.
  split; [lia|]. split; [lia|]. intros Hlt. apply Hp2. lia.
Qed.

Lemma sent_between_grew st st' msgs :
  sent_between st st' msgs -> (notice_count st < notice_count st')%nat -> msgs <> [].
Proof.
  intros (Hp & _ & _) Hlt ->. unfold notice_count in Hlt.
  rewrite Hp, app_nil_r in Hlt. lia.
Qed.

Lemma notice_count_after msg st :
  notice_count (after_notifications [msg] st) = S (notice_count st).
Proof. unfold notice_count. simpl. rewrite length_app. simpl. lia. Qed.

(** C2, as the code has it.  On a driver that writes down every exception
    it raises, from every state and for every pair of date strings:
    [fetch_new_otps] and [get_historical_otps] return, they do not raise;
    what they send goes to the console and to the callback; when a fault
    was raised during the call, at least one notice was sent; and when a
    fault was raised outside the reading of the rows (loading the page, a
    wait, a lookup on the page, listing the rows), the sequence returned is
    empty.
    When the page loads (for the range query: the range is submitted), the
    wait resolves, the lookup of the "No data" cell finds none, the rows
    are listed, and the reading of the rows is ended by an exception other
    than the [NoSuchElementException] of a missing cell, after rows that
    read as [outs]:
    - if it is a Selenium exception, the notice is the one of the
      extraction, which ends there; [get_historical_otps] returns the
      records read from the rows before, and [fetch_new_otps] returns, in
      page order, those of them that are non-empty and were not in the
      Seen-Set: the result is empty when there are none, and not
      otherwise;
    - if it is any other exception, the notice is the "unexpected error"
      one of the operation and the result is empty: the records read
      before are dropped.
    In both cases the notices sent (by the range query: once the range is
    submitted) are the skip notices of the rows without a cell met before,
    and then that one notice. *)
Theorem C2_faults_caught_and_notified (st : state (traced W) H) s1 s2 :
  (exists out st' msgs,
     fetch_new_otps st = (inr out, st')
     /\ sent_between st st' msgs
     /\ ((fault_count st < fault_count st')%nat -> msgs <> [])
     /\ ((page_fault_count st < page_fault_count st')%nat -> out = []))
  /\ (exists out st' msgs,
        get_historical_otps s1 s2 st = (inr out, st')
        /\ sent_between st st' msgs
        /\ ((fault_count st < fault_count st')%nat -> msgs <> [])
        /\ ((page_fault_count st < page_fault_count st')%nat -> out = []))
  /\ (forall h w0 v w1 w2 w3 rows outs e w4,
        driver st = Some h ->
        driver_get h otp_page_url (world st) = (inr tt, w0) ->
        until h 10 (py_or (presence_of_element_located rows_locator)
                          (presence_of_element_located no_data_locator)) w0 = (inr v, w1) ->
        find_elements h no_data_locator w1 = (inr [], w2) ->
        find_elements h rows_locator w2 = (inr rows, w3) ->
        reads_to_fault rows w3 outs e w4 ->
        exists out st',
          fetch_new_otps st = (inr out, st')
          /\ sent_between st st'
               (replicate (missing outs) skip_notice
                ++ [row_fault_notice "An unexpected error occurred during new OTP fetch: "
                      e])
          /\ if isinstance e WebDriverException
             then out `sublist_of` (strip <$> omap id outs)
                  /\ forall x, x ∈ out
                       <-> x ∈ strip <$> omap id outs /\ x ≠ "" /\ (x ∉ sent_otps st)
             else out = [])
  /\ (forall st1 h v w1 w2 w3 rows outs e w4,
        submit_date_range s1 s2 st = (inr tt, st1) ->
        driver st1 = Some h ->
        until h 10 (py_or (presence_of_element_located rows_locator)
                          (presence_of_element_located no_data_locator)) (world st1)
        = (inr v, w1) ->
        find_elements h no_data_locator w1 = (inr [], w2) ->
        find_elements h rows_locator w2 = (inr rows, w3) ->
        reads_to_fault rows w3 outs e w4 ->
        exists st',
          get_historical_otps s1 s2 st
          = (inr (if isinstance e WebDriverException then strip <$> omap id outs else []),
             st')
          /\ sent_between st1 st'
               (replicate (missing outs) skip_notice
                ++ [row_fault_notice
                      "An unexpected error occurred during historical OTP fetch: " e])).
Proof.
  split_and!; [| | intros; eapply fetch_new_otps_row_fault; eassumption
              | intros; eapply get_historical_otps_row_fault; eassumption].
  - destruct (fetch_new_otps_sends st) as [msgs Hsent].
    revert Hsent. unfold fetch_new_otps. rewrite run_try_except.
    match goal with |- context [match ?body st with _ => _ end] =>
      destruct (body st) as [[e|out] st1] eqn:Htry end;
      apply fetch_try_tally in Htry as [Hn Hr].
    + cbn [handle]. rewrite isinstance_PyException.
      destruct (isinstance_any e [WebDriverException]);
        rewrite run_bind, send_notification_run; cbn [mret M_ret snd]; intros Hsent;
        (eexists [], _, msgs; split; [reflexivity|]; split; [exact Hsent|];
         split; [|done]; intros _; apply (sent_between_grew _ _ _ Hsent);
         rewrite notice_count_after; lia).
    + cbn [snd]. intros Hsent. destruct Hr as [Hf Hp].
      exists out, st1, msgs. split_and!; [done | done | | done].
      intros Hlt. apply (sent_between_grew _ _ _ Hsent). by apply Hf.
  - destruct (get_historical_otps_sends s1 s2 st) as [msgs Hsent].
    revert Hsent. unfold get_historical_otps. rewrite run_try_except.
    match goal with |- context [match ?body st with _ => _ end] =>
      destruct (body st) as [[e|out] st1] eqn:Htry end;
      apply historical_try_tally in Htry as [Hn Hr].
    + cbn [handle]. rewrite isinstance_PyException.
      destruct (isinstance_any e selenium_faults);
        rewrite run_bind, send_notification_run; cbn [mret M_ret snd]; intros Hsent;
        (eexists [], _, msgs; split; [reflexivity|]; split; [exact Hsent|];
         split; [|done]; intros _; apply (sent_between_grew _ _ _ Hsent);
         rewrite notice_count_after; lia).
    + cbn [snd]. intros Hsent. destruct Hr as [Hf Hp].
      exists out, st1, msgs. split_and!; [done | done | | done].
      intros Hlt. apply (sent_between_grew _ _ _ Hsent). by apply Hf.
Qed.

End Faults.

(** * Runs on the fake browser *)

Section FakeRuns.

Import Fake Scenario.

#[local] Abbreviation traced_fetch_new_otps :=
  (fetch_new_otps (Driver0 := traced_driver fake_driver)).
#[local] Abbreviation traced_get_historical_otps :=
  (get_historical_otps (Driver0 := traced_driver fake_driver)).

(** C2, counterexample.  The feed shows three rows and the lookup in the
    second one raises a [WebDriverException] (the row went stale).  Both
    operations send the notice of the fault and return the record read
    before it, not the empty sequence. *)
Lemma C2_stale_row_counterexample :
  let polled := traced_fetch_new_otps (on_traced stale_row_engine) in
  let ranged := traced_get_historical_otps "2025-10-01" "2025-11-30"
                  (on_traced stale_row_engine) in
  faults (world polled.2) = [(Call_elem_find_element, stale)]
  /\ polled.1 = inr ["Your code is 111111"]
  /\ polled.1 <> inr []
  /\ printed polled.2
     = ["Error extracting OTPs from table: Message: stale element reference"]
  /\ faults (world ranged.2) = [(Call_elem_find_element, stale)]
  /\ ranged.1 = inr ["Your code is 111111"]
  /\ ranged.1 <> inr [].
Proof. vm_compute. split_and!; done. Qed.

(** C2, witness: with no page served, the page load faults; one notice is
    sent and the result is empty.  With a stale second row, the range
    query returns the record of the first row after the notice of the
    fault. *)
Lemma C2_offline_witness :
  (exists out st' msgs,
     traced_fetch_new_otps (on_traced offline_engine) = (inr out, st')
     /\ sent_between (on_traced offline_engine) st' msgs
     /\ msgs <> [] /\ out = [])
  /\ (exists st',
        traced_get_historical_otps "2025-10-01" "2025-11-30" (on_traced stale_row_engine)
        = (inr [strip "Your code is 111111"], st')
        /\ printed st'
           = ["Error extracting OTPs from table: Message: stale element reference"]).
Proof.
  split.
  - destruct (C2_faults_caught_and_notified fake_driver (on_traced offline_engine) "" "")
      as [(out & st' & msgs & Hrun & Hsent & Hfault & Hpage) _].
    exists out, st', msgs.
    assert (Hst : st' = (traced_fetch_new_otps (on_traced offline_engine)).2)
      by (by rewrite Hrun).
    split_and!; [exact Hrun | exact Hsent | |].
    + apply Hfault. rewrite Hst. vm_compute. lia.
    + apply Hpage. rewrite Hst. vm_compute. lia.
  - pose (fd := loaded (feed [october_row; Stale; november_row])).
    pose (w := Traced fd []).
    pose (w' := Traced fd [(Call_elem_find_element, stale)]).
    destruct (C2_faults_caught_and_notified fake_driver (on_traced stale_row_engine)
                "2025-10-01" "2025-11-30") as (_ & _ & _ & Hrange).
    destruct (Hrange (set_world w (on_traced stale_row_engine)) tt (Node rows_locator)
                w w w [RowElem october_row; RowElem Stale; RowElem november_row]
                [Some "Your code is 111111"] stale w')
      as (st' & Hrun & Hsent & _); try reflexivity.
    + eapply fault_after_cell; [reflexivity | reflexivity |].
      eapply fault_in_lookup; reflexivity.
    + exists st'. split; [exact Hrun | exact Hsent].
Defined.

(** C3.  After the click on "Log in" the portal shows the sidebar menu at
    an address without "/portal".  A wait for the marker would resolve; the
    wait [login] makes is for the address alone, it times out, and [login]
    returns false after a failure notice. *)
Theorem C3_login_marker_only_fails :
  let run := login login_engine in
  login_wait_cond = url_contains "/portal"
  /\ page_url (current (world run.2)) = "https://www.ivasms.com/dashboard"
  /\ (until tt 20 (presence_of_element_located sidebar_locator) (world run.2)).1
     = inr (Node sidebar_locator)
  /\ (until tt 20 (url_contains "/portal") (world run.2)).1 = inl timeout
  /\ run.1 = inr false
  /\ printed run.2 = ["Login failed: Message: "].
Proof. vm_compute. split_and!; reflexivity. Qed.

(** C4, counterexample.  A modal is shown and has no control to click: the
    wait for "Done" times out.  [handle_popup] returns the value it returns
    when no modal shows, after the same last notice. *)
Lemma C4_stuck_modal_counterexample :
  let stuck := handle_popup stuck_modal_engine in
  let none := handle_popup no_modal_engine in
  (until tt 5 (presence_of_element_located modal_locator) (world stuck_modal_engine)).1
  = inr (Node modal_locator)
  /\ (until tt 5 (element_to_be_clickable done_locator) (world stuck_modal_engine)).1
     = inl timeout
  /\ (until tt 5 (presence_of_element_located modal_locator) (world no_modal_engine)).1
     = inl timeout
  /\ stuck.1 = inr false
  /\ none.1 = inr false
  /\ stuck.1 = none.1
  /\ last (printed stuck.2) = Some no_popup_notice
  /\ last (printed none.2) = Some no_popup_notice.
Proof. vm_compute. split_and!; reflexivity. Qed.

(** C4, witness: the run without a modal, the run with a modal closed by
    "Done", the run with a modal without controls, the run with a modal
    that stays after "Done", and the run with a modal whose "Next" is
    clicked and whose "Done" never comes. *)
Lemma C4_popup_witness :
  handle_popup no_modal_engine
  = (inr false, after_notifications [no_popup_notice] no_modal_engine)
  /\ handle_popup modal_engine
     = (inr true,
        set_world (Browser [(otp_page_url, empty_feed)] home_page true)
          (after_notifications [detected_notice; closed_notice] modal_engine))
  /\ handle_popup stuck_modal_engine
     = (inr false,
        after_notifications [detected_notice; no_popup_notice] stuck_modal_engine)
  /\ handle_popup sticky_modal_engine
     = (inr false,
        after_notifications [detected_notice; no_popup_notice] sticky_modal_engine)
  /\ (handle_popup stuck_modal_engine
      = (inr false,
         after_notifications [no_popup_notice]
           (after_notifications [detected_notice] stuck_modal_engine))
      /\ exists sent,
           (sent = [] \/ sent = [next_notice])
           /\ sent_between stuck_modal_engine
                (after_notifications [detected_notice] stuck_modal_engine)
                (detected_notice :: sent))
  /\ (handle_popup next_only_engine
      = (inr false,
         after_notifications [no_popup_notice]
           (after_notifications [detected_notice; next_notice]
              (set_world (Browser [(otp_page_url, empty_feed)] stuck_modal_page true)
                 next_only_engine)))
      /\ exists sent,
           (sent = [] \/ sent = [next_notice])
           /\ sent_between next_only_engine
                (after_notifications [detected_notice; next_notice]
                   (set_world (Browser [(otp_page_url, empty_feed)] stuck_modal_page true)
                      next_only_engine))
                (detected_notice :: sent)).
Proof.
  refine (conj _ (conj _ (conj _ (conj _ (conj _ _))))).
  - apply (proj1 (C4_popup_outcomes no_modal_engine tt eq_refl) timeout); reflexivity.
  - apply (proj1 (proj2 (C4_popup_outcomes modal_engine tt eq_refl))
             (Node modal_locator) (world modal_engine) timeout (world modal_engine)
             (Node done_locator) (world modal_engine)
             (Browser [(otp_page_url, empty_feed)] home_page true) true);
      reflexivity.
  - apply (proj1 (proj2 (proj2 (C4_popup_outcomes stuck_modal_engine tt eq_refl)))
             (Node modal_locator) (world stuck_modal_engine) timeout
             (world stuck_modal_engine) timeout (world stuck_modal_engine));
      reflexivity.
  - apply (proj1 (proj2 (proj2 (proj2 (C4_popup_outcomes sticky_modal_engine tt eq_refl))))
             (Node modal_locator) (world sticky_modal_engine) timeout
             (world sticky_modal_engine) (Node done_locator) (world sticky_modal_engine)
             (world sticky_modal_engine) timeout (world sticky_modal_engine));
      reflexivity.
  - exact (proj2 (proj2 (proj2 (proj2 (C4_popup_outcomes stuck_modal_engine tt eq_refl))))
             (Node modal_locator) (world stuck_modal_engine) timeout
             (after_notifications [detected_notice] stuck_modal_engine)
             eq_refl eq_refl eq_refl).
  - exact (proj2 (proj2 (proj2 (proj2 (C4_popup_outcomes next_only_engine tt eq_refl))))
             (Node modal_locator) (world next_only_engine) timeout
             (after_notifications [detected_notice; next_notice]
                (set_world (Browser [(otp_page_url, empty_feed)] stuck_modal_page true)
                   next_only_engine))
             eq_refl eq_refl eq_refl).
Defined.

(** C5, counterexample.  The feed shows two rows with all their cells, one
    dated inside the range 2025-10-01 to 2025-10-19 and one outside it;
    [get_historical_otps] called with that range returns both records. *)
Lemma C5_two_rows_counterexample :
  let run := get_historical_otps "2025-10-01" "2025-10-19" two_row_engine in
  page_rows (current (world run.2)) = [october_row; november_row]
  /\ well_formed october_row = true /\ well_formed november_row = true
  /\ dated_within "2025-10-01" "2025-10-19" october_row = true
  /\ dated_within "2025-10-01" "2025-10-19" november_row = false
  /\ run.1 = inr ["Your code is 111111"; "Your code is 222222"]
  /\ run.1 <> inr ["Your code is 111111"].
Proof. vm_compute. split_and!; done. Qed.

(** C5, witness: the two-row feed. *)
Lemma C5_two_rows_witness :
  exists st', get_historical_otps "2025-10-01" "2025-10-19" two_row_engine
              = (inr [strip "Your code is 111111"; strip "Your code is 222222"], st').
Proof.
  pose (w := loaded (feed [october_row; november_row])).
  apply (C5_range_returns_every_row "2025-10-01" "2025-10-19" two_row_engine
           (set_world w two_row_engine) tt (Node rows_locator) w w w
           (RowElem october_row) (RowElem november_row)
           "Your code is 111111" "Your code is 222222" w);
    try reflexivity.
  eapply reads_cell; [reflexivity | reflexivity |].
  eapply reads_cell; [reflexivity | reflexivity |].
  apply reads_nil.
Defined.

(** C6, counterexample.  The feed shows three rows: two with their three
    cells and one without its body cell.  The body of the third row is the
    text "No data available in table", so the lookup of a cell with that
    text finds it: the extraction returns the empty sequence after the "No
    data" notice, with no record and no notice for the row without a
    cell. *)
Lemma C6_phrase_row_counterexample :
  let run := _extract_otps_from_table phrase_short_engine in
  page_rows (current (world phrase_short_engine)) = [october_row; short_row; phrase_row]
  /\ well_formed october_row = true
  /\ well_formed phrase_row = true
  /\ well_formed short_row = false
  /\ (find_elements tt no_data_locator (world phrase_short_engine)).1
     = inr [Node no_data_locator]
  /\ run.1 = inr []
  /\ run.1 <> inr ["Your code is 111111"; "No data available in table"]
  /\ printed run.2 = ["No data available in the SMS statistics table."].
Proof. vm_compute. split_and!; done. Qed.

(** C6, witness: three rows, the second without its third cell. *)
Lemma C6_short_row_witness :
  exists records st',
    _extract_otps_from_table short_row_engine = (inr records, st')
    /\ records = strip <$> (["Your code is 111111"] ++ ["Your code is 222222"])
    /\ length records = length (["Your code is 111111"] ++ ["Your code is 222222"])
    /\ printed st'
       = printed short_row_engine ++ ["Could not find message text in a row. Skipping."]
    /\ notified st'
       = (if notification_callback short_row_engine
          then notified short_row_engine
               ++ ["Could not find message text in a row. Skipping."]
          else notified short_row_engine).
Proof.
  pose (w := world short_row_engine).
  apply (C6_extraction_skips_malformed_row short_row_engine tt (Node rows_locator) w w w
           [RowElem october_row; RowElem short_row; RowElem november_row]
           ["Your code is 111111"] ["Your code is 222222"] w);
    try reflexivity.
  eapply reads_cell; [reflexivity | reflexivity |].
  eapply reads_missing; [reflexivity | reflexivity |].
  eapply reads_cell; [reflexivity | reflexivity |].
  apply reads_nil.
Defined.

(** C7, witness: the one record of the feed is in the Seen-Set. *)
Lemma C7_seen_feed_witness :
  fetch_new_otps seen_engine
  = (inr [], set_world (loaded (feed [october_row])) seen_engine)
  /\ sent_otps (set_world (loaded (feed [october_row])) seen_engine) = sent_otps seen_engine.
Proof.
  apply (C7_poll_unchanged_feed seen_engine tt (loaded (feed [october_row]))
           ["Your code is 111111"]);
    try reflexivity.
  intros x Hx. apply list_elem_of_singleton in Hx. subst x. by apply elem_of_singleton.
Defined.

(** C10, counterexample.  The feed shows a row whose body is three spaces
    and a row whose body is the text "No data available in table": the
    range query returns the empty sequence after the "No data" notice, and
    no empty record. *)
Lemma C10_phrase_row_counterexample :
  let run := get_historical_otps "2025-10-01" "2025-10-19" phrase_blank_engine in
  page_rows (current (world run.2)) = [blank_row; phrase_row]
  /\ well_formed blank_row = true
  /\ run.1 = inr []
  /\ run.1 <> inr [""; "No data available in table"]
  /\ printed run.2 = ["No data available in the SMS statistics table."].
Proof. vm_compute. split_and!; done. Qed.

(** C10, witness: a feed with a row whose body is three spaces. *)
Lemma C10_blank_row_witness :
  (exists out st',
     get_historical_otps "2025-10-01" "2025-10-19" blank_row_engine = (inr out, st')
     /\ "" ∈ out)
  /\ (forall st0 : state browser unit,
        exists out st', fetch_new_otps st0 = (inr out, st') /\ "" ∉ out).
Proof.
  pose (w := loaded (feed [october_row; blank_row])).
  apply (C10_range_keeps_empty_record "2025-10-01" "2025-10-19" blank_row_engine
           (set_world w blank_row_engine) tt (Node rows_locator) w w w
           [RowElem october_row; RowElem blank_row]
           [Some "Your code is 111111"; Some "   "] w "   ");
    try reflexivity.
  - eapply reads_cell; [reflexivity | reflexivity |].
    eapply reads_cell; [reflexivity | reflexivity |].
    apply reads_nil.
  - apply list_elem_of_In. right. left. reflexivity.
Defined.

End FakeRuns.

(** * More of the engine *)

Section Extraction.

Context {W H E : Type} `{!Driver W H E}.

Implicit Types (st : state W H) (e : exn).

(** X1. On a page where the lookup of a cell with the text "No data
    available in table" finds none, and whose table shows rows, some with
    the message-body cell and some without: the extraction returns the
    stripped bodies of the rows that have the cell, in page order; it sends
    one skip notice for each row that lacks it and nothing else; the rows
    are as many as the records and the notices together. *)
Theorem X1_extraction_in_page_order st h v w1 w2 w3 rows outs w4 :
  driver st = Some h ->
  until h 10 (py_or (presence_of_element_located rows_locator)
                    (presence_of_element_located no_data_locator)) (world st) = (inr v, w1) ->
  find_elements h no_data_locator w1 = (inr [], w2) ->
  find_elements h rows_locator w2 = (inr rows, w3) ->
  reads rows w3 outs w4 ->
  exists records st',
    _extract_otps_from_table st = (inr records, st')
    /\ records = strip <$> omap id outs
    /\ sent_between st st' (replicate (missing outs) skip_notice)
    /\ length rows = (length records + missing outs)%nat
    /\ world st' = w4.
Proof.
  intros Hd Hwait Hnone Hrows Hreads.
  eexists _, _. split.
  { apply (extract_otps_from_table_reads _ _ _ _ _ _ _ _ _ Hd Hwait Hnone Hrows Hreads). }
  split_and!; [done | done | | done].
  rewrite length_fmap. clear Hrows.
  induction Hreads as [w|row rest w cell wa s wb outs wc _ _ _ IH
                       |row rest w e wa outs wb _ _ _ IH].
  - done.
  - rewrite missing_Some. change (omap id (Some s :: outs)) with (s :: omap id outs).
    cbn [length]. lia.
  - rewrite missing_None. change (omap id (None :: outs)) with (omap id outs).
    cbn [length]. lia.
Qed.

(** X2. When the wait resolves and the page holds the "No data available
    in table" cell, the extraction returns the empty sequence after the
    notice "No data available in the SMS statistics table."; it does not
    list the rows: the world it leaves is the one the lookup of the cell
    left. *)
Theorem X2_extraction_no_data st h v w1 marker markers w2 :
  driver st = Some h ->
  until h 10 (py_or (presence_of_element_located rows_locator)
                    (presence_of_element_located no_data_locator)) (world st) = (inr v, w1) ->
  find_elements h no_data_locator w1 = (inr (marker :: markers), w2) ->
  _extract_otps_from_table st
  = (inr [],
     after_notifications ["No data available in the SMS statistics table."]
       (set_world w2 st)).
Proof.
  intros Hd Hwait Hfound.
  unfold _extract_otps_from_table. rewrite run_bind. unfold attempt, extract_try.
  rewrite run_bind, (until_run _ _ _ h Hd), Hwait.
  rewrite run_bind. unfold self_driver at 1. simpl driver. rewrite Hd.
  rewrite run_bind. unfold call at 1. simpl world. rewrite Hfound.
  cbn [list_truthy]. by rewrite run_bind, send_notification_run.
Qed.

(** X3. The wait of the extraction is for a table row alone.  When that
    wait raises a Selenium exception (a timeout, with no row on the page),
    the extraction returns the empty sequence after an "Error extracting
    OTPs from table" notice, and the page is not asked for the "No data"
    cell. *)
Theorem X3_extraction_wait_fault st h e w1 :
  driver st = Some h ->
  until h 10 (presence_of_element_located rows_locator) (world st) = (inl e, w1) ->
  isinstance e WebDriverException = true ->
  _extract_otps_from_table st
  = (inr [],
     after_notifications [("Error extracting OTPs from table: " ++ exn_str e)%string]
       (set_world w1 st)).
Proof.
  intros Hd Hwait He.
  unfold _extract_otps_from_table. rewrite run_bind. unfold attempt, extract_try.
  rewrite run_bind, (until_run _ _ _ h Hd).
  change (py_or (presence_of_element_located rows_locator)
                (presence_of_element_located no_data_locator))
    with (presence_of_element_located rows_locator).
  rewrite Hwait. unfold extract_except.
  assert (isinstance_any e selenium_faults = true) as ->.
  { destruct e as [[] ?]; done. }
  by rewrite run_bind, send_notification_run.
Qed.

End Extraction.

(** * Strings *)

Section Strip.

Lemma chars_rev_app s1 s2 :
  list_ascii_of_string (String.rev_app s1 s2)
  = rev (list_ascii_of_string s1) ++ list_ascii_of_string s2.
Proof.
  revert s2. induction s1 as [|c s1 IH]; intros s2; simpl; [done|].
  rewrite IH. simpl. by rewrite <- app_assoc.
Qed.

Lemma chars_rev s : list_ascii_of_string (String.rev s) = rev (list_ascii_of_string s).
Proof. unfold String.rev. rewrite chars_rev_app. simpl. by rewrite app_nil_r. Qed.

Lemma chars_inj s1 s2 : list_ascii_of_string s1 = list_ascii_of_string s2 -> s1 = s2.
Proof.
  intros Heq. rewrite <- (string_of_list_ascii_of_string s1),
    <- (string_of_list_ascii_of_string s2). by rewrite Heq.
Qed.

Lemma chars_lstrip s : list_ascii_of_string (lstrip s) = drop_spaces (list_ascii_of_string s).
Proof. induction s as [|c s IH]; simpl; [done|]. by destruct (isspace c). Qed.

Lemma chars_strip s :
  list_ascii_of_string (strip s)
  = rev (drop_spaces (rev (drop_spaces (list_ascii_of_string s)))).
Proof. unfold strip, rstrip. by rewrite chars_rev, chars_lstrip, chars_rev, chars_lstrip. Qed.

Lemma drop_spaces_trimmed l : trimmed_left (drop_spaces l).
Proof.
  induction l as [|c l IH]; simpl; [done|].
  destruct (isspace c) eqn:Hc; [done | by simpl].
Qed.

Lemma drop_spaces_fix l : trimmed_left l -> drop_spaces l = l.
Proof. destruct l as [|c l]; simpl; [done|]. by intros ->. Qed.

Lemma drop_spaces_snoc l c : isspace c = false -> drop_spaces (l ++ [c]) = drop_spaces l ++ [c].
Proof.
  intros Hc. induction l as [|d l IH]; simpl; [by rewrite Hc|].
  by destruct (isspace d).
Qed.

(** Dropping the spaces at the end keeps a trimmed beginning. *)
Lemma trimmed_left_right l :
  trimmed_left l -> trimmed_left (rev (drop_spaces (rev l))).
Proof.
  destruct l as [|c l]; simpl; [done|]. intros Hc.
  by rewrite drop_spaces_snoc, rev_app_distr.
Qed.

Lemma strip_trimmed s :
  trimmed_left (list_ascii_of_string (strip s))
  /\ trimmed_left (rev (list_ascii_of_string (strip s))).
Proof.
  rewrite chars_strip. split.
  - apply trimmed_left_right, drop_spaces_trimmed.
  - rewrite rev_involutive. apply drop_spaces_trimmed.
Qed.

Lemma strip_idempotent s : strip (strip s) = strip s.
Proof.
  apply chars_inj. rewrite (chars_strip (strip s)).
  destruct (strip_trimmed s) as [Hl Hr].
  by rewrite (drop_spaces_fix _ Hl), (drop_spaces_fix _ Hr), rev_involutive.
Qed.

Lemma strip_no_space_around s :
  starts_with_space (strip s) = false /\ ends_with_space (strip s) = false.
Proof.
  destruct (strip_trimmed s) as [Hl Hr]. split.
  - destruct (strip s) as [|c t]; [done | exact Hl].
  - unfold ends_with_space. rewrite <- chars_rev in Hr.
    destruct (String.rev (strip s)) as [|c t]; [done | exact Hr].
Qed.

(** A string strips to the empty string exactly when it is white space
    throughout. *)
Lemma strip_empty_iff s : strip s = "" <-> all_space s = true.
Proof.
  split; [|apply strip_all_space].
  intros Hs. apply (f_equal list_ascii_of_string) in Hs. rewrite chars_strip in Hs.
  simpl in Hs. apply (f_equal (@rev ascii)) in Hs. rewrite rev_involutive in Hs. simpl in Hs.
  assert (Hd : drop_spaces (list_ascii_of_string s) = []).
  { pose proof (drop_spaces_trimmed (list_ascii_of_string s)) as Ht.
    destruct (drop_spaces (list_ascii_of_string s)) as [|c l] eqn:Hl; [done|].
    simpl in Ht, Hs. rewrite drop_spaces_snoc in Hs by done.
    by destruct (drop_spaces (rev l)). }
  clear Hs. induction s as [|c s IH]; simpl in *; [done|].
  destruct (isspace c); [by apply IH | done].
Qed.

End Strip.

(** * Records and polls *)

Section Records.

Context {W H E : Type} `{!Driver W H E}.

Implicit Types (st : state W H) (e : exn).

#[local] Set Warnings "-clear-no-such-hyp".

(** The row loop only ever appends stripped texts. *)
Lemma for_row_in_stripped (P : string -> Prop) (rows : list E) :
  (forall s, P (strip s)) ->
  forall otps st otps' raised st',
    Forall P otps ->
    for_row_in rows otps st = (inr (otps', raised), st') ->
    Forall P otps'.
Proof.
  intros HP. induction rows as [|row rest IH]; intros otps st otps' raised st' Hall.
  - simpl. intros Heq. inversion Heq; by subst.
  - cbn [for_row_in]. rewrite run_bind. unfold attempt.
    destruct ((cell ← call (elem_find_element row td3_locator); call (elem_text cell)) st)
      as [[e|text] st1].
    + destruct (isinstance e NoSuchElementException).
      * rewrite run_bind, send_notification_run. by apply IH.
      * intros Heq. inversion Heq; by subst.
    + apply IH. apply Forall_app. split; [done|]. by constructor.
Qed.

Lemma for_row_in_returns (rows : list E) : forall otps st,
  exists otps' raised st', for_row_in rows otps st = (inr (otps', raised), st').
Proof.
  induction rows as [|row rest IH]; intros otps st; [by eexists _, _, _|].
  cbn [for_row_in]. rewrite run_bind. unfold attempt.
  destruct ((cell ← call (elem_find_element row td3_locator); call (elem_text cell)) st)
    as [[e|text] st1]; [|apply IH].
  destruct (isinstance e NoSuchElementException); [|by eexists _, _, _].
  rewrite run_bind, send_notification_run. apply IH.
Qed.

(** How the [try] block of the extraction can end without an exception. *)
Lemma extract_try_ends (P : string -> Prop) st r st1 :
  (forall s, P (strip s)) ->
  extract_try st = (inr r, st1) ->
  match r with
  | Returned v => v = []
  | Looped otps _ => Forall P otps
  end.
Proof.
  intros HP. unfold extract_try.
  intros [(e & _ & [=])|(v' & s1 & _ & Hrest)]%bind_inv.
  apply bind_inv in Hrest as [(e & _ & [=])|(h & s2 & _ & Hrest)].
  apply bind_inv in Hrest as [(e & _ & [=])|(no_data & s3 & _ & Hrest)].
  destruct (list_truthy no_data).
  - rewrite run_bind, send_notification_run in Hrest. inversion Hrest; by subst.
  - apply bind_inv in Hrest as [(e & _ & [=])|(h' & s4 & _ & Hrest)].
    apply bind_inv in Hrest as [(e & _ & [=])|(rows & s5 & _ & Hrest)].
    rewrite run_bind in Hrest.
    destruct (for_row_in rows [] s5) as [[e|[o raised]] s6] eqn:Hloop; [done|].
    inversion Hrest; subst.
    eapply (for_row_in_stripped _ rows); [done | constructor | exact Hloop].
Qed.

Lemma extract_stripped (P : string -> Prop) st records st' :
  (forall s, P (strip s)) ->
  _extract_otps_from_table st = (inr records, st') ->
  Forall P records.
Proof.
  intros HP. unfold _extract_otps_from_table. rewrite run_bind. unfold attempt.
  assert (Hexc : forall e otps (s : state W H) r s', Forall P otps ->
            extract_except e otps s = (inr r, s') -> Forall P r).
  { intros e otps s r s' Hotps. unfold extract_except.
    destruct (isinstance_any e selenium_faults); [|done].
    rewrite run_bind, send_notification_run. intros Heq. inversion Heq; by subst. }
  destruct (extract_try st) as [[e|r] st1] eqn:Htry.
  - by apply Hexc.
  - apply (extract_try_ends P) in Htry; [|done].
    destruct r as [v|otps [e|]].
    + intros Heq. inversion Heq; by subst.
    + by apply Hexc.
    + intros Heq. inversion Heq; by subst.
Qed.

(** X4. Whatever the driver does, every record the extraction returns is
    stripped: stripping it again changes nothing, and it neither begins
    nor ends with a white-space character. *)
Theorem X4_records_are_stripped st records st' :
  _extract_otps_from_table st = (inr records, st') ->
  forall x, x ∈ records ->
    strip x = x /\ starts_with_space x = false /\ ends_with_space x = false.
Proof.
  intros Hrun x Hx.
  apply (extract_stripped (λ x, exists s, x = strip s)) in Hrun; [|by eauto].
  rewrite Forall_forall in Hrun. destruct (Hrun x Hx) as [s ->].
  split; [apply strip_idempotent | apply strip_no_space_around].
Qed.

(** ** What a poll returns *)

(** A poll on a page whose extraction yields [cur]. *)
Lemma fetch_new_otps_on st h w1 cur st2 :
  driver st = Some h ->
  driver_get h otp_page_url (world st) = (inr tt, w1) ->
  _extract_otps_from_table (set_world w1 st) = (inr cur, st2) ->
  exists out st',
    fetch_new_otps st = (inr out, st')
    /\ out `sublist_of` cur
    /\ NoDup out
    /\ (forall x, x ∈ out <-> x ∈ cur /\ x ≠ "" /\ (x ∉ sent_otps st))
    /\ (forall x, x ∈ cur -> x ≠ "" -> x ∈ sent_otps st')
    /\ world st' = world st2 /\ printed st' = printed st2.
Proof.
  intros Hd Hget Hext.
  pose proof (keeps_extract_otps_from_table (set_world w1 st)) as Hk.
  unfold keeps_sent, framed in Hk. rewrite Hext in Hk. simpl in Hk.
  destruct (for_otp_in_exact cur [] st2) as (out & Hrun & Hsub & Hnd & Hin).
  exists out, (set_sent_otps (sent_otps st2 ∪ list_to_set out) st2).
  split_and!; [| done | done | | | done | done].
  - unfold fetch_new_otps. rewrite run_try_except, run_bind.
    unfold self_driver at 1. rewrite Hd, run_bind.
    unfold call at 1. rewrite Hget, run_bind, Hext. by rewrite Hrun.
  - intros x. rewrite Hin, Hk. done.
  - intros x Hx Hne. simpl. destruct (decide (x ∈ sent_otps st2)) as [|Hfresh]; [set_solver|].
    apply elem_of_union_r, elem_of_list_to_set, Hin. done.
Qed.

(** X5. When the page reloads and the extraction yields the sequence [cur]:
    [fetch_new_otps] returns a sub-sequence of [cur], in the order of the
    page and without duplicates; a record is in it exactly when it is in
    [cur], non-empty, and was not in the Seen-Set; afterwards every
    non-empty record of [cur] is in the Seen-Set. *)
Theorem X5_poll_returns_the_new_records st h w1 cur st2 :
  driver st = Some h ->
  driver_get h otp_page_url (world st) = (inr tt, w1) ->
  _extract_otps_from_table (set_world w1 st) = (inr cur, st2) ->
  exists out st',
    fetch_new_otps st = (inr out, st')
    /\ out `sublist_of` cur
    /\ NoDup out
    /\ (forall x, x ∈ out <-> x ∈ cur /\ x ≠ "" /\ (x ∉ sent_otps st))
    /\ (forall x, x ∈ cur -> x ≠ "" -> x ∈ sent_otps st')
    /\ world st' = world st2 /\ printed st' = printed st2.
Proof. apply fetch_new_otps_on. Qed.

(** A reload and an extraction keep the driver handle. *)
Lemma fetch_new_otps_driver st : driver (fetch_new_otps st).2 = driver st.
Proof.
  apply (framed_fetch_new_otps (λ st st', driver st' = driver st));
    intros; simpl in *; congruence.
Qed.

(** X6. Two polls in a row: when the second reload shows no record that the
    first one did not show (the feed is unchanged, or shorter), the second
    [fetch_new_otps] returns the empty sequence and leaves the Seen-Set as
    the first one left it. *)
Theorem X6_second_poll_is_empty st h w1 cur st2 w3 cur' st4 :
  driver st = Some h ->
  driver_get h otp_page_url (world st) = (inr tt, w1) ->
  _extract_otps_from_table (set_world w1 st) = (inr cur, st2) ->
  driver_get h otp_page_url (world (fetch_new_otps st).2) = (inr tt, w3) ->
  _extract_otps_from_table (set_world w3 (fetch_new_otps st).2) = (inr cur', st4) ->
  (forall x, x ∈ cur' -> x ∈ cur) ->
  fetch_new_otps (fetch_new_otps st).2 = (inr [], st4)
  /\ sent_otps st4 = sent_otps (fetch_new_otps st).2.
Proof.
  intros Hd Hget Hext Hget' Hext' Hsame.
  destruct (fetch_new_otps_on st h w1 cur st2 Hd Hget Hext)
    as (out & st' & Hrun & _ & _ & _ & Hseen & _).
  pose proof (fetch_new_otps_driver st) as Hd'. rewrite Hd in Hd'.
  rewrite Hrun in *. simpl in *.
  pose proof (keeps_extract_otps_from_table (set_world w3 st')) as Hk.
  unfold keeps_sent, framed in Hk. rewrite Hext' in Hk. simpl in Hk.
  split; [|done].
  destruct (for_otp_in_exact cur' [] st4) as (out' & Hloop & _ & _ & Hin).
  assert (out' = []) as ->.
  { destruct out' as [|x ?]; [done|]. exfalso.
    destruct (proj1 (Hin x)) as (Hx & Hne & Hfresh); [by left|].
    apply Hfresh. rewrite Hk. apply Hseen; [by apply Hsame | done]. }
  simpl in Hloop. rewrite (right_id_L ∅ (∪)), set_sent_otps_same in Hloop.
  unfold fetch_new_otps. rewrite run_try_except, run_bind.
  unfold self_driver at 1. rewrite Hd', run_bind.
  unfold call at 1. rewrite Hget', run_bind, Hext'. by rewrite Hloop.
Qed.

End Records.

(** * The session *)

(** Goes through a computation statement by statement, for a relation that
    a change of the world and a notification respect; the facts about the
    relation are left as goals. *)
Ltac frame_auto :=
  repeat first
    [ progress intros
    | apply framed_ret
    | apply framed_raise
    | apply framed_until
    | apply framed_call
    | apply framed_self_driver
    | apply framed_send_notification
    | apply framed_get_driver
    | apply framed_read
    | apply framed_popup_next
    | apply framed_popup_dismiss
    | apply framed_extract_otps_from_table
    | apply framed_initialize_driver
    | apply framed_try_except
    | apply framed_bind
    | apply Forall_cons_2; simpl
    | apply Forall_nil_2
    | match goal with
      | |- framed _ (match ?x with _ => _ end) => destruct x
      | |- framed _ (if ?x then _ else _) => destruct x
      end ].

Section Session.

Context {W H E : Type} `{!Driver W H E}.

Implicit Types (st : state W H) (e : exn).

(** X7. Once [close] has run there is no driver handle, and until the next
    [login] the four operations that need one fail softly: they return the
    empty sequence or false after one "unexpected error" notice, without a
    single call to the browser; nothing else of the state changes. *)
Theorem X7_after_close_operations_fail_softly st s1 s2 :
  let st0 := (close st).2 in
  driver st0 = None
  /\ (exists detail,
        fetch_new_otps st0
        = (inr [],
           after_notifications
             [("An unexpected error occurred during new OTP fetch: " ++ detail)%string] st0))
  /\ (exists detail,
        get_historical_otps s1 s2 st0
        = (inr [],
           after_notifications
             [("An unexpected error occurred during historical OTP fetch: "
               ++ detail)%string] st0))
  /\ (exists detail,
        handle_popup st0
        = (inr false,
           after_notifications
             [("An unexpected error occurred during pop-up handling: " ++ detail)%string] st0))
  /\ (exists detail,
        navigate_to_otp_page st0
        = (inr false,
           after_notifications
             [("An unexpected error occurred during navigation: " ++ detail)%string] st0)).
Proof.
  intros st0.
  assert (Hd : driver st0 = None).
  { unfold st0. rewrite close_run. simpl. by destruct (driver st) eqn:Hd0. }
  split; [done|]. split_and!; eexists.
  - unfold fetch_new_otps. rewrite run_try_except, run_bind.
    unfold self_driver at 1. rewrite Hd. reflexivity.
  - unfold get_historical_otps, submit_date_range.
    rewrite run_try_except, !run_bind.
    unfold self_driver at 1. rewrite Hd. reflexivity.
  - unfold handle_popup, WebDriverWait_until. rewrite run_try_except, !run_bind.
    unfold self_driver at 1. rewrite Hd. reflexivity.
  - unfold navigate_to_otp_page, WebDriverWait_until. rewrite run_try_except, !run_bind.
    unfold self_driver at 1. rewrite Hd. reflexivity.
Qed.

(** The statements of [login] after the driver is there keep the handle. *)
Lemma login_keeps_live_handle st h :
  driver st = Some h -> driver (login st).2 = Some h.
Proof.
  intros Hd. unfold login. rewrite run_try_except, run_bind.
  unfold get_driver at 1. rewrite Hd. rewrite run_bind. cbn [mret M_ret].
  match goal with
  | |- driver (match ?rest st with _ => _ end).2 = _ =>
      assert (Hrest : framed (λ s s', driver s' = driver s) rest)
        by (frame_auto; simpl in *; congruence);
      specialize (Hrest st); destruct (rest st) as [[e|b] st1]
  end; simpl in Hrest; [|simpl; congruence].
  match goal with
  | |- driver (handle ?cl e st1).2 = _ =>
      assert (Hh : framed (λ s s', driver s' = driver s) (handle cl e))
        by (apply framed_handle; frame_auto; simpl in *; congruence);
      specialize (Hh st1)
  end.
  congruence.
Qed.

(** X8. [login] and the driver handle.  With a live handle, [login] keeps
    it: it starts no second browser, also when it fails.  With no handle it
    starts Chrome with the eleven options of the source: when that raises,
    [login] returns false after one failure notice and there is still no
    handle; when that returns a handle, the engine holds it after [login]
    whether the login went through or not, so that the next call works on
    the same browser. *)
Theorem X8_login_and_the_handle st :
  (forall h, driver st = Some h -> driver (login st).2 = Some h)
  /\ (forall e w,
        driver st = None ->
        Chrome chrome_options (world st) = (inl e, w) ->
        exists notice,
          login st = (inr false, after_notifications [notice] (set_world w st))
          /\ notice = ((if isinstance e WebDriverException
                        then "Login failed: "
                        else "An unexpected error occurred during login: ")
                       ++ exn_str e)%string)
  /\ (forall h w,
        driver st = None ->
        Chrome chrome_options (world st) = (inr h, w) ->
        driver (login st).2 = Some h).
Proof.
  split_and!.
  - apply login_keeps_live_handle.
  - intros e w Hd Hchrome. eexists. split; [|reflexivity].
    unfold login. rewrite run_try_except, run_bind.
    unfold get_driver at 1. rewrite Hd. rewrite run_bind.
    unfold _initialize_driver. rewrite run_bind.
    unfold get_driver at 1. rewrite Hd. rewrite run_bind. cbn [mret M_ret].
    rewrite run_bind. unfold call at 1. rewrite Hchrome.
    cbn [handle]. rewrite isinstance_PyException.
    destruct e as [[] msg]; reflexivity.
  - intros h w Hd Hchrome.
    unfold login. rewrite run_try_except, run_bind.
    unfold get_driver at 1. rewrite Hd. rewrite run_bind.
    unfold _initialize_driver. rewrite run_bind.
    unfold get_driver at 1. rewrite Hd. rewrite run_bind. cbn [mret M_ret].
    rewrite run_bind. unfold call at 1. rewrite Hchrome.
    rewrite run_bind. unfold put_driver at 1.
    match goal with
    | |- driver (match (match ?init ?s0 with _ => _ end) with _ => _ end).2 = _ =>
        assert (Hinit : framed (λ s s', driver s' = driver s) init)
          by (frame_auto; simpl in *; congruence);
        specialize (Hinit s0); destruct (init s0) as [[e|[]] st1]
    end; simpl in Hinit.
    + match goal with
      | |- driver (handle ?cl e st1).2 = _ =>
          assert (Hh : framed (λ s s', driver s' = driver s) (handle cl e))
            by (apply framed_handle; frame_auto; simpl in *; congruence);
          specialize (Hh st1)
      end.
      congruence.
    + match goal with
      | |- driver (match ?rest st1 with _ => _ end).2 = _ =>
          assert (Hrest : framed (λ s s', driver s' = driver s) rest)
            by (frame_auto; simpl in *; congruence);
          specialize (Hrest st1); destruct (rest st1) as [[e|b] st2]
      end; simpl in Hrest; [|simpl; congruence].
      match goal with
      | |- driver (handle ?cl e st2).2 = _ =>
          assert (Hh : framed (λ s s', driver s' = driver s) (handle cl e))
            by (apply framed_handle; frame_auto; simpl in *; congruence);
          specialize (Hh st2)
      end.
      congruence.
Qed.

End Session.

Section LastNotice.

Context {W H E : Type} `{!Driver W H E}.

Implicit Types (st : state W H) (e : exn).

Section Sends.

(** A property of lists of messages that the empty list has and that
    concatenation keeps. *)
Variable Q : list string -> Prop.
Hypothesis Q_nil : Q [].
Hypothesis Q_app : forall l1 l2, Q l1 -> Q l2 -> Q (l1 ++ l2).

Lemma sends_refl st : sends Q st st.
Proof.
  exists []. split; [done|]. unfold sent_between. rewrite !app_nil_r.
  by destruct (notification_callback st).
Qed.

Lemma sends_trans st1 st2 st3 : sends Q st1 st2 -> sends Q st2 st3 -> sends Q st1 st3.
Proof.
  intros (m1 & HQ1 & Hp1 & Hn1 & Hc1) (m2 & HQ2 & Hp2 & Hn2 & Hc2).
  exists (m1 ++ m2). split; [by apply Q_app|].
  unfold sent_between. rewrite Hp2, Hp1, Hn2, Hc2, Hc1, Hn1.
  destruct (notification_callback st1); by rewrite ?app_assoc.
Qed.

Lemma sends_world st w : sends Q st (set_world w st).
Proof.
  exists []. split; [done|]. unfold sent_between. simpl. rewrite !app_nil_r.
  by destruct (notification_callback st).
Qed.

Lemma sends_driver st d : sends Q st (set_driver d st).
Proof.
  exists []. split; [done|]. unfold sent_between. simpl. rewrite !app_nil_r.
  by destruct (notification_callback st).
Qed.

Lemma sends_then st st1 msg :
  sends Q st st1 ->
  exists msgs, Q msgs /\ sent_between st (after_notifications [msg] st1) (msgs ++ [msg]).
Proof.
  intros (msgs & HQ & Hp & Hn & Hc). exists msgs. split; [done|].
  unfold sent_between. simpl. rewrite Hp, Hn, Hc.
  destruct (notification_callback st); by rewrite ?app_assoc.
Qed.

Lemma ends_with_base msg {A} (b : A) :
  ends_with Q msg b (_send_notification (W:=W) (H:=H) msg;; mret b).
Proof.
  intros st r st'. rewrite run_bind, send_notification_run.
  intros Heq. inversion Heq; subst. split; [done|].
  apply sends_then, sends_refl.
Qed.

Lemma ends_with_bind msg {A B} (b : B) (m : M W H A) (f : A -> M W H B) :
  framed (sends Q) m -> (forall a, ends_with Q msg b (f a)) -> ends_with Q msg b (m ≫= f).
Proof.
  intros Hm Hf st r st' [(e & Hrun & ->)|(a & st1 & Hrun & Hrun')]%bind_inv.
  - specialize (Hm st). by rewrite Hrun in Hm.
  - specialize (Hm st). rewrite Hrun in Hm. simpl in Hm.
    apply Hf in Hrun'. destruct r as [e|b'].
    + by eapply sends_trans.
    + destruct Hrun' as (-> & m2 & HQ2 & Hs2). split; [done|].
      destruct Hm as (m1 & HQ1 & Hp1 & Hn1 & Hc1). destruct Hs2 as (Hp2 & Hn2 & Hc2).
      exists (m1 ++ m2). split; [by apply Q_app|].
      unfold sent_between. rewrite Hp2, Hp1, Hn2, Hc2, Hc1, Hn1.
      destruct (notification_callback st); by rewrite ?app_assoc.
Qed.

End Sends.

(** Concatenation keeps the two properties used below: being empty, and
    any list at all. *)
Ltac keeps_app := first [ by intros ? ? -> -> | done ].

(** The facts about [sends] that [frame_auto] leaves. *)
Ltac sends_side :=
  first
    [ apply sends_refl; done
    | eapply sends_trans; [keeps_app | eassumption | eassumption]
    | apply sends_world; done
    | apply sends_driver; done
    | eexists [_]; split; done ].

(** Goes through the [try] block of an operation up to its last notice. *)
Ltac ends_steps :=
  repeat first
    [ apply ends_with_base; done
    | apply ends_with_bind; [ keeps_app | frame_auto; sends_side | intros ] ].

(** X9. [login], [navigate_to_otp_page] and [handle_popup] never raise.
    A call of [login] or of [navigate_to_otp_page] sends exactly one
    notice, and returns true exactly when that notice is its success
    notice.  A call of [handle_popup] sends at least one notice, and
    returns true exactly when the last one is "Pop-up closed
    successfully.". *)
Theorem X9_result_agrees_with_last_notice st :
  (exists b st' notice,
     login st = (inr b, st')
     /\ sent_between st st' [notice]
     /\ (b = true <-> notice = "Login successful."))
  /\ (exists b st' notice,
        navigate_to_otp_page st = (inr b, st')
        /\ sent_between st st' [notice]
        /\ (b = true <-> notice = "Successfully navigated to My SMS Statistics page."))
  /\ (exists b st' before notice,
        handle_popup st = (inr b, st')
        /\ sent_between st st' (before ++ [notice])
        /\ (b = true <-> notice = closed_notice)).
Proof.
  split_and!.
  - unfold login. rewrite run_try_except.
    match goal with
    | |- context [match ?body st with _ => _ end] =>
        assert (Hbody : ends_with (λ l, l = []) "Login successful." true body)
          by ends_steps;
        specialize (Hbody st); destruct (body st) as [[e|b] st1]
    end; specialize (Hbody _ _ eq_refl); simpl in Hbody.
    + apply (sends_then _ _ _
               ((if isinstance e WebDriverException
                 then "Login failed: "
                 else "An unexpected error occurred during login: ") ++ exn_str e)%string)
        in Hbody as (msgs & -> & Hsent).
      cbn [handle]. rewrite isinstance_PyException.
      destruct e as [[] msg]; simpl in *;
        (eexists false, _, _; split; [reflexivity|]; split; [exact Hsent|]; by split).
    + destruct Hbody as (-> & msgs & -> & Hsent).
      eexists true, _, _. split; [reflexivity|]. split; [exact Hsent|]. by split.
  - unfold navigate_to_otp_page. rewrite run_try_except.
    match goal with
    | |- context [match ?body st with _ => _ end] =>
        assert (Hbody : ends_with (λ l, l = [])
                          "Successfully navigated to My SMS Statistics page." true body)
          by ends_steps;
        specialize (Hbody st); destruct (body st) as [[e|b] st1]
    end; specialize (Hbody _ _ eq_refl); simpl in Hbody.
    + apply (sends_then _ _ _
               ((if isinstance e WebDriverException
                 then "Navigation to OTP page failed: "
                 else "An unexpected error occurred during navigation: ")
                ++ exn_str e)%string)
        in Hbody as (msgs & -> & Hsent).
      cbn [handle]. rewrite isinstance_PyException.
      destruct e as [[] msg]; simpl in *;
        (eexists false, _, _; split; [reflexivity|]; split; [exact Hsent|]; by split).
    + destruct Hbody as (-> & msgs & -> & Hsent).
      eexists true, _, _. split; [reflexivity|]. split; [exact Hsent|]. by split.
  - unfold handle_popup. rewrite run_try_except.
    match goal with
    | |- context [match ?body st with _ => _ end] =>
        assert (Hbody : ends_with (λ _, True) closed_notice true body)
          by (unfold popup_dismiss; ends_steps);
        specialize (Hbody st); destruct (body st) as [[e|b] st1]
    end; specialize (Hbody _ _ eq_refl); simpl in Hbody.
    + apply (sends_then _ _ _
               (if isinstance e TimeoutException
                then no_popup_notice
                else ((if isinstance e WebDriverException
                       then "Error handling pop-up: "
                       else "An unexpected error occurred during pop-up handling: ")
                      ++ exn_str e)%string))
        in Hbody as (msgs & _ & Hsent).
      cbn [handle]. rewrite isinstance_PyException.
      destruct e as [[] msg]; simpl in *;
        (eexists false, _, msgs, _; split; [reflexivity|]; split; [exact Hsent|]; by split).
    + destruct Hbody as (-> & msgs & _ & Hsent).
      eexists true, _, msgs, _. split; [reflexivity|]. split; [exact Hsent|]. by split.
Qed.

End LastNotice.

Section SeenSetBlind.

Context {W H E : Type} `{!Driver W H E}.

Implicit Types (st : state W H) (e : exn).

Lemma blind_ret {A} (a : A) : blind (mret a : M W H A).
Proof. by intros seen st. Qed.

Lemma blind_raise {A} e : blind (@raise W H A e).
Proof. by intros seen st. Qed.

Lemma blind_bind {A B} (m : M W H A) (f : A -> M W H B) :
  blind m -> (forall a, blind (f a)) -> blind (m ≫= f).
Proof.
  intros Hm Hf seen st. rewrite !run_bind, Hm.
  destruct (m st) as [[e|a] st1]; [done|]. apply Hf.
Qed.

Lemma blind_attempt {A} (m : M W H A) : blind m -> blind (attempt m).
Proof. intros Hm seen st. unfold attempt. rewrite Hm. by destruct (m st). Qed.

Lemma blind_handle {A} (clauses : list (list exn_class * (exn -> M W H A))) e :
  Forall (λ c, forall e', blind (c.2 e')) clauses -> blind (handle clauses e).
Proof.
  induction 1 as [|[cs h] rest Hh _ IH]; simpl; [apply blind_raise|].
  destruct (isinstance_any e cs); [apply Hh | apply IH].
Qed.

Lemma blind_try_except {A} (m : M W H A) clauses :
  blind m -> Forall (λ c, forall e', blind (c.2 e')) clauses -> blind (try_except m clauses).
Proof.
  intros Hm Hc. apply blind_bind; [by apply blind_attempt|].
  intros [e|a]; [by apply blind_handle | apply blind_ret].
Qed.

Lemma blind_call {A} (f : W -> (exn + A) * W) : blind (call (H:=H) f).
Proof. intros seen st. unfold call. simpl. by destruct (f (world st)). Qed.

Lemma blind_self_driver attr : blind (self_driver (W:=W) (H:=H) attr).
Proof. intros seen st. unfold self_driver. simpl. by destruct (driver st). Qed.

Lemma blind_until t c : blind (WebDriverWait_until (W:=W) (H:=H) t c).
Proof. apply blind_bind; [apply blind_self_driver | intros; apply blind_call]. Qed.

Lemma blind_send_notification msg : blind (_send_notification (W:=W) (H:=H) msg).
Proof. by intros seen st. Qed.

Lemma blind_get_driver : blind (get_driver (W:=W) (H:=H)).
Proof. by intros seen st. Qed.

Lemma blind_put_driver d : blind (put_driver (W:=W) (H:=H) d).
Proof. by intros seen st. Qed.

(** Goes through a computation statement by statement. *)
Ltac blind_steps :=
  repeat first
    [ progress intros
    | solve [eauto]
    | apply blind_ret
    | apply blind_raise
    | apply blind_until
    | apply blind_call
    | apply blind_self_driver
    | apply blind_send_notification
    | apply blind_get_driver
    | apply blind_put_driver
    | apply blind_try_except
    | apply blind_attempt
    | apply blind_bind
    | apply Forall_cons_2; simpl
    | apply Forall_nil_2
    | match goal with
      | |- blind (match ?x with _ => _ end) => destruct x
      | |- blind (if ?x then _ else _) => destruct x
      | |- blind (λ st, (inr (_ st), st)) => by intros ? ?
      end ].

Lemma blind_for_row_in (rows : list E) : forall otps, blind (for_row_in rows otps).
Proof. induction rows as [|row rest IH]; intros otps; simpl; blind_steps. Qed.

Lemma blind_extract_otps_from_table : blind (_extract_otps_from_table (W:=W) (H:=H)).
Proof.
  pose proof blind_for_row_in as Hloop.
  unfold _extract_otps_from_table, extract_try, extract_except. blind_steps.
Qed.

(** X10. [get_historical_otps] takes no account of the Seen-Set: on any
    other Seen-Set it returns the same sequence and leaves the same world
    and the same notices, and it leaves the Seen-Set it was given, so a
    record already reported is returned again.  The same holds of
    [login], [handle_popup], [navigate_to_otp_page] and [close]: of the
    six operations only [fetch_new_otps] reads or writes the Seen-Set. *)
Theorem X10_only_the_poll_uses_the_seen_set (seen : gset string) st s1 s2 :
  get_historical_otps s1 s2 (set_sent_otps seen st)
  = (let (r, st') := get_historical_otps s1 s2 st in (r, set_sent_otps seen st'))
  /\ sent_otps (get_historical_otps s1 s2 st).2 = sent_otps st
  /\ login (set_sent_otps seen st) = (let (r, st') := login st in (r, set_sent_otps seen st'))
  /\ handle_popup (set_sent_otps seen st)
     = (let (r, st') := handle_popup st in (r, set_sent_otps seen st'))
  /\ navigate_to_otp_page (set_sent_otps seen st)
     = (let (r, st') := navigate_to_otp_page st in (r, set_sent_otps seen st'))
  /\ close (set_sent_otps seen st) = (let (r, st') := close st in (r, set_sent_otps seen st')).
Proof.
  pose proof blind_extract_otps_from_table as Hext.
  split_and!.
  - revert seen st. change (blind (get_historical_otps (W:=W) (H:=H) s1 s2)).
    unfold get_historical_otps, submit_date_range. blind_steps.
  - apply keeps_get_historical_otps.
  - revert seen st. change (blind (login (W:=W) (H:=H))).
    unfold login, _initialize_driver. blind_steps.
  - revert seen st. change (blind (handle_popup (W:=W) (H:=H))).
    unfold handle_popup, popup_dismiss, popup_next. blind_steps.
  - revert seen st. change (blind (navigate_to_otp_page (W:=W) (H:=H))).
    unfold navigate_to_otp_page. blind_steps.
  - revert seen st. change (blind (close (W:=W) (H:=H))).
    unfold close. blind_steps.
Qed.

End SeenSetBlind.

(** * Configuration *)

Section ConfigProperties.

Import Config.

#[local] Set Warnings "-clear-no-such-hyp".

(** X11. [Config.validate] on the class read from the environment [env].
    It passes exactly when each of the four names of [REQUIRED_ENV_VARS] is
    set in [env], whatever its value.  Otherwise it raises a [ValueError]
    whose text is "Missing required environment variables: " and then the
    names that are not set, in the order of [REQUIRED_ENV_VARS], with ", "
    between them.  It raises nothing else: [getattr] finds each of the four
    names. *)
Theorem X11_validate_lists_the_unset_variables (env : environ) :
  validate (load env)
  = match filter (λ name, env !! name = None) REQUIRED_ENV_VARS with
    | [] => inr tt
    | missing_vars =>
        inl (ValueError ("Missing required environment variables: "
                         ++ join ", " missing_vars))
    end
  /\ (validate (load env) = inr tt
      <-> forall name, name ∈ REQUIRED_ENV_VARS -> is_Some (env !! name)).
Proof.
  assert (Hnames : forall P : string -> Prop,
    (forall name, name ∈ REQUIRED_ENV_VARS -> P name)
    <-> P "TELEGRAM_BOT_TOKEN" /\ P "TELEGRAM_CHAT_ID" /\ P "IVASMS_EMAIL"
        /\ P "IVASMS_PASSWORD").
  { intros P. unfold REQUIRED_ENV_VARS. split.
    - intros Hall. split_and!; apply Hall; set_solver.
    - intros (? & ? & ? & ?) name Hin.
      repeat (apply elem_of_cons in Hin as [->|Hin]; [done|]).
      by apply elem_of_nil in Hin. }
  rewrite Hnames.
  unfold validate, load, REQUIRED_ENV_VARS, getenv.
  destruct (env !! "TELEGRAM_BOT_TOKEN") eqn:H1, (env !! "TELEGRAM_CHAT_ID") eqn:H2,
    (env !! "IVASMS_EMAIL") eqn:H3, (env !! "IVASMS_PASSWORD") eqn:H4;
    cbn; rewrite ?H1, ?H2, ?H3, ?H4; cbn;
    (split; [reflexivity|]);
    (split; [try discriminate; intros _; by split_and!
            | intros (? & ? & ? & ?);
              first [ reflexivity
                    | exfalso; eapply is_Some_None; eassumption ]]).
Qed.

End ConfigProperties.

Section Dates.

Implicit Types (l d rest : list ascii) (s a b : string).

Lemma isdigit_not_space c : isdigit c = true -> isspace c = false.
Proof. by destruct c as [[] [] [] [] [] [] [] []]. Qed.

Lemma match_pieces_app ps qs l :
  match_pieces (ps ++ qs) l
  = match match_pieces ps l with
    | Some l' => match_pieces qs l'
    | None => None
    end.
Proof.
  revert l. induction ps as [|p ps IH]; intros l; simpl; [done|].
  destruct (match_piece p l); [apply IH | done].
Qed.

Ltac split_bools :=
  repeat match goal with
  | Hb : _ && _ = true |- _ => apply andb_true_iff in Hb as [? ?]
  | Hb : bool_decide _ = true |- _ => apply bool_decide_eq_true in Hb; subst
  end.

Ltac read_pattern H :=
  repeat match type of H with
  | context [match ?l with [] => _ | _ :: _ => _ end] =>
      is_var l; destruct l; cbn in H; try discriminate H
  | context [if isdigit ?c then _ else _] =>
      destruct (isdigit c) eqn:?; cbn in H; try discriminate H
  | context [if decide (?c = ?d) then _ else _] =>
      destruct (decide (c = d)); [subst c|]; cbn in H; try discriminate H
  end.

(** The pattern of one date matches at the head of [l] exactly when [l]
    begins with ten characters that have the shape of a date. *)
Lemma match_date l rest :
  match_pieces date_pieces l = Some rest
  <-> exists d, l = d ++ rest /\ date_shaped (string_of_list_ascii d) = true.
Proof.
  split.
  - intros Hm. unfold date_pieces in Hm. cbn in Hm. read_pattern Hm.
    injection Hm as ->.
    eexists [_; _; _; _; _; _; _; _; _; _]. split; [reflexivity|].
    unfold date_shaped. rewrite list_ascii_of_string_of_list_ascii. cbn.
    repeat match goal with Hd : isdigit _ = true |- _ => rewrite Hd; clear Hd end.
    by rewrite !bool_decide_eq_true_2.
  - intros (d & -> & Hd). unfold date_shaped in Hd.
    rewrite list_ascii_of_string_of_list_ascii in Hd.
    do 11 (destruct d as [|? d]; try discriminate Hd).
    cbn in Hd.
    split_bools.
    unfold date_pieces. cbn.
    repeat first
      [ match goal with
        | Hx : isdigit _ = true |- _ => rewrite Hx; clear Hx; cbn
        end
      | rewrite decide_True by done; cbn ].
    done.
Qed.

Lemma date_shaped_chars a :
  date_shaped a = true ->
  Forall (λ c, isspace c = false) (list_ascii_of_string a)
  /\ list_ascii_of_string a ≠ [].
Proof.
  unfold date_shaped. intros Hd.
  destruct (list_ascii_of_string a) as [|? l]; [discriminate Hd|].
  do 10 (destruct l as [|? l]; try discriminate Hd).
  cbn in Hd.
  split_bools.
  split; [|done].
  repeat (apply Forall_cons_2; [first [by apply isdigit_not_space | done]|]).
  apply Forall_nil_2.
Qed.

Lemma split_go_word w : forall word rest,
  Forall (λ c, isspace c = false) w ->
  split_go word (w ++ rest) = split_go (rev w ++ word) rest.
Proof.
  induction w as [|c w IH]; intros word rest Hw; simpl; [done|].
  apply Forall_cons in Hw as [-> Hw]. rewrite IH by done.
  by rewrite <- app_assoc.
Qed.

Lemma chars_app s1 s2 :
  list_ascii_of_string (s1 ++ s2) = list_ascii_of_string s1 ++ list_ascii_of_string s2.
Proof. induction s1 as [|c s1 IH]; simpl; [done | by rewrite IH]. Qed.

Lemma split_two_words a b tail :
  Forall (λ c, isspace c = false) (list_ascii_of_string a) ->
  Forall (λ c, isspace c = false) (list_ascii_of_string b) ->
  list_ascii_of_string a ≠ [] -> list_ascii_of_string b ≠ [] ->
  Forall (λ c, isspace c = true) tail ->
  split_go [] (list_ascii_of_string a ++ " "%char :: list_ascii_of_string b ++ tail) = [a; b].
Proof.
  intros Ha Hb Hna Hnb Htail.
  rewrite split_go_word by done. rewrite app_nil_r. cbn [split_go].
  change (isspace " ") with true. cbn match.
  rewrite split_go_word by done. rewrite app_nil_r.
  rewrite !rev_involutive.
  assert (Ht : forall w : list ascii, w ≠ [] -> list_truthy (rev w) = true).
  { intros w Hw. destruct w as [|c w]; [done|]. simpl. by destruct (rev w). }
  rewrite Ht by done.
  assert (Hspaces : split_go [] tail = []).
  { clear -Htail. induction Htail as [|c tail Hc _ IH]; simpl; [done|]. by rewrite Hc. }
  assert (Hend : split_go (rev (list_ascii_of_string b)) tail = [b]).
  { destruct Htail as [|c tail Hc Htail]; simpl.
    - rewrite Ht by done. by rewrite rev_involutive, string_of_list_ascii_of_string.
    - rewrite Hc, Ht by done. rewrite rev_involutive, string_of_list_ascii_of_string.
      simpl in Hspaces. rewrite Hc in Hspaces. simpl in Hspaces. by rewrite Hspaces. }
  rewrite Hend. by rewrite string_of_list_ascii_of_string.
Qed.

Lemma newline_is_space c : nat_of_ascii c = 10%nat -> isspace c = true.
Proof. intros Hc. unfold isspace. by rewrite Hc. Qed.

Lemma two_dates_split a b :
  date_shaped a = true -> date_shaped b = true ->
  split (a ++ " " ++ b) = [a; b].
Proof.
  intros Ha Hb.
  destruct (date_shaped_chars _ Ha) as [Hw1 Hn1], (date_shaped_chars _ Hb) as [Hw2 Hn2].
  unfold split. rewrite !chars_app. simpl.
  rewrite <- (app_nil_r (list_ascii_of_string b)).
  by apply split_two_words.
Qed.

Lemma two_dates_match a b :
  date_shaped a = true -> date_shaped b = true ->
  re_match date_pattern (a ++ " " ++ b) = true.
Proof.
  intros Ha Hb. unfold re_match. rewrite !chars_app.
  change (list_ascii_of_string " ") with [" "%char].
  unfold date_pattern. rewrite match_pieces_app.
  assert (Hma : match_pieces date_pieces
                  (list_ascii_of_string a ++ [" "%char] ++ list_ascii_of_string b)
                = Some ([" "%char] ++ list_ascii_of_string b)).
  { apply match_date. eexists. split; [reflexivity|].
    by rewrite string_of_list_ascii_of_string. }
  rewrite Hma, match_pieces_app. cbn [match_pieces match_piece app].
  rewrite decide_True by done.
  assert (Hmb : match_pieces date_pieces (list_ascii_of_string b) = Some []).
  { apply match_date. eexists. split; [by rewrite app_nil_r|].
    by rewrite string_of_list_ascii_of_string. }
  by rewrite Hmb.
Qed.

Lemma match_two_dates text :
  re_match date_pattern (strip text) = true ->
  exists a b,
    strip text = (a ++ " " ++ b)%string /\ date_shaped a = true /\ date_shaped b = true.
Proof.
  unfold re_match, date_pattern. rewrite match_pieces_app.
  destruct (match_pieces date_pieces (list_ascii_of_string (strip text)))
    as [l1|] eqn:H1; [|done].
  apply match_date in H1 as (d1 & Hl & Hd1).
  rewrite match_pieces_app. cbn [match_pieces match_piece].
  destruct l1 as [|c l2]; [done|].
  destruct (decide (c = " "%char)) as [->|]; [|done].
  destruct (match_pieces date_pieces l2) as [rest|] eqn:H2; [|done].
  apply match_date in H2 as (d2 & -> & Hd2).
  intros Hend.
  assert (Hrest : rest = []).
  { destruct rest as [|c [|? ?]]; [done| |done]. exfalso.
    simpl in Hend. apply bool_decide_eq_true, newline_is_space in Hend.
    destruct (strip_trimmed text) as [_ Hr]. rewrite Hl in Hr.
    replace (d1 ++ " "%char :: d2 ++ [c]) with ((d1 ++ " "%char :: d2) ++ [c]) in Hr
      by (by rewrite <- app_assoc).
    rewrite rev_app_distr in Hr. simpl in Hr. congruence. }
  subst rest. rewrite app_nil_r in Hl.
  exists (string_of_list_ascii d1), (string_of_list_ascii d2).
  split_and!; [|done|done].
  apply chars_inj. rewrite Hl, !chars_app, !list_ascii_of_string_of_list_ascii.
  reflexivity.
Qed.

(** X12. The text that [receive_dates] takes for a date range.  The
    stripped text matches the pattern exactly when it is two dates, each of
    the shape four digits, hyphen, two digits, hyphen, two digits, with one
    space character between them and nothing after; [split] then gives
    these two dates and no third word, so that the unpacking into a start
    and an end does not fail.  The pattern looks at the shape alone. *)
Theorem X12_accepted_input_is_two_dates text :
  re_match date_pattern (strip text) = true
  <-> exists a b,
        strip text = (a ++ " " ++ b)%string
        /\ date_shaped a = true /\ date_shaped b = true
        /\ split (strip text) = [a; b].
Proof.
  split.
  - intros (a & b & Hs & Ha & Hb)%match_two_dates. exists a, b.
    split_and!; [done | done | done |]. rewrite Hs. by apply two_dates_split.
  - intros (a & b & -> & Ha & Hb & _). by apply two_dates_match.
Qed.

End Dates.

(** * The Telegram bot *)

Section BotProperties.

Context {W H E : Type} `{!Driver W H E} {T : Type} `{!Telegram T}.

Variable int_of_str : string -> option Z.

Implicit Types (b : bot (W:=W) (H:=H) (T:=T)) (u : update).

#[local] Set Warnings "-clear-no-such-hyp".

Lemma run_bind_bot {A C} (m : B A) (f : A -> B C) b :
  (m ≫= f) b = match m b with
               | (inr a, b') => f a b'
               | (inl e, b') => (inl e, b')
               end.
Proof. reflexivity. Qed.

(** The check on a chat that is not the owner's: the refusal is passed to
    [reply_text]; the check returns false, or raises what the reply
    raised. *)
Lemma check_refuses u b :
  effective_chat_id u ≠ chat_id b ->
  exists r b',
    _check_authorized u b = (r, b')
    /\ refused b b'
    /\ (r = inr false \/ exists e, r = inl e).
Proof.
  intros Hne. unfold _check_authorized. rewrite run_bind_bot. cbn [self_attr].
  rewrite bool_decide_eq_true_2 by done.
  rewrite run_bind_bot. unfold reply at 1.
  destruct (reply_text u "You are not authorized to use this bot." (telegram b))
    as [[e|[]] t].
  - eexists _, _. split; [reflexivity|]. split; [by repeat split|]. right. by eexists.
  - eexists _, _. split; [reflexivity|]. split; [by repeat split|]. by left.
Qed.

Lemma check_accepts u b :
  effective_chat_id u = chat_id b -> _check_authorized u b = (inr true, b).
Proof.
  intros Heq. unfold _check_authorized. rewrite run_bind_bot. cbn [self_attr].
  by rewrite bool_decide_eq_false_2 by (by intros ?).
Qed.

(** A handler that begins with the check and stops when it fails. *)
Lemma gate {A} (skip : A) (rest : B A) u b :
  effective_chat_id u ≠ chat_id b ->
  refused b ((ok ← _check_authorized u; if negb ok then mret skip else rest) b).2.
Proof.
  intros Hne. rewrite run_bind_bot.
  destruct (check_refuses u b Hne) as (r & b' & -> & Href & [->|[e ->]]); exact Href.
Qed.

(** X13. A message from a chat other than the configured one gets the
    reply "You are not authorized to use this bot." and nothing else: for
    each of the eight handlers, the scraper (its browser, its Seen-Set),
    the status of the bot and the texts sent through the Bot API are left
    as they were. *)
Theorem X13_strangers_reach_nothing u b :
  effective_chat_id u ≠ chat_id b ->
  refused b (start_command u b).2
  /\ refused b (status_command u b).2
  /\ refused b (restart_command u b).2
  /\ refused b (last_otp_command int_of_str u b).2
  /\ refused b (get_old_otps_command u b).2
  /\ refused b (receive_dates u b).2
  /\ refused b (cancel_command u b).2
  /\ refused b (unauthorized_message u b).2.
Proof. intros Hne. split_and!; by apply gate. Qed.

End BotProperties.

Section Returns.

Context {W H E : Type} `{!Driver W H E}.

Implicit Types (st : state W H).

Ltac returns_by_handlers :=
  rewrite run_try_except;
  match goal with |- context [?m ?st] =>
    match type of (m st) with
    | (_ * state _ _)%type => destruct (m st) as [[e|a] st1]
    end
  end; [|by eauto];
  cbn [handle];
  repeat match goal with
  | |- context [isinstance_any ?e ?cs] =>
      first [ rewrite (isinstance_PyException e)
            | destruct (isinstance_any e cs) ];
      [ rewrite ?run_bind, ?send_notification_run; by eauto | ]
  | |- context [isinstance_any ?e [PyException]] => rewrite (isinstance_PyException e)
  end;
  rewrite ?run_bind, ?send_notification_run; by eauto.

Lemma login_returns st : exists ok st', login st = (inr ok, st').
Proof. unfold login. returns_by_handlers. Qed.

Lemma handle_popup_returns st : exists ok st', handle_popup st = (inr ok, st').
Proof. unfold handle_popup. returns_by_handlers. Qed.

Lemma navigate_to_otp_page_returns st :
  exists ok st', navigate_to_otp_page st = (inr ok, st').
Proof. unfold navigate_to_otp_page. returns_by_handlers. Qed.

Lemma get_historical_otps_returns s1 s2 st :
  exists found st', get_historical_otps s1 s2 st = (inr found, st').
Proof. unfold get_historical_otps. returns_by_handlers. Qed.

End Returns.

Section Polls.

Context {W H E : Type} `{!Driver W H E}.

#[local] Set Warnings "-clear-no-such-hyp".

Lemma poll_cycles_spec n : forall st : state W H,
  exists outs st',
    poll_cycles n st = (inr outs, st')
    /\ NoDup (concat outs)
    /\ (forall x, x ∈ concat outs -> (x ∉ sent_otps st) /\ x ≠ "")
    /\ sent_otps st' = sent_otps st ∪ list_to_set (concat outs).
Proof.
  induction n as [|n IH]; intros st; simpl.
  - exists [], st. simpl. split_and!; [done | constructor | set_solver | set_solver].
  - rewrite run_bind.
    destruct (fetch_new_otps_spec st) as (out & st1 & -> & Hnd & Hnew & Hs1).
    rewrite run_bind.
    destruct (IH st1) as (outs & st2 & -> & Hnds & Hnews & Hs2).
    exists (out :: outs), st2. simpl. split_and!; [done | | |].
    + apply NoDup_app. split_and!; [done | | done].
      intros x Hx Hx'. apply Hnews in Hx' as [Hx' _]. set_solver.
    + intros x [Hx|Hx]%elem_of_app; [by apply Hnew|].
      apply Hnews in Hx as [Hx ?]. split; [set_solver | done].
    + rewrite Hs2, Hs1, list_to_set_app_L. set_solver.
Qed.

End Polls.

Section BotSteps.

Context {W H E : Type} `{!Driver W H E} {T : Type} `{!Telegram T}.

Implicit Types (b : bot (W:=W) (H:=H) (T:=T)) (u : update).

#[local] Set Warnings "-clear-no-such-hyp".

Lemma said_refl b : said [] [] b b.
Proof. unfold said. by rewrite !app_nil_r. Qed.

Lemma said_trans t1 a1 t2 a2 b1 b2 b3 :
  said t1 a1 b1 b2 -> said t2 a2 b2 b3 -> said (t1 ++ t2) (a1 ++ a2) b1 b3.
Proof.
  intros (Hc1 & Ho1 & Hr1) (Hc2 & Ho2 & Hr2). unfold said.
  rewrite Hc2, Hc1, Ho2, Ho1, Hr2, Hr1. by rewrite !app_assoc.
Qed.

(** [send_message] never raises: a failure of the Bot API ends in the
    log. *)
Lemma send_message_run text b :
  exists b',
    send_message text b = (inr tt, b')
    /\ scraper b' = scraper b /\ bot_status b' = bot_status b
    /\ telegram b' = (bot_send_message (chat_id b) text (telegram b)).2
    /\ said [text] [] b b'.
Proof.
  unfold send_message.
  destruct (bot_send_message (chat_id b) text (telegram b)) as [[e|[]] t];
    eexists; (split; [reflexivity|]); unfold said; simpl; by rewrite app_nil_r.
Qed.

Lemma send_each_run prefix otps : forall b,
  exists b',
    send_each prefix otps b = (inr tt, b')
    /\ scraper b' = scraper b /\ bot_status b' = bot_status b
    /\ said ((λ otp, prefix ++ otp)%string <$> otps) [] b b'.
Proof.
  induction otps as [|otp rest IH]; intros b; simpl.
  - exists b. split_and!; [done | done | done | apply said_refl].
  - rewrite run_bind_bot.
    destruct (send_message_run (prefix ++ otp) b) as (b1 & -> & Hs1 & Hst1 & _ & Hsaid1).
    destruct (IH b1) as (b2 & -> & Hs2 & Hst2 & Hsaid2).
    exists b2. split_and!; [done | congruence | congruence |].
    apply (said_trans _ _ _ _ _ _ _ Hsaid1 Hsaid2).
Qed.

Lemma reply_run u text b r t :
  reply_text u text (telegram b) = (r, t) ->
  exists b',
    reply u text b = (r, b')
    /\ scraper b' = scraper b /\ bot_status b' = bot_status b
    /\ telegram b' = t
    /\ said [] [text] b b'.
Proof.
  intros Hr. unfold reply. rewrite Hr. eexists. split; [reflexivity|].
  unfold said. simpl. by rewrite app_nil_r.
Qed.

Lemma on_scraper_run {A} (m : M W H A) b r s :
  m (scraper b) = (r, s) -> on_scraper m b = (r, set_scraper s b).
Proof. intros Hm. unfold on_scraper. by rewrite Hm. Qed.

Lemma said_set_scraper s b : said [] [] b (set_scraper s b).
Proof. unfold said. simpl. by rewrite !app_nil_r. Qed.

(** One run of the monitor job. *)
Lemma monitor_otps_run b :
  exists out b',
    monitor_otps b = (inr tt, b')
    /\ fetch_new_otps (scraper b) = (inr out, scraper b')
    /\ bot_status b' = bot_status b
    /\ said ((λ otp, "New OTP received: " ++ otp)%string <$> out) [] b b'.
Proof.
  destruct (fetch_new_otps_spec (scraper b)) as (out & s' & Hrun & _).
  unfold monitor_otps. rewrite run_bind_bot, (on_scraper_run _ _ _ _ Hrun).
  destruct out as [|otp out].
  - simpl. eexists [], _. split; [reflexivity|]. simpl. split_and!; [done | done |].
    unfold said. simpl. by rewrite !app_nil_r.
  - cbn [list_truthy].
    destruct (send_each_run "New OTP received: " (otp :: out) (set_scraper s' b))
      as (b' & -> & Hs & Hst & Hsaid).
    exists (otp :: out), b'. split_and!; [done | by rewrite Hs | by rewrite Hst |].
    apply (said_trans [] [] _ [] _ _ _ (said_set_scraper s' b)) in Hsaid. exact Hsaid.
Qed.

Lemma monitor_ticks_run n : forall b,
  exists outs b',
    monitor_ticks n b = (inr tt, b')
    /\ poll_cycles n (scraper b) = (inr outs, scraper b')
    /\ bot_status b' = bot_status b
    /\ said ((λ otp, "New OTP received: " ++ otp)%string <$> concat outs) [] b b'.
Proof.
  induction n as [|n IH]; intros b; simpl.
  - exists [], b. split_and!; [done | done | done | apply said_refl].
  - rewrite run_bind_bot.
    destruct (monitor_otps_run b) as (out & b1 & -> & Hrun & Hst1 & Hsaid1).
    destruct (IH b1) as (outs & b2 & -> & Hruns & Hst2 & Hsaid2).
    exists (out :: outs), b2. rewrite !run_bind, Hrun, run_bind, Hruns. simpl.
    split_and!; [done | done | congruence |].
    rewrite fmap_app. apply (said_trans _ _ _ _ _ _ _ Hsaid1 Hsaid2).
Qed.


End BotSteps.

Section Commands.

Context {W H E : Type} `{!Driver W H E} {T : Type} `{!Telegram T}.

Variable int_of_str : string -> option Z.

Implicit Types (b : bot (W:=W) (H:=H) (T:=T)) (u : update).

#[local] Set Warnings "-clear-no-such-hyp".

Lemma last_n_spec {A} count (l : list A) :
  last_n count l `suffix_of` l
  /\ length (last_n count l) = (Z.to_nat count `min` length l)%nat.
Proof.
  unfold last_n. split; [apply suffix_drop|]. rewrite length_drop. lia.
Qed.

(** X15. [/last_otp] from the owner with no argument (the count is then 1)
    or with a count that [int] reads as a positive integer, when the reply
    "Fetching last ... OTPs..." goes through.  The command runs one
    [fetch_new_otps], so it sees the records that are new at that moment;
    it passes to [send_message] the last [count] of them (all of them when
    they are fewer), or "No OTPs found on the page." when no record is new.
    All the new records are in the Seen-Set afterwards, also those it did
    not show: no later run of the monitor job sends one of them. *)
Theorem X15_last_otp_shows_count_marks_all u b count t1 :
  effective_chat_id u = chat_id b ->
  (args u = [] /\ count = 1
   \/ exists arg rest, args u = arg :: rest /\ int_of_str arg = Some count /\ 0 < count) ->
  reply_text u ("Fetching last " ++ pretty count ++ " OTPs...") (telegram b) = (inr tt, t1) ->
  exists news b',
    last_otp_command int_of_str u b = (inr tt, b')
    /\ fetch_new_otps (scraper b) = (inr news, scraper b')
    /\ outbox b'
       = outbox b ++ (if list_truthy news
                      then (λ otp, "Last OTP: " ++ otp)%string <$> last_n count news
                      else ["No OTPs found on the page."])
    /\ last_n count news `suffix_of` news
    /\ length (last_n count news) = (Z.to_nat count `min` length news)%nat
    /\ (forall x, x ∈ news -> x ∈ sent_otps (scraper b'))
    /\ (forall n, exists outs b'',
          monitor_ticks n b' = (inr tt, b'')
          /\ outbox b''
             = outbox b' ++ ((λ otp, "New OTP received: " ++ otp)%string <$> concat outs)
          /\ forall x, x ∈ news -> x ∉ concat outs).
Proof.
  intros Hauth Hcount Hreply.
  destruct (fetch_new_otps_spec (scraper b)) as (news & s' & Hrun & _ & _ & Hsent).
  unfold last_otp_command. rewrite run_bind_bot, check_accepts by done. cbn [negb].
  assert (Hparse :
    match args u with
    | [] => inr 1
    | arg :: _ =>
        match int_of_str arg with
        | Some count0 =>
            if bool_decide (count0 <= 0) then inl "Count must be a positive integer."
            else inr count0
        | None => inl "Please provide a valid number for count (e.g., /last_otp 5)."
        end
    end = inr count).
  { destruct Hcount as [[-> ->]|(arg & rest & -> & -> & Hpos)]; [done|].
    by rewrite bool_decide_eq_false_2 by lia. }
  rewrite Hparse. rewrite run_bind_bot.
  destruct (reply_run _ _ _ _ _ Hreply) as (b1 & -> & Hs1 & Hst1 & _ & Hsaid1).
  rewrite run_bind_bot. rewrite <- Hs1 in Hrun. rewrite (on_scraper_run _ _ _ _ Hrun).
  assert (Hend : exists b',
    (if list_truthy news
     then send_each "Last OTP: " (last_n count news)
     else send_message "No OTPs found on the page.") (set_scraper s' b1) = (inr tt, b')
    /\ scraper b' = s'
    /\ said (if list_truthy news
             then (λ otp, "Last OTP: " ++ otp)%string <$> last_n count news
             else ["No OTPs found on the page."]) [] b1 b').
  { destruct (list_truthy news).
    - destruct (send_each_run "Last OTP: " (last_n count news) (set_scraper s' b1))
        as (b' & -> & Hs & _ & Hsaid). exists b'. split_and!; [done | done |].
      exact (said_trans [] [] _ [] _ _ _ (said_set_scraper s' b1) Hsaid).
    - destruct (send_message_run "No OTPs found on the page." (set_scraper s' b1))
        as (b' & -> & Hs & _ & _ & Hsaid). exists b'. split_and!; [done | done |].
      exact (said_trans [] [] _ [] _ _ _ (said_set_scraper s' b1) Hsaid). }
  destruct Hend as (b' & -> & Hs' & Hsaid').
  pose proof (said_trans _ _ _ _ _ _ _ Hsaid1 Hsaid') as (_ & Hout & _).
  exists news, b'. rewrite Hs'. rewrite Hs1 in Hrun.
  destruct (last_n_spec count news) as [Hsuf Hlen].
  split_and!; [done | done | done | done | done | |].
  - intros x Hx. rewrite Hsent. set_solver.
  - intros n.
    destruct (monitor_ticks_run n b') as (outs & b'' & Hticks & Hpoll & _ & _ & Hout' & _).
    destruct (poll_cycles_spec n (scraper b')) as (outs' & s'' & Hpoll' & _ & Hnew & _).
    rewrite Hpoll in Hpoll'. injection Hpoll' as <- <-.
    exists outs, b''. split_and!; [done | done |].
    intros x Hx Hx'. apply Hnew in Hx' as [Hx' _]. apply Hx'.
    rewrite Hs', Hsent. set_solver.
Qed.

(** X16. [/last_otp] from the owner with a first argument that [int]
    rejects, or reads as zero or a negative integer: the one reply is the
    complaint ("Please provide a valid number ..." in the first case,
    "Count must be a positive integer." in the second), the scraper is not
    called, and nothing is passed to [send_message]. *)
Theorem X16_last_otp_refuses_bad_count u b arg rest :
  effective_chat_id u = chat_id b ->
  args u = arg :: rest ->
  (int_of_str arg = None \/ exists count, int_of_str arg = Some count /\ count <= 0) ->
  let b' := (last_otp_command int_of_str u b).2 in
  scraper b' = scraper b
  /\ bot_status b' = bot_status b
  /\ outbox b' = outbox b
  /\ replies b'
     = replies b ++ [match int_of_str arg with
                     | Some _ => "Count must be a positive integer."
                     | None => "Please provide a valid number for count (e.g., /last_otp 5)."
                     end].
Proof.
  intros Hauth Hargs Hbad. unfold last_otp_command.
  rewrite run_bind_bot, check_accepts by done. cbn [negb]. rewrite Hargs.
  destruct Hbad as [->|(count & -> & Hle)].
  - unfold reply. by destruct (reply_text _ _ _).
  - rewrite bool_decide_eq_true_2 by done.
    unfold reply. by destruct (reply_text _ _ _).
Qed.

End Commands.

Section Conversation.

Context {W H E : Type} `{!Driver W H E} {T : Type} `{!Telegram T}.

Implicit Types (b : bot (W:=W) (H:=H) (T:=T)) (u : update).

#[local] Set Warnings "-clear-no-such-hyp".

(** X17. [receive_dates] on a message of the owner.  When the stripped
    text does not match the pattern, the reply is "Invalid date format.
    ...", the conversation stays in [DATE_INPUT] (unless the reply itself
    raised), and the scraper is not called.  When the stripped text is two
    dates with a space between them and the "Fetching historical OTPs"
    reply goes through: [get_historical_otps] runs with these two dates,
    the handler returns [END], and [send_message] gets "Historical OTP: "
    and a record for each record returned, in order, or the one text "No
    historical OTPs found for the period ..." when none is returned.  The
    Seen-Set stays as it was: the records shown here are not marked as
    sent. *)
Theorem X17_receive_dates u b :
  effective_chat_id u = chat_id b ->
  (re_match date_pattern (strip (message_text u)) = false ->
   ((receive_dates u b).1 = inr DATE_INPUT \/ exists e, (receive_dates u b).1 = inl e)
   /\ scraper (receive_dates u b).2 = scraper b
   /\ outbox (receive_dates u b).2 = outbox b
   /\ replies (receive_dates u b).2
      = replies b ++ ["Invalid date format. Please use YYYY-MM-DD YYYY-MM-DD."])
  /\ (forall d1 d2 t1,
        strip (message_text u) = (d1 ++ " " ++ d2)%string ->
        date_shaped d1 = true -> date_shaped d2 = true ->
        reply_text u ("Fetching historical OTPs from " ++ d1 ++ " to " ++ d2 ++ "...")
          (telegram b) = (inr tt, t1) ->
        exists found b',
          receive_dates u b = (inr END, b')
          /\ get_historical_otps d1 d2 (scraper b) = (inr found, scraper b')
          /\ outbox b'
             = outbox b
               ++ (if list_truthy found
                   then (λ otp, "Historical OTP: " ++ otp)%string <$> found
                   else [("No historical OTPs found for the period " ++ d1 ++ " to "
                          ++ d2 ++ ".")%string])
          /\ sent_otps (scraper b') = sent_otps (scraper b)).
Proof.
  intros Hauth. split.
  - intros Hno. unfold receive_dates.
    rewrite run_bind_bot, check_accepts by done. cbn [negb]. rewrite Hno. cbn [negb].
    rewrite run_bind_bot. unfold reply.
    destruct (reply_text _ _ _) as [[e|[]] t]; simpl; split_and!; eauto.
  - intros d1 d2 t1 Htext Ha Hb Hreply. unfold receive_dates.
    rewrite run_bind_bot, check_accepts by done. cbn [negb].
    rewrite Htext, two_dates_match by done. cbn [negb].
    rewrite run_bind_bot, two_dates_split by done. cbn [unpack_two].
    rewrite run_bind_bot.
    destruct (reply_run _ _ _ _ _ Hreply) as (b1 & -> & Hs1 & _ & _ & Hsaid1).
    destruct (get_historical_otps_returns d1 d2 (scraper b)) as (found & s' & Hrun).
    pose proof (keeps_get_historical_otps d1 d2 (scraper b)) as Hkeep.
    rewrite Hrun in Hkeep. simpl in Hkeep.
    rewrite run_bind_bot. rewrite <- Hs1 in Hrun. rewrite (on_scraper_run _ _ _ _ Hrun).
    rewrite Hs1 in Hrun.
    rewrite run_bind_bot.
    destruct (list_truthy found) eqn:Hf.
    + destruct (send_each_run "Historical OTP: " found (set_scraper s' b1))
        as (b' & -> & Hs & _ & Hsaid).
      apply (said_trans [] [] _ [] _ _ _ (said_set_scraper s' b1)) in Hsaid.
      pose proof (said_trans _ _ _ _ _ _ _ Hsaid1 Hsaid) as (_ & Hout & _).
      exists found, b'. simpl in Hs. rewrite Hs, Hf. by split_and!.
    + destruct (send_message_run
                  ("No historical OTPs found for the period " ++ d1 ++ " to " ++ d2 ++ ".")
                  (set_scraper s' b1))
        as (b' & -> & Hs & _ & _ & Hsaid).
      apply (said_trans [] [] _ [] _ _ _ (said_set_scraper s' b1)) in Hsaid.
      pose proof (said_trans _ _ _ _ _ _ _ Hsaid1 Hsaid) as (_ & Hout & _).
      exists found, b'. simpl in Hs. rewrite Hs, Hf. by split_and!.
Qed.

End Conversation.

Section StartRestart.

Context {W H E : Type} `{!Driver W H E} {T : Type} `{!Telegram T}.

Implicit Types (b : bot (W:=W) (H:=H) (T:=T)) (u : update).

#[local] Set Warnings "-clear-no-such-hyp".

Ltac bot_done :=
  simpl; unfold said; simpl; split_and?; first [done | congruence].

Lemma start_command_run u b t1 :
  effective_chat_id u = chat_id b ->
  reply_html u (greeting u) (telegram b) = (inr tt, t1) ->
  exists r b',
    start_command u b = (r, b')
    /\ said ["Bot is online and running."] [greeting u] b b'
    /\ started b r b' (bot_send_message (chat_id b) "Bot is online and running." t1).2.
Proof.
  intros Hauth Hreply. unfold start_command.
  rewrite run_bind_bot, check_accepts by done. cbn [negb].
  rewrite run_bind_bot. unfold reply_as_html at 1. fold (greeting u). rewrite Hreply.
  rewrite run_bind_bot. unfold set_status at 1.
  rewrite run_bind_bot.
  match goal with |- context [send_message ?text ?b0] =>
    destruct (send_message_run text b0) as (b2 & -> & Hs2 & Hst2 & Ht2 & Hc2 & Ho2 & Hr2)
  end.
  simpl in Hs2, Hst2, Ht2, Hc2, Ho2, Hr2. rewrite app_nil_r in Hr2.
  destruct (login_returns (scraper b)) as (logged_in & s1 & Hlogin).
  pose proof (keeps_login (scraper b)) as Hk1. rewrite Hlogin in Hk1. simpl in Hk1.
  rewrite run_bind_bot. rewrite <- Hs2 in Hlogin at 1.
  rewrite (on_scraper_run _ _ _ _ Hlogin). rewrite Hs2 in Hlogin.
  destruct logged_in.
  2:{ eexists _, _. split; [reflexivity|]. split; [bot_done|].
      unfold started. exists false, s1. bot_done. }
  rewrite run_bind_bot. unfold set_status at 1.
  destruct (handle_popup_returns s1) as (popped & s2 & Hpop).
  pose proof (keeps_handle_popup s1) as Hk2. rewrite Hpop in Hk2. simpl in Hk2.
  rewrite run_bind_bot. unfold on_scraper at 1. simpl. rewrite Hpop.
  rewrite run_bind_bot. unfold set_status at 1. simpl.
  destruct (navigate_to_otp_page_returns s2) as (on_page & s3 & Hnav).
  pose proof (keeps_navigate_to_otp_page s2) as Hk3. rewrite Hnav in Hk3. simpl in Hk3.
  rewrite run_bind_bot. unfold on_scraper at 1. simpl. rewrite Hnav.
  destruct on_page.
  2:{ eexists _, _. split; [reflexivity|]. split; [bot_done|].
      unfold started. exists true, s1. split_and!; [done | simpl; congruence |].
      exists false. rewrite Hpop. bot_done. }
  rewrite run_bind_bot. unfold set_status at 1. simpl.
  assert (Hfin : forall (r : exn + unit) b',
    said ["Bot is online and running."] [greeting u] b b' ->
    scraper b' = s3 -> bot_status b' = waiting_status ->
    exists r0 b0, (r, b') = (r0, b0)
      /\ said ["Bot is online and running."] [greeting u] b b0
      /\ started b r0 b0 (bot_send_message (chat_id b) "Bot is online and running." t1).2).
  { intros r b' Hsaid Hs Hst. exists r, b'. split_and!; [done | done |].
    unfold started. exists true, s1. split_and!; [done | rewrite Hs; congruence |].
    exists true. rewrite Hpop, Hs. by split. }
  rewrite run_bind_bot. unfold on_telegram at 1. simpl.
  destruct (job_in_jobs "monitor_job" (telegram b2)) as [[e|scheduled] t3];
    [apply Hfin; bot_done|].
  rewrite run_bind_bot.
  destruct scheduled.
  - unfold on_telegram at 1. simpl.
    destruct (remove_first_job "monitor_job" t3) as [[e|[]] t4];
      [apply Hfin; bot_done|].
    rewrite run_bind_bot. cbn [self_attr]. unfold on_telegram. simpl.
    destruct (run_repeating _ _ _ _ t4) as [[e|[]] t5]; apply Hfin; bot_done.
  - cbn [mret B_ret]. rewrite run_bind_bot. cbn [self_attr]. unfold on_telegram. simpl.
    destruct (run_repeating _ _ _ _ t3) as [[e|[]] t5]; apply Hfin; bot_done.
Qed.

(** X18. [/start] from the owner, when the greeting goes through: the one
    text passed to [send_message] is "Bot is online and running."; [login]
    runs on the scraper and the Seen-Set stays as it was.  When [login]
    returns false the status ends as "Login failed."; when it returns true
    and [navigate_to_otp_page], run after [handle_popup], returns false,
    the status ends as "Logged in, but failed to navigate to OTP page.";
    in both cases the command returns and the job queue is not touched.
    When the navigation returns true the status ends as "Logged in and
    waiting for OTPs on the statistics page.", also when a call to the job
    queue raises.  The status never stays at one of the passing ones. *)
Theorem X18_start_ends_in_one_of_three_statuses u b t1 :
  effective_chat_id u = chat_id b ->
  reply_html u (greeting u) (telegram b) = (inr tt, t1) ->
  exists r b',
    start_command u b = (r, b')
    /\ said ["Bot is online and running."] [greeting u] b b'
    /\ started b r b' (bot_send_message (chat_id b) "Bot is online and running." t1).2
    /\ bot_status b' ∈ [waiting_status; lost_status; failed_status].
Proof.
  intros Hauth Hreply.
  destruct (start_command_run u b t1 Hauth Hreply) as (r & b' & Hrun & Hsaid & Hst).
  exists r, b'. split_and!; [done | done | done |].
  destruct Hst as (logged_in & s1 & _ & _ & Hcase).
  destruct logged_in; [destruct Hcase as ([] & _ & Hcase)|].
  - rewrite Hcase. set_solver.
  - destruct Hcase as (_ & -> & _). set_solver.
  - destruct Hcase as (_ & _ & -> & _). set_solver.
Qed.

(** X19. [/restart] from the owner, when its two replies go through: the
    scraper is closed, so [login] runs with no driver handle and starts a
    browser of its own; the run goes on as a [/start] from there.  The
    Seen-Set after the restart is the one before it: a record sent before
    the restart is not new after it. *)
Theorem X19_restart_keeps_the_seen_set u b t0 t1 :
  effective_chat_id u = chat_id b ->
  reply_text u "Restarting web scraping process..." (telegram b) = (inr tt, t0) ->
  reply_html u (greeting u) t0 = (inr tt, t1) ->
  exists r b',
    restart_command u b = (r, b')
    /\ driver (close (scraper b)).2 = None
    /\ started (set_scraper (close (scraper b)).2 b) r b'
         (bot_send_message (chat_id b) "Bot is online and running." t1).2
    /\ sent_otps (scraper b') = sent_otps (scraper b)
    /\ said ["Bot is online and running."]
            ["Restarting web scraping process..."; greeting u] b b'.
Proof.
  intros Hauth Hreply0 Hreply1. unfold restart_command.
  rewrite run_bind_bot, check_accepts by done. cbn [negb].
  rewrite run_bind_bot. unfold reply at 1. rewrite Hreply0.
  rewrite run_bind_bot. unfold set_status at 1.
  rewrite run_bind_bot. unfold on_scraper at 1. cbn [scraper].
  pose proof (keeps_close (scraper b)) as Hk. rewrite close_run in Hk |- *.
  cbn [fst snd] in Hk |- *.
  set (s0 := match driver (scraper b) with
             | Some h =>
                 set_driver None (set_world (driver_quit h (world (scraper b))) (scraper b))
             | None => scraper b
             end) in *.
  match goal with |- context [start_command u ?b0] =>
    destruct (start_command_run u b0 t1) as (r & b' & Hrun & Hsaid & Hst);
      [exact Hauth | exact Hreply1 |]
  end.
  exists r, b'. split_and!.
  - exact Hrun.
  - subst s0. by destruct (driver (scraper b)) eqn:Hd.
  - exact Hst.
  - destruct Hst as (? & ? & _ & Hsent & _). simpl in Hsent. congruence.
  - destruct Hsaid as (Hc & Ho & Hr). simpl in Hc, Ho, Hr. unfold said.
    split_and!; [done | done |]. by rewrite Hr, <- app_assoc.
Qed.

End StartRestart.

(** * The two steps of the pop-up *)

Section PopupSteps.

Context {W H E : Type} `{!Driver W H E}.

Implicit Types (st : state W H) (e : exn).

Lemma isinstance_popup_fault e :
  exn_cls e = WebDriverException \/ exn_cls e = NoSuchElementException ->
  isinstance_any e [TimeoutException] = false
  /\ isinstance_any e [NoSuchElementException; WebDriverException] = true.
Proof. destruct e as [c ?]. simpl. by intros [->| ->]. Qed.

Ltac same_fields st :=
  unfold after_notifications, set_world; simpl;
  destruct (notification_callback st); by rewrite <- ?app_assoc.

(** The three ways the inner [try] goes once "Next" can be clicked. *)
Lemma popup_next_clicked st h n w2 w3 v w4 :
  driver st = Some h ->
  until h 3 (element_to_be_clickable next_locator) (world st) = (inr n, w2) ->
  elem_click n w2 = (inr tt, w3) ->
  until h 3 (invisibility_of_element_located next_locator) w3 = (inr v, w4) ->
  popup_next st = (inr tt, after_notifications [next_notice] (set_world w4 st)).
Proof.
  intros Hd Hnext Hclick Hgone. unfold popup_next.
  rewrite run_try_except, run_bind, (until_run _ _ _ h Hd), Hnext.
  rewrite run_bind. unfold call at 1. cbn [world set_world]. rewrite Hclick.
  rewrite run_bind, (until_run _ _ _ h) by exact Hd. cbn [world set_world]. rewrite Hgone.
  rewrite send_notification_run. reflexivity.
Qed.

Lemma popup_next_stays st h n w2 w3 e w4 :
  driver st = Some h ->
  until h 3 (element_to_be_clickable next_locator) (world st) = (inr n, w2) ->
  elem_click n w2 = (inr tt, w3) ->
  until h 3 (invisibility_of_element_located next_locator) w3 = (inl e, w4) ->
  exn_cls e = TimeoutException ->
  popup_next st = (inr tt, set_world w4 st).
Proof.
  intros Hd Hnext Hclick Hstays Hcls. unfold popup_next.
  rewrite run_try_except, run_bind, (until_run _ _ _ h Hd), Hnext.
  rewrite run_bind. unfold call at 1. cbn [world set_world]. rewrite Hclick.
  rewrite run_bind, (until_run _ _ _ h) by exact Hd. cbn [world set_world]. rewrite Hstays.
  cbn [handle]. by rewrite isinstance_Timeout.
Qed.

Lemma popup_next_click_fault st h n w2 e w3 :
  driver st = Some h ->
  until h 3 (element_to_be_clickable next_locator) (world st) = (inr n, w2) ->
  elem_click n w2 = (inl e, w3) ->
  exn_cls e = WebDriverException \/ exn_cls e = NoSuchElementException ->
  popup_next st = (inl e, set_world w3 st).
Proof.
  intros Hd Hnext Hclick Hcls. destruct (isinstance_popup_fault e Hcls) as [Hno _].
  unfold popup_next.
  rewrite run_try_except, run_bind, (until_run _ _ _ h Hd), Hnext.
  rewrite run_bind. unfold call at 1. cbn [world set_world]. rewrite Hclick.
  cbn [handle]. by rewrite Hno.
Qed.

(** The statements after the inner [try], when "Done" closes the modal. *)
Lemma popup_dismiss_closes st st1 h d w5 w6 v w7 :
  popup_next st = (inr tt, st1) ->
  driver st1 = Some h ->
  until h 5 (element_to_be_clickable done_locator) (world st1) = (inr d, w5) ->
  elem_click d w5 = (inr tt, w6) ->
  until h 5 (invisibility_of_element_located modal_locator) w6 = (inr v, w7) ->
  popup_dismiss st = (inr true, after_notifications [closed_notice] (set_world w7 st1)).
Proof.
  intros Hnext Hd Hdone Hclick Hgone. unfold popup_dismiss.
  rewrite run_bind, Hnext.
  rewrite run_bind, (until_run _ _ _ h Hd), Hdone.
  rewrite run_bind. unfold call at 1. cbn [world set_world]. rewrite Hclick.
  rewrite run_bind, (until_run _ _ _ h) by exact Hd. cbn [world set_world]. rewrite Hgone.
  rewrite run_bind, send_notification_run. reflexivity.
Qed.

(** X20. The "Next" step of the pop-up.  With the modal on the page and
    "Next" clickable:
    - when the click goes through and "Next" is gone within 3 units, and
      then "Done" closes the modal, [handle_popup] returns true after the
      three notices of detection, of the click on "Next" and of closing;
    - when "Next" is still there after 3 units, that timeout is passed
      over: "Done" is tried all the same, and when it closes the modal
      [handle_popup] returns true, with no notice of a click on "Next";
    - when the click on "Next" raises a [WebDriverException] that is no
      timeout, the inner [try] does not hold it: [handle_popup] returns
      false after the notice "Error handling pop-up: ...", and "Done" is
      not tried. *)
Theorem X20_popup_next_step st h m w1 :
  driver st = Some h ->
  until h 5 (presence_of_element_located modal_locator) (world st) = (inr m, w1) ->
  (forall n w2 w3 v w4 d w5 w6 v' w7,
     until h 3 (element_to_be_clickable next_locator) w1 = (inr n, w2) ->
     elem_click n w2 = (inr tt, w3) ->
     until h 3 (invisibility_of_element_located next_locator) w3 = (inr v, w4) ->
     until h 5 (element_to_be_clickable done_locator) w4 = (inr d, w5) ->
     elem_click d w5 = (inr tt, w6) ->
     until h 5 (invisibility_of_element_located modal_locator) w6 = (inr v', w7) ->
     handle_popup st
     = (inr true,
        set_world w7 (after_notifications [detected_notice; next_notice; closed_notice] st)))
  /\ (forall n w2 w3 e w4 d w5 w6 v' w7,
        until h 3 (element_to_be_clickable next_locator) w1 = (inr n, w2) ->
        elem_click n w2 = (inr tt, w3) ->
        until h 3 (invisibility_of_element_located next_locator) w3 = (inl e, w4) ->
        exn_cls e = TimeoutException ->
        until h 5 (element_to_be_clickable done_locator) w4 = (inr d, w5) ->
        elem_click d w5 = (inr tt, w6) ->
        until h 5 (invisibility_of_element_located modal_locator) w6 = (inr v', w7) ->
        handle_popup st
        = (inr true, set_world w7 (after_notifications [detected_notice; closed_notice] st)))
  /\ (forall n w2 e w3,
        until h 3 (element_to_be_clickable next_locator) w1 = (inr n, w2) ->
        elem_click n w2 = (inl e, w3) ->
        exn_cls e = WebDriverException \/ exn_cls e = NoSuchElementException ->
        handle_popup st
        = (inr false,
           set_world w3
             (after_notifications
                [detected_notice; ("Error handling pop-up: " ++ exn_str e)%string] st))).
Proof.
  intros Hd Hmodal.
  rewrite (handle_popup_detected _ h m w1 Hd Hmodal).
  set (st1 := after_notifications [detected_notice] (set_world w1 st)).
  assert (Hd1 : driver st1 = Some h) by exact Hd.
  split_and!.
  - intros n w2 w3 v w4 d w5 w6 v' w7 Hnext Hclick Hgone Hdone Hclick' Hgone'.
    rewrite (popup_dismiss_closes st1 _ h d w5 w6 v' w7
               (popup_next_clicked st1 h n w2 w3 v w4 Hd1 Hnext Hclick Hgone)
               Hd1 Hdone Hclick' Hgone').
    f_equal. subst st1. same_fields st.
  - intros n w2 w3 e w4 d w5 w6 v' w7 Hnext Hclick Hstays Hcls Hdone Hclick' Hgone'.
    rewrite (popup_dismiss_closes st1 _ h d w5 w6 v' w7
               (popup_next_stays st1 h n w2 w3 e w4 Hd1 Hnext Hclick Hstays Hcls)
               Hd1 Hdone Hclick' Hgone').
    f_equal. subst st1. same_fields st.
  - intros n w2 e w3 Hnext Hclick Hcls.
    destruct (isinstance_popup_fault e Hcls) as [Hno Hyes].
    unfold popup_dismiss. rewrite run_bind.
    rewrite (popup_next_click_fault st1 h n w2 e w3 Hd1 Hnext Hclick Hcls).
    cbn [handle]. rewrite Hno, Hyes.
    rewrite run_bind, send_notification_run. cbn [mret M_ret].
    f_equal. subst st1. same_fields st.
Qed.

End PopupSteps.

(** * Runs on the fakes *)

Section MoreRuns.

Import Fake Scenario Cases FakeTelegram.

(** X1, witness: five rows, the first and the fourth without a body cell. *)
Lemma X1_ragged_feed_witness :
  exists records st',
    _extract_otps_from_table ragged_engine = (inr records, st')
    /\ records
       = strip <$> omap id [None; Some "Your code is 111111"; Some "   "; None;
                            Some "Your code is 222222"]
    /\ sent_between ragged_engine st'
         (replicate (missing [None; Some "Your code is 111111"; Some "   "; None;
                              Some "Your code is 222222"]) skip_notice)
    /\ length (RowElem <$> ragged_rows)
       = (length records
          + missing [None; Some "Your code is 111111"; Some "   "; None;
                     Some "Your code is 222222"])%nat
    /\ world st' = world ragged_engine.
Proof.
  pose (w := world ragged_engine).
  apply (X1_extraction_in_page_order ragged_engine tt (Node rows_locator) w w w
           (RowElem <$> ragged_rows)
           [None; Some "Your code is 111111"; Some "   "; None; Some "Your code is 222222"]
           w);
    try reflexivity.
  eapply reads_missing; [reflexivity | reflexivity |].
  eapply reads_cell; [reflexivity | reflexivity |].
  eapply reads_cell; [reflexivity | reflexivity |].
  eapply reads_missing; [reflexivity | reflexivity |].
  eapply reads_cell; [reflexivity | reflexivity |].
  apply reads_nil.
Defined.

(** X2, witness: the empty table as the table widget draws it. *)
Lemma X2_no_data_witness :
  _extract_otps_from_table no_data_engine
  = (inr [],
     after_notifications ["No data available in the SMS statistics table."]
       (set_world (world no_data_engine) no_data_engine)).
Proof.
  apply (X2_extraction_no_data no_data_engine tt (Node rows_locator)
           (world no_data_engine) (Node no_data_locator) []);
    reflexivity.
Defined.

(** X3, witness: the "No data" cell is on the page, no row is. *)
Lemma X3_marker_only_witness :
  _extract_otps_from_table marker_only_engine
  = (inr [],
     after_notifications ["Error extracting OTPs from table: Message: "]
       (set_world (world marker_only_engine) marker_only_engine)).
Proof.
  apply (X3_extraction_wait_fault marker_only_engine tt timeout (world marker_only_engine));
    reflexivity.
Defined.

(** X4, witness: the last record of the five-row feed. *)
Lemma X4_ragged_feed_witness :
  strip "Your code is 222222" = "Your code is 222222"
  /\ starts_with_space "Your code is 222222" = false
  /\ ends_with_space "Your code is 222222" = false.
Proof.
  apply (X4_records_are_stripped ragged_engine
           ["Your code is 111111"; ""; "Your code is 222222"]
           (_extract_otps_from_table ragged_engine).2).
  - reflexivity.
  - apply list_elem_of_In. right. right. left. reflexivity.
Defined.

(** X5, witness: of three rows, one was reported and one is blank. *)
Lemma X5_mixed_feed_witness :
  exists out st',
    fetch_new_otps mixed_engine = (inr out, st')
    /\ out `sublist_of` ["Your code is 111111"; ""; "Your code is 222222"]
    /\ NoDup out
    /\ (forall x, x ∈ out
          <-> x ∈ ["Your code is 111111"; ""; "Your code is 222222"] /\ x ≠ ""
              /\ (x ∉ sent_otps mixed_engine))
    /\ (forall x, x ∈ ["Your code is 111111"; ""; "Your code is 222222"] -> x ≠ "" ->
          x ∈ sent_otps st')
    /\ world st' = loaded (feed [october_row; blank_row; november_row])
    /\ printed st' = [].
Proof.
  pose (w := loaded (feed [october_row; blank_row; november_row])).
  apply (X5_poll_returns_the_new_records mixed_engine tt w
           ["Your code is 111111"; ""; "Your code is 222222"]
           (set_world w mixed_engine));
    reflexivity.
Defined.

(** X6, witness: two polls of the same two-row feed. *)
Lemma X6_two_rows_witness :
  fetch_new_otps (fetch_new_otps two_row_engine).2
  = (inr [], (fetch_new_otps two_row_engine).2)
  /\ sent_otps (fetch_new_otps two_row_engine).2
     = sent_otps (fetch_new_otps two_row_engine).2.
Proof.
  pose (w := loaded (feed [october_row; november_row])).
  apply (X6_second_poll_is_empty two_row_engine tt w
           ["Your code is 111111"; "Your code is 222222"]
           (set_world w two_row_engine) w
           ["Your code is 111111"; "Your code is 222222"]);
    try reflexivity.
  intros x Hx. exact Hx.
Defined.

(** X20, witness: a modal with "Next", then "Done". *)
Lemma X20_two_step_witness :
  handle_popup two_step_engine
  = (inr true,
     set_world (Browser [(otp_page_url, empty_feed)] home_page true)
       (after_notifications [detected_notice; next_notice; closed_notice] two_step_engine)).
Proof.
  pose (w0 := world two_step_engine).
  pose (w1 := Browser [(otp_page_url, empty_feed)] modal_page true).
  pose (w2 := Browser [(otp_page_url, empty_feed)] home_page true).
  assert (Hmodal : until tt 5 (presence_of_element_located modal_locator) w0
                   = (inr (Node modal_locator), w0)) by (vm_compute; reflexivity).
  destruct (X20_popup_next_step two_step_engine tt (Node modal_locator) w0 eq_refl Hmodal)
    as [Htwo _].
  apply (Htwo (Node next_locator) w0 w1 true w1 (Node done_locator) w1 w2 true w2);
    vm_compute; reflexivity.
Defined.

End MoreRuns.

Section BotRunsOnFakes.

Import Fake Scenario Cases FakeTelegram.

(** X13, witness: chat 7 writes to the bot of chat 42. *)
Lemma X13_stranger_witness :
  let b := bot_on two_row_engine true in
  let u := from_stranger "/start" in
  refused b (start_command u b).2
  /\ refused b (status_command u b).2
  /\ refused b (restart_command u b).2
  /\ refused b (last_otp_command int_of_digits u b).2
  /\ refused b (get_old_otps_command u b).2
  /\ refused b (receive_dates u b).2
  /\ refused b (cancel_command u b).2
  /\ refused b (unauthorized_message u b).2.
Proof.
  apply (X13_strangers_reach_nothing int_of_digits (from_stranger "/start")
           (bot_on two_row_engine true)).
  discriminate.
Defined.

(** X15, witness: [/last_otp 1] on a feed with two new records. *)
Lemma X15_last_one_of_two_witness :
  let b := bot_on two_row_engine true in
  let u := from_owner "/last_otp 1" ["1"] in
  exists news b',
    last_otp_command int_of_digits u b = (inr tt, b')
    /\ fetch_new_otps (scraper b) = (inr news, scraper b')
    /\ outbox b'
       = outbox b ++ (if list_truthy news
                      then (λ otp, "Last OTP: " ++ otp)%string <$> last_n 1 news
                      else ["No OTPs found on the page."])
    /\ last_n 1 news `suffix_of` news
    /\ length (last_n 1 news) = (Z.to_nat 1 `min` length news)%nat
    /\ (forall x, x ∈ news -> x ∈ sent_otps (scraper b'))
    /\ (forall n, exists outs b'',
          monitor_ticks n b' = (inr tt, b'')
          /\ outbox b''
             = outbox b' ++ ((λ otp, "New OTP received: " ++ otp)%string <$> concat outs)
          /\ forall x, x ∈ news -> x ∉ concat outs).
Proof.
  apply (X15_last_otp_shows_count_marks_all int_of_digits
           (from_owner "/last_otp 1" ["1"]) (bot_on two_row_engine true) 1 (Chat [] true)).
  - reflexivity.
  - right. exists "1", []. split_and!; [reflexivity | reflexivity | lia].
  - reflexivity.
Defined.

(** X16, witness: [/last_otp 0]. *)
Lemma X16_zero_count_witness :
  let b := bot_on two_row_engine true in
  let b' := (last_otp_command int_of_digits (from_owner "/last_otp 0" ["0"]) b).2 in
  scraper b' = scraper b
  /\ bot_status b' = bot_status b
  /\ outbox b' = outbox b
  /\ replies b' = replies b ++ ["Count must be a positive integer."].
Proof.
  apply (X16_last_otp_refuses_bad_count int_of_digits (from_owner "/last_otp 0" ["0"])
           (bot_on two_row_engine true) "0" []).
  - reflexivity.
  - reflexivity.
  - right. exists 0. split; [reflexivity | lia].
Defined.

(** X17, witness: a range with spaces around it. *)
Lemma X17_october_range_witness :
  let b := bot_on two_row_engine true in
  let u := from_owner "  2025-10-01 2025-10-19 " [] in
  exists found b',
    receive_dates u b = (inr END, b')
    /\ get_historical_otps "2025-10-01" "2025-10-19" (scraper b) = (inr found, scraper b')
    /\ outbox b'
       = outbox b
         ++ (if list_truthy found
             then (λ otp, "Historical OTP: " ++ otp)%string <$> found
             else ["No historical OTPs found for the period 2025-10-01 to 2025-10-19."])
    /\ sent_otps (scraper b') = sent_otps (scraper b).
Proof.
  destruct (X17_receive_dates (from_owner "  2025-10-01 2025-10-19 " [])
              (bot_on two_row_engine true) eq_refl) as [_ Hvalid].
  apply (Hvalid "2025-10-01" "2025-10-19" (Chat [] true)); reflexivity.
Defined.

(** X18, witness: [/start] on the portal whose login does not go through. *)
Lemma X18_start_witness :
  let b := bot_on login_engine true in
  let u := from_owner "/start" [] in
  exists r b',
    start_command u b = (r, b')
    /\ said ["Bot is online and running."] [greeting u] b b'
    /\ started b r b' (Chat [] true)
    /\ bot_status b' ∈ [waiting_status; lost_status; failed_status].
Proof.
  exact (X18_start_ends_in_one_of_three_statuses (from_owner "/start" [])
           (bot_on login_engine true) (Chat [] true) eq_refl eq_refl).
Defined.

(** X19, witness: [/restart] on an engine that has reported a record. *)
Lemma X19_restart_witness :
  let b := bot_on seen_engine true in
  let u := from_owner "/restart" [] in
  exists r b',
    restart_command u b = (r, b')
    /\ driver (close (scraper b)).2 = None
    /\ started (set_scraper (close (scraper b)).2 b) r b' (Chat [] true)
    /\ sent_otps (scraper b') = sent_otps (scraper b)
    /\ said ["Bot is online and running."]
            ["Restarting web scraping process..."; greeting u] b b'.
Proof.
  exact (X19_restart_keeps_the_seen_set (from_owner "/restart" [])
           (bot_on seen_engine true) (Chat [] true) (Chat [] true) eq_refl eq_refl eq_refl).
Defined.

End BotRunsOnFakes.
